(** * mcp-linear: request handlers over the Linear tracker client

    A shallow embedding of the request handlers of the Linear MCP server
    (getTicketByIdHandler.ts, updateTicketHandler.ts in its two revisions,
    updateProjectHandler.ts and the get-projects handler), followed by the
    properties of these handlers.

    Conventions of the embedding.
    - A JavaScript string is a [string]: a sequence of code units, here
      restricted to the range 0..255.
    - A JavaScript number that the tracker defines as an integer (the
      issue number) is a [Z]; a number that a request carries (priority,
      estimate, progress, list limit) is a [Q]: a request is JSON, which
      has fractions but neither NaN nor an infinity. The result of
      [parseInt] is an [option Z], [None] standing for NaN; the integers
      are exact, where JavaScript rounds beyond 2^53 and prints an exponent
      from 10^21 on.
    - An optional property is an [option]; [undefined] is [None].
    - A handler is a computation in the monad [M]: it threads the list of
      remote calls issued so far and the console output, and it ends with
      a returned value or a thrown exception.
    - A handler returns [{content: [{type: "text", text: JSON.stringify(d)}]}];
      the embedding keeps the record [d] that is serialised. *)

From Stdlib Require Import String Ascii List ZArith QArith Qround Bool Lia.
From Stdlib Require Import Numbers.DecimalString.
Import ListNotations.

Open Scope string_scope.
Open Scope Z_scope.

(** ** JavaScript primitives used by the handlers *)

Module Js.

(** [!!s] for a string: only the empty string is falsy. *)
Definition truthy (s : string) : bool :=
  match s with
  | EmptyString => false
  | String _ _ => true
  end.

(** [!!s] for [string | undefined]. *)
Definition truthyOpt (o : option string) : bool :=
  match o with
  | Some s => truthy s
  | None => false
  end.

(** [a || b] on strings. *)
Definition orElse (a b : string) : string :=
  if truthy a then a else b.

Definition inRange (lo hi : nat) (c : ascii) : bool :=
  (Nat.leb lo (nat_of_ascii c) && Nat.leb (nat_of_ascii c) hi)%bool.

(** Lower-casing of one code unit: A-Z, and the Latin-1 capitals
    U+00C0..U+00DE except the multiplication sign U+00D7. *)
Definition toLowerChar (c : ascii) : ascii :=
  if (inRange 65 90 c
      || (inRange 192 222 c && negb (Nat.eqb (nat_of_ascii c) 215)))%bool
  then ascii_of_nat (nat_of_ascii c + 32)
  else c.

(** [s.toLowerCase()] *)
Fixpoint toLowerCase (s : string) : string :=
  match s with
  | EmptyString => EmptyString
  | String c r => String (toLowerChar c) (toLowerCase r)
  end.

(** [s.includes(t)] *)
Fixpoint includes (s t : string) : bool :=
  if String.prefix t s then true
  else match s with
       | EmptyString => false
       | String _ r => includes r t
       end.

(** [s.split(sep)] for a separator of one code unit. *)
Fixpoint split (sep : ascii) (s : string) : list string :=
  match s with
  | EmptyString => [EmptyString]
  | String c r =>
      if Ascii.eqb c sep then EmptyString :: split sep r
      else match split sep r with
           | hd :: tl => String c hd :: tl
           | [] => [String c EmptyString]
           end
  end.

(** White space skipped by [parseInt]: TAB, LF, VT, FF, CR, SP, NBSP. *)
Definition isWhiteSpace (c : ascii) : bool :=
  (inRange 9 13 c || Nat.eqb (nat_of_ascii c) 32
   || Nat.eqb (nat_of_ascii c) 160)%bool.

Fixpoint trimStart (s : string) : string :=
  match s with
  | EmptyString => EmptyString
  | String c r => if isWhiteSpace c then trimStart r else s
  end.

Definition digitOf (c : ascii) : option Z :=
  if inRange 48 57 c then Some (Z.of_nat (nat_of_ascii c - 48)) else None.

(** The longest run of decimal digits at the start of [s]; [acc] is the
    value read so far, [None] while no digit has been read. *)
Fixpoint digits (acc : option Z) (s : string) : option Z :=
  match s with
  | EmptyString => acc
  | String c r =>
      match digitOf c with
      | Some d =>
          digits (Some (10 * match acc with Some a => a | None => 0 end + d)) r
      | None => acc
      end
  end.

(** [parseInt(s, 10)]; [None] is NaN. *)
Definition parseInt (s : string) : option Z :=
  match trimStart s with
  | String "-" r => option_map Z.opp (digits None r)
  | String "+" r => digits None r
  | t => digits None t
  end.

(** [`${n}`] for an integer. *)
Definition numberToString (n : Z) : string :=
  NilZero.string_of_int (Z.to_int n).

(** [Math.min(x, y)] *)
Definition mathMin (x y : Q) : Q := if Qle_bool x y then x else y.

(** The integer that [slice] makes of an index: the fraction is cut off. *)
Definition toInteger (x : Q) : Z :=
  if Qle_bool 0 x then Qfloor x else Qceiling x.

(** The names under which an object literal finds a member of
    [Object.prototype]. Each of these members is truthy: a function, and
    for "__proto__" the prototype itself. *)
Definition objectPrototypeNames : list string :=
  ["constructor"; "__defineGetter__"; "__defineSetter__"; "hasOwnProperty";
   "__lookupGetter__"; "__lookupSetter__"; "isPrototypeOf";
   "propertyIsEnumerable"; "toString"; "valueOf"; "__proto__";
   "toLocaleString"].

End Js.

(** ** Errors and outcomes *)

(** The error codes of the protocol library that the handlers use. *)
Inductive ErrorCode : Type :=
| InvalidParams
| InternalError.

(** A thrown value:
    - an [McpError] built by a handler, with the message given to its
      constructor;
    - another [Error] object, with its message;
    - a value that is no [Error] and neither [null] nor [undefined], with
      the text that [`${value.message}`] gives: the message of an object
      that has one, and "undefined" for a value without this property;
    - [null] or [undefined]: reading [.message] of it throws a
      [TypeError], and [typeError] is the message of that [TypeError] (a
      text of the JavaScript engine). *)
Inductive exn : Type :=
| McpError (code : ErrorCode) (message : string)
| JsError (message : string)
| JsValue (message : string)
| JsNullish (typeError : string).

(** What an awaited promise, or a handler, ends with. *)
Inductive Outcome (A : Type) : Type :=
| Return (a : A)
| Throw (e : exn).

Arguments Return {A} a.
Arguments Throw {A} e.

(** ** Records of the tracker *)

(** [{ id, name, email }] *)
Record User : Type := mkUser
  { user_id : string; user_name : string; user_email : string }.

(** [{ id, name, key }] *)
Record Team : Type := mkTeam
  { team_id : string; team_name : string; team_key : string }.

(** [{ id, name, type }] *)
Record WorkflowState : Type := mkState
  { state_id : string; state_name : string; state_type : string }.

(** [{ id, name, color }] *)
Record IssueLabel : Type := mkLabel
  { label_id : string; label_name : string; label_color : string }.

(** A node of [linearClient.issues(...)], with the properties the handlers
    read. *)
Record Issue : Type := mkIssue
  { issue_id : string;
    issue_title : string;
    issue_description : option string;
    issue_number : Z;
    issue_key : option string;
    issue_createdAt : string;
    issue_updatedAt : string;
    issue_dueDate : option string;
    issue_estimate : option Q;
    issue_priority : option Q;
    issue_url : string;
    issue_assigneeId : option string;
    issue_teamId : option string;
    issue_stateId : option string;
    issue_labelIds : option (list string) }.

(** The issue of a [GraphQLIssueResponse]. *)
Record GraphQLIssue : Type := mkGraphQLIssue
  { gql_id : string;
    gql_title : string;
    gql_description : option string;
    gql_number : Z;
    gql_priority : option Q;
    gql_estimate : option Q;
    gql_dueDate : option string;
    gql_createdAt : string;
    gql_updatedAt : string;
    gql_url : string;
    gql_team : option Team;
    gql_assignee : option User;
    gql_state : option WorkflowState;
    gql_labels : option (list IssueLabel) }.

Record GraphQLIssueResponse : Type := mkGraphQLIssueResponse
  { resp_issue : option GraphQLIssue;
    resp_issueByTeamKeyAndNumber : option GraphQLIssue }.

(** A node of [linearClient.projects(...)]. *)
Record Project : Type := mkProject
  { project_id : string;
    project_name : string;
    project_description : option string;
    project_state : option string;
    project_teamIds : option (list string);
    project_startDate : option string;
    project_targetDate : option string;
    project_progress : option Q;
    project_updatedAt : string;
    project_url : string }.

(** ** Requests sent to the tracker *)

(** The two shapes of the raw query [GetIssue] with its variables. *)
Inductive RawQuery : Type :=
| QueryIssue (id : string)
| QueryIssueByTeamKeyAndNumber (teamKey : option string) (number : option Z).

(** The filter of [linearClient.issues]. *)
Inductive IssueFilter : Type :=
| IssueByTeamKeyAndNumber (teamKey : string) (number : option Z)
| IssueById (id : string).

(** [includeAssignee], [includeTeam], [includeState] and [includeLabels]
    are passed together or not at all. *)
Record IssuesArgs : Type := mkIssuesArgs
  { issues_filter : IssueFilter; issues_expand : bool }.

Inductive TeamFilter : Type :=
| TeamById (id : string)
| TeamByKey (key : string).

Inductive StateFilter : Type :=
| StateById (id : string)
| StateByTeamId (teamId : string).

(** [updateData] of update-ticket. *)
Record IssueUpdate : Type := mkIssueUpdate
  { upd_title : option string;
    upd_description : option string;
    upd_stateId : option string;
    upd_assigneeId : option string;
    upd_priority : option Q;
    upd_dueDate : option string;
    upd_estimate : option Q }.

(** [updateData] of update-project. *)
Record ProjectUpdate : Type := mkProjectUpdate
  { pupd_name : option string;
    pupd_description : option string;
    pupd_stateId : option string;
    pupd_teamIds : option (list string);
    pupd_startDate : option string;
    pupd_targetDate : option string;
    pupd_progress : option Q;
    pupd_icon : option string;
    pupd_color : option string }.

(** What get-projects puts into [state.type.eq]: one of the five state
    types of its table, or the member that the table inherits from
    [Object.prototype] under the name [member]. *)
Inductive StateTypeValue : Type :=
| StateType (name : string)
| InheritedMember (member : string).

(** The filter of [linearClient.projects]: the object built by
    get-projects, with [state.type.eq] set or not, or [id.eq]. *)
Inductive ProjectFilter : Type :=
| ProjectByStateType (stateType : option StateTypeValue)
| ProjectById (id : string).

(** The argument of [linearClient.projects]; [filter] and [first] may be
    absent. *)
Record ProjectsArgs : Type := mkProjectsArgs
  { projects_filter : option ProjectFilter;
    projects_first : option Q }.

(** One remote call. *)
Inductive Call : Type :=
| CallRequest (q : RawQuery)
| CallIssues (a : IssuesArgs)
| CallUsers (id : string)
| CallTeams (f : TeamFilter)
| CallWorkflowStates (f : StateFilter)
| CallIssueLabels
| CallUpdateIssue (id : string) (data : IssueUpdate)
| CallProjects (a : ProjectsArgs)
| CallUpdateProject (id : string) (data : ProjectUpdate).

Record IssuePayload : Type := mkIssuePayload
  { ipayload_success : bool; ipayload_issue : Issue }.

Record ProjectPayload : Type := mkProjectPayload
  { ppayload_success : bool; ppayload_project : Project }.

(** The tracker client. Each method answers from the calls issued before
    it (the tracker is stateful) and its argument; the answer is the list
    of nodes of the connection, or the rejection of the promise. *)
Record LinearClient : Type := mkLinearClient
  { _request : list Call -> RawQuery -> Outcome (option GraphQLIssueResponse);
    issues : list Call -> IssuesArgs -> Outcome (list Issue);
    users : list Call -> string -> Outcome (list User);
    teams : list Call -> TeamFilter -> Outcome (list Team);
    workflowStates : list Call -> StateFilter -> Outcome (list WorkflowState);
    issueLabels : list Call -> Outcome (list IssueLabel);
    updateIssue : list Call -> string -> IssueUpdate -> Outcome IssuePayload;
    projects : list Call -> ProjectsArgs -> Outcome (list Project);
    updateProject :
      list Call -> string -> ProjectUpdate -> Outcome ProjectPayload }.

(** The client [c] with a raw request that is rejected with [e]. *)
Definition rejectingRequest (c : LinearClient) (e : exn) : LinearClient :=
  {| _request := fun _ _ => Throw e;
     issues := issues c;
     users := users c;
     teams := teams c;
     workflowStates := workflowStates c;
     issueLabels := issueLabels c;
     updateIssue := updateIssue c;
     projects := projects c;
     updateProject := updateProject c |}.

(** ** The handler monad *)

Inductive LogEntry : Type :=
| ConsoleError (label : string) (e : exn)
| ConsoleWarn (label : string) (e : exn).

Record World : Type := mkWorld
  { calls : list Call; console : list LogEntry }.

Definition world0 : World := {| calls := []; console := [] |}.

Definition M (A : Type) : Type := World -> Outcome A * World.

Definition ret {A : Type} (a : A) : M A := fun w => (Return a, w).

Definition throw {A : Type} (e : exn) : M A := fun w => (Throw e, w).

Definition bind {A B : Type} (m : M A) (k : A -> M B) : M B :=
  fun w =>
    match m w with
    | (Return a, w') => k a w'
    | (Throw e, w') => (Throw e, w')
    end.

(** [try { m } catch (error) { h error }] *)
Definition tryCatch {A : Type} (m : M A) (h : exn -> M A) : M A :=
  fun w =>
    match m w with
    | (Return a, w') => (Return a, w')
    | (Throw e, w') => h e w'
    end.

(** [await linearClient.method(arg)]: the call is recorded, the client
    answers from the calls made before it. *)
Definition await {A : Type} (c : Call) (answer : list Call -> Outcome A)
  : M A :=
  fun w =>
    (answer (calls w), {| calls := calls w ++ [c]; console := console w |}).

Definition log (l : LogEntry) : M unit :=
  fun w => (Return tt, {| calls := calls w; console := console w ++ [l] |}).

Notation "x <- m ;; k" := (bind m (fun x => k))
  (at level 61, m at next level, right associativity).
Notation "m ;;; k" := (bind m (fun _ => k))
  (at level 61, right associativity).

(** Running a handler from the initial world. *)
Definition run {A : Type} (m : M A) : Outcome A * World := m world0.

(** ** Pieces shared by the ticket handlers *)

(** [name || "Unknown"], [key || fallback] when a team node is reshaped. *)
Definition formatTeam (keyFallback : string) (teamData : Team) : Team :=
  {| team_id := team_id teamData;
     team_name := Js.orElse (team_name teamData) "Unknown";
     team_key := Js.orElse (team_key teamData) keyFallback |}.

Definition formatState (stateData : WorkflowState) : WorkflowState :=
  {| state_id := state_id stateData;
     state_name := Js.orElse (state_name stateData) "Unknown";
     state_type := Js.orElse (state_type stateData) "Unknown" |}.

Definition formatUser (userData : User) : User :=
  {| user_id := user_id userData;
     user_name := Js.orElse (user_name userData) "Unknown";
     user_email := Js.orElse (user_email userData) "" |}.

(** [key || (team ? `${team.key}-${number}` : `ISSUE-${number}`)] *)
Definition ticketKey (key : option string) (team : option Team) (number : Z)
  : string :=
  if Js.truthyOpt key then
    match key with Some k => k | None => "" end
  else
    match team with
    | Some t => team_key t ++ "-" ++ Js.numberToString number
    | None => "ISSUE-" ++ Js.numberToString number
    end.

(** The team lookup by id that follows an issue: [null] when the issue has
    no team id, when no team comes back, and when the lookup throws (then
    with a warning). *)
Definition fetchTeamById (client : LinearClient) (teamId : option string)
  : M (option Team) :=
  match teamId with
  | Some tid =>
      if Js.truthy tid then
        tryCatch
          (nodes <- await (CallTeams (TeamById tid))
                      (fun h => teams client h (TeamById tid)) ;;
           match nodes with
           | teamData :: _ => ret (Some (formatTeam "TEAM" teamData))
           | [] => ret None
           end)
          (fun error =>
             log (ConsoleWarn "Error fetching team:" error) ;;; ret None)
      else ret None
  | None => ret None
  end.

(** The workflow-state lookup by id, with the same shape. *)
Definition fetchStateById (client : LinearClient) (stateId : option string)
  : M (option WorkflowState) :=
  match stateId with
  | Some sid =>
      if Js.truthy sid then
        tryCatch
          (nodes <- await (CallWorkflowStates (StateById sid))
                      (fun h => workflowStates client h (StateById sid)) ;;
           match nodes with
           | stateData :: _ => ret (Some (formatState stateData))
           | [] => ret None
           end)
          (fun error =>
             log (ConsoleWarn "Error fetching state:" error) ;;; ret None)
      else ret None
  | None => ret None
  end.

(** The last [catch] of the ticket and project update handlers: an
    [McpError] is thrown again; any other value is logged and then wrapped
    with [(error as Error).message]. On [null] and [undefined] that read
    throws: the [TypeError] leaves the handler in place of an
    [McpError]. *)
Definition rethrow {A : Type} (label prefix : string) (error : exn) : M A :=
  match error with
  | McpError _ _ => throw error
  | JsError m | JsValue m =>
      log (ConsoleError label error) ;;;
      throw (McpError InternalError (prefix ++ m))
  | JsNullish typeError =>
      log (ConsoleError label error) ;;;
      throw (JsError typeError)
  end.

(** ** getTicketByIdHandler.ts *)

Module GetTicketByIdHandler.

Record GetTicketByIdArgs : Type := mkArgs
  { apiKey : string; ticketId : string }.

(** [ticketData] *)
Record TicketResponse : Type := mkTicketResponse
  { id : string;
    title : string;
    description : option string;
    number : Z;
    key : string;
    createdAt : string;
    updatedAt : string;
    dueDate : option string;
    estimate : option Q;
    priority : option Q;
    assignee : option User;
    team : option Team;
    state : option WorkflowState;
    labels : list IssueLabel;
    url : string }.

(** [issueId], [teamKey] and [issueNumber] after the identifier is parsed. *)
Record Parsed : Type := mkParsed
  { issueId : option string;
    teamKey : option string;
    issueNumber : option string }.

Definition parse (ticketId : string) : Parsed :=
  if Js.includes ticketId "-" then
    let parts := Js.split "-" ticketId in
    {| issueId := None;
       teamKey := nth_error parts 0;
       issueNumber := nth_error parts 1 |}
  else
    {| issueId := Some ticketId; teamKey := None; issueNumber := None |}.

(** [query] and [variables] of the raw request. *)
Definition query (p : Parsed) : RawQuery :=
  match issueId p with
  | Some i =>
      if Js.truthy i then QueryIssue i
      else QueryIssueByTeamKeyAndNumber (teamKey p)
             (match issueNumber p with
              | Some n => if Js.truthy n then Js.parseInt n else Some 0
              | None => Some 0
              end)
  | None =>
      QueryIssueByTeamKeyAndNumber (teamKey p)
        (match issueNumber p with
         | Some n => if Js.truthy n then Js.parseInt n else Some 0
         | None => Some 0
         end)
  end.

(** [response?.issue || response?.issueByTeamKeyAndNumber] *)
Definition responseIssue (response : option GraphQLIssueResponse)
  : option GraphQLIssue :=
  match response with
  | Some r =>
      match resp_issue r with
      | Some i => Some i
      | None => resp_issueByTeamKeyAndNumber r
      end
  | None => None
  end.

(** [ticketData] of the raw path. *)
Definition formatGraphQL (i : GraphQLIssue) : TicketResponse :=
  {| id := gql_id i;
     title := gql_title i;
     description := gql_description i;
     number := gql_number i;
     key := match gql_team i with
            | Some t => team_key t ++ "-" ++ Js.numberToString (gql_number i)
            | None => "ISSUE-" ++ Js.numberToString (gql_number i)
            end;
     createdAt := gql_createdAt i;
     updatedAt := gql_updatedAt i;
     dueDate := gql_dueDate i;
     estimate := gql_estimate i;
     priority := gql_priority i;
     assignee := gql_assignee i;
     team := gql_team i;
     state := gql_state i;
     labels := match gql_labels i with Some l => l | None => [] end;
     url := gql_url i |}.

(** The body of the inner [try]: the raw request. *)
Definition graphqlPath (client : LinearClient) (args : GetTicketByIdArgs)
  (p : Parsed) : M TicketResponse :=
  response <- await (CallRequest (query p))
                (fun h => _request client h (query p)) ;;
  match responseIssue response with
  | None =>
      throw (McpError InternalError ("Ticket not found: " ++ ticketId args))
  | Some i => ret (formatGraphQL i)
  end.

Definition firstIssue (args : GetTicketByIdArgs) (nodes : list Issue)
  : M Issue :=
  match nodes with
  | [] =>
      throw (McpError InternalError ("Ticket not found: " ++ ticketId args))
  | i :: _ => ret i
  end.

(** The filter of the structured query: [teamKey && issueNumber] selects
    the compound filter, anything else the id filter. *)
Definition issuesFilter (args : GetTicketByIdArgs) (p : Parsed)
  : IssueFilter :=
  match teamKey p, issueNumber p with
  | Some k, Some n =>
      if (Js.truthy k && Js.truthy n)%bool
      then IssueByTeamKeyAndNumber k (Js.parseInt n)
      else IssueById (ticketId args)
  | _, _ => IssueById (ticketId args)
  end.

(** The [try] that finds the issue with the structured query. The check
    [if (!issue)] after it cannot fire on a node of a non-empty list. *)
Definition findIssue (client : LinearClient) (args : GetTicketByIdArgs)
  (p : Parsed) : M Issue :=
  let a := {| issues_filter := issuesFilter args p; issues_expand := true |} in
  tryCatch
    (nodes <- await (CallIssues a) (fun h => issues client h a) ;;
     firstIssue args nodes)
    (fun error =>
       log (ConsoleError "Error finding ticket:" error) ;;;
       throw (McpError InternalError
                ("Could not find ticket: " ++ ticketId args))).

Definition fetchAssignee (client : LinearClient) (i : Issue)
  : M (option User) :=
  match issue_assigneeId i with
  | Some aid =>
      if Js.truthy aid then
        tryCatch
          (nodes <- await (CallUsers aid) (fun h => users client h aid) ;;
           match nodes with
           | userData :: _ => ret (Some (formatUser userData))
           | [] => ret None
           end)
          (fun error =>
             log (ConsoleWarn "Error fetching assignee:" error) ;;; ret None)
      else ret None
  | None => ret None
  end.

(** The team: by the issue's team id, else by the parsed team key. *)
Definition fetchTeam (client : LinearClient) (p : Parsed) (i : Issue)
  : M (option Team) :=
  if Js.truthyOpt (issue_teamId i) then fetchTeamById client (issue_teamId i)
  else
    match teamKey p with
    | Some k =>
        if Js.truthy k then
          tryCatch
            (nodes <- await (CallTeams (TeamByKey k))
                        (fun h => teams client h (TeamByKey k)) ;;
             match nodes with
             | teamData :: _ => ret (Some (formatTeam k teamData))
             | [] => ret None
             end)
            (fun error =>
               log (ConsoleWarn "Error fetching team by key:" error) ;;;
               ret None)
        else ret None
    | None => ret None
    end.

Definition unknownLabel (labelId : string) : IssueLabel :=
  {| label_id := labelId; label_name := "Unknown"; label_color := "#cccccc" |}.

(** The callback of [issue.labelIds.map] on the label catalog. *)
Definition lookupLabel (allLabels : list IssueLabel) (labelId : string)
  : IssueLabel :=
  match find (fun l => String.eqb (label_id l) labelId) allLabels with
  | Some foundLabel =>
      {| label_id := label_id foundLabel;
         label_name := Js.orElse (label_name foundLabel) "Unknown";
         label_color := Js.orElse (label_color foundLabel) "#cccccc" |}
  | None => unknownLabel labelId
  end.

Definition fetchLabels (client : LinearClient) (i : Issue)
  : M (list IssueLabel) :=
  match issue_labelIds i with
  | Some (l :: ls) =>
      tryCatch
        (allLabels <- await CallIssueLabels (fun h => issueLabels client h) ;;
         ret (map (lookupLabel allLabels) (l :: ls)))
        (fun error =>
           log (ConsoleWarn "Error fetching labels:" error) ;;;
           ret (map unknownLabel (l :: ls)))
  | _ => ret []
  end.

(** The body of [catch (graphqlError)]; the caught value is not used. *)
Definition fallbackPath (client : LinearClient) (args : GetTicketByIdArgs)
  (p : Parsed) : M TicketResponse :=
  i <- findIssue client args p ;;
  assignee' <- fetchAssignee client i ;;
  team' <- fetchTeam client p i ;;
  state' <- fetchStateById client (issue_stateId i) ;;
  labels' <- fetchLabels client i ;;
  ret {| id := issue_id i;
         title := issue_title i;
         description := issue_description i;
         number := issue_number i;
         key := ticketKey (issue_key i) team' (issue_number i);
         createdAt := issue_createdAt i;
         updatedAt := issue_updatedAt i;
         dueDate := issue_dueDate i;
         estimate := issue_estimate i;
         priority := issue_priority i;
         assignee := assignee';
         team := team';
         state := state';
         labels := labels';
         url := issue_url i |}.

Definition handleRequest (client : LinearClient) (args : GetTicketByIdArgs)
  : M TicketResponse :=
  if negb (Js.truthy (apiKey args)) then
    throw (McpError InvalidParams "Linear API key is required")
  else if negb (Js.truthy (ticketId args)) then
    throw (McpError InvalidParams "Ticket ID or key is required")
  else
    tryCatch
      (let p := parse (ticketId args) in
       tryCatch (graphqlPath client args p)
         (fun _graphqlError => fallbackPath client args p))
      (rethrow "Error retrieving ticket:" "Failed to retrieve ticket: ").

End GetTicketByIdHandler.

(** ** updateTicketHandler.ts *)

(** [x !== undefined] *)
Definition defined {A : Type} (o : option A) : bool :=
  match o with Some _ => true | None => false end.

(** [x < y] and [x > y] on numbers. *)
Definition numLt (x y : Q) : bool := negb (Qle_bool y x).
Definition numGt (x y : Q) : bool := negb (Qle_bool x y).

Module UpdateTicketHandler.

Record UpdateTicketArgs : Type := mkArgs
  { apiKey : string;
    ticketId : string;
    title : option string;
    description : option string;
    stateId : option string;
    assigneeId : option string;
    priority : option Q;
    dueDate : option string;
    estimate : option Q }.

(** [responseData.ticket] *)
Record Ticket : Type := mkTicket
  { t_id : string;
    t_title : string;
    t_description : option string;
    t_number : Z;
    t_key : string;
    t_updatedAt : string;
    t_url : string }.

Record UpdateTicketResponse : Type := mkResponse
  { success : bool; message : string; ticket : Ticket }.

(** [updateFields.some(field => args[field] !== undefined)] *)
Definition hasUpdateField (args : UpdateTicketArgs) : bool :=
  (defined (title args) || defined (description args)
   || defined (stateId args) || defined (assigneeId args)
   || defined (priority args) || defined (dueDate args)
   || defined (estimate args))%bool.

(** [args.priority !== undefined && (args.priority < 0 || args.priority > 4)] *)
Definition priorityOutOfRange (args : UpdateTicketArgs) : bool :=
  match priority args with
  | Some p => (numLt p (0#1) || numGt p (4#1))%bool
  | None => false
  end.

Definition updateData (args : UpdateTicketArgs) : IssueUpdate :=
  {| upd_title := title args;
     upd_description := description args;
     upd_stateId := stateId args;
     upd_assigneeId := assigneeId args;
     upd_priority := priority args;
     upd_dueDate := dueDate args;
     upd_estimate := estimate args |}.

(** The filter built from the identifier: [const [teamKey, issueNumber] =
    args.ticketId.split("-")] in the hyphen branch, the id otherwise.
    [parseInt(undefined, 10)] is NaN. *)
Definition issuesFilter (ticketId : string) : IssueFilter :=
  if Js.includes ticketId "-" then
    let parts := Js.split "-" ticketId in
    IssueByTeamKeyAndNumber (nth 0 parts "")
      (match nth_error parts 1 with
       | Some issueNumber => Js.parseInt issueNumber
       | None => None
       end)
  else IssueById ticketId.

Definition firstIssue (ticketId : string) (nodes : list Issue) : M Issue :=
  match nodes with
  | [] => throw (McpError InternalError ("Ticket not found: " ++ ticketId))
  | i :: _ => ret i
  end.

Definition findIssue (client : LinearClient) (ticketId : string) : M Issue :=
  let a := {| issues_filter := issuesFilter ticketId;
              issues_expand := false |} in
  tryCatch
    (nodes <- await (CallIssues a) (fun h => issues client h a) ;;
     firstIssue ticketId nodes)
    (fun error =>
       log (ConsoleError "Error finding ticket:" error) ;;;
       throw (McpError InternalError ("Could not find ticket: " ++ ticketId))).

(** [await linearClient.updateIssue(issue.id, updateData)] and the check of
    [updateResult.success]. *)
Definition applyUpdate (client : LinearClient) (ticketId : string)
  (i : Issue) (data : IssueUpdate) : M Issue :=
  updateResult <- await (CallUpdateIssue (issue_id i) data)
                    (fun h => updateIssue client h (issue_id i) data) ;;
  if negb (ipayload_success updateResult) then
    throw (McpError InternalError ("Failed to update ticket: " ++ ticketId))
  else ret (ipayload_issue updateResult).

(** The body of the outer [try]. *)
Definition body (client : LinearClient) (args : UpdateTicketArgs)
  : M UpdateTicketResponse :=
  i <- findIssue client (ticketId args) ;;
  updatedIssue <- applyUpdate client (ticketId args) i (updateData args) ;;
  team <- fetchTeamById client (issue_teamId updatedIssue) ;;
  ret {| success := true;
         message := "Ticket updated successfully";
         ticket :=
           {| t_id := issue_id updatedIssue;
              t_title := issue_title updatedIssue;
              t_description := issue_description updatedIssue;
              t_number := issue_number updatedIssue;
              t_key := ticketKey (issue_key updatedIssue) team
                         (issue_number updatedIssue);
              t_updatedAt := issue_updatedAt updatedIssue;
              t_url := issue_url updatedIssue |} |}.

Definition handleRequest (client : LinearClient) (args : UpdateTicketArgs)
  : M UpdateTicketResponse :=
  if negb (Js.truthy (apiKey args)) then
    throw (McpError InvalidParams "Linear API key is required")
  else if negb (Js.truthy (ticketId args)) then
    throw (McpError InvalidParams "Ticket ID or key is required")
  else if negb (hasUpdateField args) then
    throw (McpError InvalidParams "At least one field to update is required")
  else if priorityOutOfRange args then
    throw (McpError InvalidParams "Priority must be between 0 and 4")
  else
    tryCatch (body client args)
      (rethrow "Error updating ticket:" "Failed to update ticket: ").

End UpdateTicketHandler.

(** ** The revision of updateTicketHandler.ts that resolves "done" *)

Module UpdateTicketDoneHandler.

(** The arguments, their validation, the issue lookup and the update call
    have the same text in both revisions. *)
Import UpdateTicketHandler.

(** [responseData.ticket], now with the state. *)
Record Ticket : Type := mkTicket
  { t_id : string;
    t_title : string;
    t_description : option string;
    t_number : Z;
    t_key : string;
    t_updatedAt : string;
    t_state : option WorkflowState;
    t_url : string }.

Record UpdateTicketResponse : Type := mkResponse
  { success : bool; message : string; ticket : Ticket }.

(** [s.toLowerCase() === "done" || s.toLowerCase() === "completed"] *)
Definition isDoneName (s : string) : bool :=
  (String.eqb (Js.toLowerCase s) "done"
   || String.eqb (Js.toLowerCase s) "completed")%bool.

(** [args.stateId && (... "done" || ... "completed")] *)
Definition wantsDone (args : UpdateTicketArgs) : bool :=
  match stateId args with
  | Some s => (Js.truthy s && isDoneName s)%bool
  | None => false
  end.

(** [updateData] before the issue is found: a synonym of "done" is left
    out, any other non-empty [stateId] is copied. *)
Definition updateData (args : UpdateTicketArgs) : IssueUpdate :=
  {| upd_title := title args;
     upd_description := description args;
     upd_stateId :=
       if wantsDone args then None
       else if Js.truthyOpt (stateId args) then stateId args else None;
     upd_assigneeId := assigneeId args;
     upd_priority := priority args;
     upd_dueDate := dueDate args;
     upd_estimate := estimate args |}.

(** The predicate of [workflowStates.nodes.find]. *)
Definition isDoneState (st : WorkflowState) : bool :=
  (String.eqb (Js.toLowerCase (state_name st)) "done"
   || String.eqb (Js.toLowerCase (state_name st)) "completed"
   || String.eqb (state_type st) "completed")%bool.

(** [effectiveTeamId]: the issue's team id, else the id of the first team
    whose key is the text before the first hyphen of the identifier. *)
Definition effectiveTeamId (client : LinearClient) (tid : string) (i : Issue)
  : M (option string) :=
  if (negb (Js.truthyOpt (issue_teamId i)) && Js.includes tid "-")%bool then
    let teamKey := nth 0 (Js.split "-" tid) "" in
    tryCatch
      (nodes <- await (CallTeams (TeamByKey teamKey))
                  (fun h => teams client h (TeamByKey teamKey)) ;;
       match nodes with
       | t :: _ => ret (Some (team_id t))
       | [] => ret (issue_teamId i)
       end)
      (fun error =>
         log (ConsoleWarn ("Error finding team by key " ++ teamKey ++ ":")
                error) ;;;
         ret (issue_teamId i))
  else ret (issue_teamId i).

(** The body of the [try] that resolves the synonym: the id of the state
    to set. *)
Definition findDoneState (client : LinearClient) (tid : string) (i : Issue)
  : M string :=
  team <- effectiveTeamId client tid i ;;
  match team with
  | Some teamId =>
      if Js.truthy teamId then
        nodes <- await (CallWorkflowStates (StateByTeamId teamId))
                   (fun h => workflowStates client h (StateByTeamId teamId)) ;;
        match find isDoneState nodes with
        | Some doneState => ret (state_id doneState)
        | None =>
            throw (McpError InternalError
                     "Could not find a 'Done' state for this team")
        end
      else
        throw (McpError InternalError
                 "Ticket does not have a team, cannot determine workflow states")
  | None =>
      throw (McpError InternalError
               "Ticket does not have a team, cannot determine workflow states")
  end.

(** [(error as Error).message], which throws on [null] and [undefined];
    [mcpMessage] is the text that the constructor of [McpError] stores for
    a code and a message. *)
Definition errorMessage (mcpMessage : ErrorCode -> string -> string)
  (error : exn) : Outcome string :=
  match error with
  | McpError c m => Return (mcpMessage c m)
  | JsError m | JsValue m => Return m
  | JsNullish typeError => Throw (JsError typeError)
  end.

(** [updateData.stateId = doneState.id] *)
Definition setStateId (data : IssueUpdate) (doneId : string) : IssueUpdate :=
  {| upd_title := upd_title data;
     upd_description := upd_description data;
     upd_stateId := Some doneId;
     upd_assigneeId := upd_assigneeId data;
     upd_priority := upd_priority data;
     upd_dueDate := upd_dueDate data;
     upd_estimate := upd_estimate data |}.

(** [updateData] after the synonym is resolved. *)
Definition resolveState (mcpMessage : ErrorCode -> string -> string)
  (client : LinearClient) (args : UpdateTicketArgs) (i : Issue)
  : M IssueUpdate :=
  if wantsDone args then
    tryCatch
      (doneId <- findDoneState client (ticketId args) i ;;
       ret (setStateId (updateData args) doneId))
      (fun error =>
         match errorMessage mcpMessage error with
         | Return message =>
             throw (McpError InternalError
                      ("Failed to find 'Done' state: " ++ message))
         | Throw typeError => throw typeError
         end)
  else ret (updateData args).

Definition body (mcpMessage : ErrorCode -> string -> string)
  (client : LinearClient) (args : UpdateTicketArgs)
  : M UpdateTicketResponse :=
  i <- findIssue client (ticketId args) ;;
  data <- resolveState mcpMessage client args i ;;
  updatedIssue <- applyUpdate client (ticketId args) i data ;;
  team <- fetchTeamById client (issue_teamId updatedIssue) ;;
  state <- fetchStateById client (issue_stateId updatedIssue) ;;
  ret {| success := true;
         message := "Ticket updated successfully";
         ticket :=
           {| t_id := issue_id updatedIssue;
              t_title := issue_title updatedIssue;
              t_description := issue_description updatedIssue;
              t_number := issue_number updatedIssue;
              t_key := ticketKey (issue_key updatedIssue) team
                         (issue_number updatedIssue);
              t_updatedAt := issue_updatedAt updatedIssue;
              t_state := state;
              t_url := issue_url updatedIssue |} |}.

Definition handleRequest (mcpMessage : ErrorCode -> string -> string)
  (client : LinearClient) (args : UpdateTicketArgs)
  : M UpdateTicketResponse :=
  if negb (Js.truthy (apiKey args)) then
    throw (McpError InvalidParams "Linear API key is required")
  else if negb (Js.truthy (ticketId args)) then
    throw (McpError InvalidParams "Ticket ID or key is required")
  else if negb (hasUpdateField args) then
    throw (McpError InvalidParams "At least one field to update is required")
  else if priorityOutOfRange args then
    throw (McpError InvalidParams "Priority must be between 0 and 4")
  else
    tryCatch (body mcpMessage client args)
      (rethrow "Error updating ticket:" "Failed to update ticket: ").

(** The message format of the protocol library:
    [`MCP error ${code}: ${message}`]. *)
Definition sdkMessage (c : ErrorCode) (m : string) : string :=
  "MCP error "
  ++ match c with InvalidParams => "-32602" | InternalError => "-32603" end
  ++ ": " ++ m.

End UpdateTicketDoneHandler.

(** ** updateProjectHandler.ts *)

(** [Promise.all] over callbacks that are started in the order of the
    list: every callback issues its call, and the join rejects when one of
    them rejected (here with the rejection that comes first in the list). *)
Fixpoint promiseAll {A : Type} (ms : list (M A)) : M (list A) :=
  match ms with
  | [] => ret []
  | m :: rest =>
      fun w =>
        match m w with
        | (Return a, w1) =>
            match promiseAll rest w1 with
            | (Return l, w2) => (Return (a :: l), w2)
            | (Throw e, w2) => (Throw e, w2)
            end
        | (Throw e, w1) => (Throw e, snd (promiseAll rest w1))
        end
  end.

Module UpdateProjectHandler.

Record UpdateProjectArgs : Type := mkArgs
  { apiKey : string;
    projectId : string;
    name : option string;
    description : option string;
    stateId : option string;
    teamIds : option (list string);
    startDate : option string;
    targetDate : option string;
    progress : option Q;
    icon : option string;
    color : option string }.

(** [responseData.project] *)
Record ProjectData : Type := mkProjectData
  { p_id : string;
    p_name : string;
    p_description : option string;
    p_state : option string;
    p_teams : list Team;
    p_startDate : option string;
    p_targetDate : option string;
    p_progress : option Q;
    p_updatedAt : string;
    p_url : string }.

Record UpdateProjectResponse : Type := mkResponse
  { success : bool; message : string; project : ProjectData }.

Definition hasUpdateField (args : UpdateProjectArgs) : bool :=
  (defined (name args) || defined (description args)
   || defined (stateId args) || defined (teamIds args)
   || defined (startDate args) || defined (targetDate args)
   || defined (progress args) || defined (icon args)
   || defined (color args))%bool.

(** [args.progress !== undefined && (args.progress < 0 || args.progress > 1)] *)
Definition progressOutOfRange (args : UpdateProjectArgs) : bool :=
  match progress args with
  | Some p => (numLt p (0#1) || numGt p (1#1))%bool
  | None => false
  end.

Definition updateData (args : UpdateProjectArgs) : ProjectUpdate :=
  {| pupd_name := name args;
     pupd_description := description args;
     pupd_stateId := stateId args;
     pupd_teamIds := teamIds args;
     pupd_startDate := startDate args;
     pupd_targetDate := targetDate args;
     pupd_progress := progress args;
     pupd_icon := icon args;
     pupd_color := color args |}.

(** The callback of [updatedProject.teamIds.map]. *)
Definition fetchTeam (client : LinearClient) (teamId : string)
  : M (option Team) :=
  nodes <- await (CallTeams (TeamById teamId))
             (fun h => teams client h (TeamById teamId)) ;;
  match nodes with
  | teamData :: _ => ret (Some (formatTeam "TEAM" teamData))
  | [] => ret None
  end.

(** [teamResults.filter(t => t !== null)] *)
Fixpoint nonNull (l : list (option Team)) : list Team :=
  match l with
  | [] => []
  | Some t :: r => t :: nonNull r
  | None :: r => nonNull r
  end.

Definition fetchTeams (client : LinearClient) (p : Project) : M (list Team) :=
  match project_teamIds p with
  | Some (t :: ts) =>
      tryCatch
        (teamResults <- promiseAll (map (fetchTeam client) (t :: ts)) ;;
         ret (nonNull teamResults))
        (fun error =>
           log (ConsoleWarn "Error fetching teams:" error) ;;; ret [])
  | _ => ret []
  end.

Definition body (client : LinearClient) (args : UpdateProjectArgs)
  : M UpdateProjectResponse :=
  let a := {| projects_filter := Some (ProjectById (projectId args));
              projects_first := None |} in
  nodes <- await (CallProjects a) (fun h => projects client h a) ;;
  match nodes with
  | [] =>
      throw (McpError InternalError
               ("Project not found: " ++ projectId args))
  | found :: _ =>
      updateResult <-
        await (CallUpdateProject (project_id found) (updateData args))
          (fun h => updateProject client h (project_id found)
                      (updateData args)) ;;
      if negb (ppayload_success updateResult) then
        throw (McpError InternalError
                 ("Failed to update project: " ++ projectId args))
      else
        let updatedProject := ppayload_project updateResult in
        teams' <- fetchTeams client updatedProject ;;
        ret {| success := true;
               message := "Project updated successfully";
               project :=
                 {| p_id := project_id updatedProject;
                    p_name := project_name updatedProject;
                    p_description := project_description updatedProject;
                    p_state := project_state updatedProject;
                    p_teams := teams';
                    p_startDate := project_startDate updatedProject;
                    p_targetDate := project_targetDate updatedProject;
                    p_progress := project_progress updatedProject;
                    p_updatedAt := project_updatedAt updatedProject;
                    p_url := project_url updatedProject |} |}
  end.

Definition handleRequest (client : LinearClient) (args : UpdateProjectArgs)
  : M UpdateProjectResponse :=
  if negb (Js.truthy (apiKey args)) then
    throw (McpError InvalidParams "Linear API key is required")
  else if negb (Js.truthy (projectId args)) then
    throw (McpError InvalidParams "Project ID is required")
  else if negb (hasUpdateField args) then
    throw (McpError InvalidParams "At least one field to update is required")
  else if progressOutOfRange args then
    throw (McpError InvalidParams "Progress must be between 0 and 1")
  else
    tryCatch (body client args)
      (rethrow "Error updating project:" "Failed to update project: ").

End UpdateProjectHandler.

(** ** The get-projects handler *)

Module GetProjectsRequestHandler.

Record GetProjectsArgs : Type := mkArgs
  { apiKey : string;
    search : option string;
    status : option string;
    limit : option Q }.

(** An element of [formattedProjects]. *)
Record ProjectItem : Type := mkProjectItem
  { id : string;
    name : string;
    description : option string;
    status_ : string;
    startDate : option string;
    targetDate : option string;
    progress : option Q;
    url : string }.

Record ProjectListResponse : Type := mkResponse
  { projects_ : list ProjectItem; total : Z }.

(** [statusMap[args.status]]: the table is an object literal, so beside
    its five own keys the lookup finds the members of [Object.prototype];
    any other name gives [undefined]. *)
Definition statusMap (s : string) : option StateTypeValue :=
  if String.eqb s "planned" then Some (StateType "planned")
  else if String.eqb s "started" then Some (StateType "started")
  else if String.eqb s "paused" then Some (StateType "paused")
  else if String.eqb s "completed" then Some (StateType "completed")
  else if String.eqb s "canceled" then Some (StateType "canceled")
  else if existsb (String.eqb s) Js.objectPrototypeNames
       then Some (InheritedMember s)
  else None.

(** [filter.state.type.eq], when it is set: [if (args.status)] and
    [if (stateType)]. *)
Definition stateFilter (args : GetProjectsArgs) : option StateTypeValue :=
  match status args with
  | Some s =>
      if Js.truthy s then
        match statusMap s with
        | Some (StateType name) =>
            if Js.truthy name then Some (StateType name) else None
        | Some (InheritedMember member) => Some (InheritedMember member)
        | None => None
        end
      else None
  | None => None
  end.

(** [args.limit && args.limit > 0 ? Math.min(args.limit, 50) : 10] *)
Definition effectiveLimit (args : GetProjectsArgs) : Q :=
  match limit args with
  | Some l =>
      if (negb (Qeq_bool l (0#1)) && numGt l (0#1))%bool
      then Js.mathMin l (50#1)
      else 10#1
  | None => 10#1
  end.

(** The predicate of [projects.nodes.filter] in the search path. *)
Definition matches (searchTerm : string) (p : Project) : bool :=
  let nameMatch := Js.includes (Js.toLowerCase (project_name p)) searchTerm in
  let descMatch :=
    match project_description p with
    | Some d =>
        if Js.truthy d then Js.includes (Js.toLowerCase d) searchTerm
        else false
    | None => false
    end in
  (nameMatch || descMatch)%bool.

(** [a.slice(0, n)] for an integer [n] *)
Definition slice0 {A : Type} (n : Z) (a : list A) : list A :=
  if n <? 0 then firstn (length a - Z.to_nat (- n)) a
  else firstn (Z.to_nat n) a.

Definition formatProject (p : Project) : ProjectItem :=
  {| id := project_id p;
     name := project_name p;
     description := project_description p;
     status_ := if Js.truthyOpt (project_state p)
                then match project_state p with Some st => st | None => "" end
                else "Unknown";
     startDate := project_startDate p;
     targetDate := project_targetDate p;
     progress := project_progress p;
     url := project_url p |}.

(** [projects.nodes] after the query of either path. *)
Definition fetchProjects (client : LinearClient) (args : GetProjectsArgs)
  : M (list Project) :=
  let limit' := effectiveLimit args in
  if Js.truthyOpt (search args) then
    let a := {| projects_filter := None;
                projects_first := Some (limit' * (2#1))%Q |} in
    nodes <- await (CallProjects a) (fun h => projects client h a) ;;
    let searchTerm :=
      Js.toLowerCase (match search args with Some t => t | None => "" end) in
    ret (slice0 (Js.toInteger limit') (filter (matches searchTerm) nodes))
  else
    let a := {| projects_filter := Some (ProjectByStateType (stateFilter args));
                projects_first := Some limit' |} in
    await (CallProjects a) (fun h => projects client h a).

Definition body (client : LinearClient) (args : GetProjectsArgs)
  : M ProjectListResponse :=
  if negb (Js.truthy (apiKey args)) then
    throw (McpError InvalidParams "API key is required")
  else
    nodes <- fetchProjects client args ;;
    let formattedProjects := map formatProject nodes in
    ret {| projects_ := formattedProjects;
           total := Z.of_nat (length formattedProjects) |}.

Definition handleRequest (client : LinearClient) (args : GetProjectsArgs)
  : M ProjectListResponse :=
  tryCatch (body client args)
    (fun error =>
       match error with
       | McpError _ _ => throw error
       | JsError m =>
           log (ConsoleError "Error fetching projects:" error) ;;;
           throw (McpError InternalError
                    ("Failed to fetch Linear projects: " ++ m))
       | JsValue _ | JsNullish _ =>
           log (ConsoleError "Error fetching projects:" error) ;;;
           throw (McpError InternalError
                    "Failed to fetch Linear projects: Unknown error")
       end).

End GetProjectsRequestHandler.

(** ** What a computation adds to the list of calls *)

(** [m] only adds calls to the list, and each added call satisfies [P]. *)
Definition appendsCalls {A : Type} (P : Call -> Prop) (m : M A) : Prop :=
  forall w, exists l, calls (snd (m w)) = (calls w ++ l)%list /\ Forall P l.

(** A call that is not a query for the issue itself. *)
Definition notIssueQuery (c : Call) : Prop :=
  match c with
  | CallRequest _ | CallIssues _ => False
  | _ => True
  end.

(** ** Trackers and records used in examples *)

Module Sample.

Definition down : exn := JsError "connect ECONNREFUSED".

(** A tracker that rejects every call. *)
Definition unreachable : LinearClient :=
  {| _request := fun _ _ => Throw down;
     issues := fun _ _ => Throw down;
     users := fun _ _ => Throw down;
     teams := fun _ _ => Throw down;
     workflowStates := fun _ _ => Throw down;
     issueLabels := fun _ => Throw down;
     updateIssue := fun _ _ _ => Throw down;
     projects := fun _ _ => Throw down;
     updateProject := fun _ _ _ => Throw down |}.

(** A tracker that answers every query with zero matches. *)
Definition vacant : LinearClient :=
  {| _request := fun _ _ =>
       Return (Some {| resp_issue := None;
                       resp_issueByTeamKeyAndNumber := None |});
     issues := fun _ _ => Return [];
     users := fun _ _ => Return [];
     teams := fun _ _ => Return [];
     workflowStates := fun _ _ => Return [];
     issueLabels := fun _ => Return [];
     updateIssue := fun _ _ _ => Throw down;
     projects := fun _ _ => Return [];
     updateProject := fun _ _ _ => Throw down |}.

Definition issue7 : Issue :=
  {| issue_id := "9f2c";
     issue_title := "Fix login";
     issue_description := None;
     issue_number := 7;
     issue_key := None;
     issue_createdAt := "2025-01-01T00:00:00.000Z";
     issue_updatedAt := "2025-01-02T00:00:00.000Z";
     issue_dueDate := None;
     issue_estimate := None;
     issue_priority := Some (2#1);
     issue_url := "https://linear.app/acme/issue/ABC-7";
     issue_assigneeId := Some "user-1";
     issue_teamId := Some "team-42";
     issue_stateId := Some "state-1";
     issue_labelIds := Some ["label-1"; "label-2"] |}.

(** A tracker that only answers the structured issue query, with
    [issue7]; every other call is rejected. *)
Definition issueOnly : LinearClient :=
  {| _request := fun _ _ => Throw down;
     issues := fun _ _ => Return [issue7];
     users := fun _ _ => Throw down;
     teams := fun _ _ => Throw down;
     workflowStates := fun _ _ => Throw down;
     issueLabels := fun _ => Throw down;
     updateIssue := fun _ _ _ => Throw down;
     projects := fun _ _ => Throw down;
     updateProject := fun _ _ _ => Throw down |}.

(** A tracker whose team "team-42" has no state that stands for "done". *)
Definition noDoneState : LinearClient :=
  {| _request := fun _ _ => Throw down;
     issues := fun _ _ => Return [issue7];
     users := fun _ _ => Return [];
     teams := fun _ _ =>
       Return [{| team_id := "team-42"; team_name := "Platform";
                  team_key := "ABC" |}];
     workflowStates := fun _ _ =>
       Return [{| state_id := "state-1"; state_name := "Todo";
                  state_type := "unstarted" |};
               {| state_id := "state-2"; state_name := "In Progress";
                  state_type := "started" |}];
     issueLabels := fun _ => Return [];
     updateIssue := fun _ _ _ => Throw down;
     projects := fun _ _ => Throw down;
     updateProject := fun _ _ _ => Throw down |}.

(** A tracker whose team "team-42" has the states "Todo" and "Done", and
    that accepts every update. *)
Definition withDoneState : LinearClient :=
  {| _request := fun _ _ => Throw down;
     issues := fun _ _ => Return [issue7];
     users := fun _ _ => Return [];
     teams := fun _ _ =>
       Return [{| team_id := "team-42"; team_name := "Platform";
                  team_key := "ABC" |}];
     workflowStates := fun _ _ =>
       Return [{| state_id := "state-1"; state_name := "Todo";
                  state_type := "unstarted" |};
               {| state_id := "state-2"; state_name := "Done";
                  state_type := "completed" |}];
     issueLabels := fun _ => Return [];
     updateIssue := fun _ _ _ =>
       Return {| ipayload_success := true; ipayload_issue := issue7 |};
     projects := fun _ _ => Throw down;
     updateProject := fun _ _ _ => Throw down |}.

(** An update-ticket request that only carries the given state and
    priority. *)
Definition updateArgs (tid : string) (st : option string) (p : option Q)
  : UpdateTicketHandler.UpdateTicketArgs :=
  {| UpdateTicketHandler.apiKey := "lin_api_key";
     UpdateTicketHandler.ticketId := tid;
     UpdateTicketHandler.title := None;
     UpdateTicketHandler.description := None;
     UpdateTicketHandler.stateId := st;
     UpdateTicketHandler.assigneeId := None;
     UpdateTicketHandler.priority := p;
     UpdateTicketHandler.dueDate := None;
     UpdateTicketHandler.estimate := None |}.

(** An update-project request without a field to update. *)
Definition emptyProjectArgs : UpdateProjectHandler.UpdateProjectArgs :=
  {| UpdateProjectHandler.apiKey := "lin_api_key";
     UpdateProjectHandler.projectId := "proj-1";
     UpdateProjectHandler.name := None;
     UpdateProjectHandler.description := None;
     UpdateProjectHandler.stateId := None;
     UpdateProjectHandler.teamIds := None;
     UpdateProjectHandler.startDate := None;
     UpdateProjectHandler.targetDate := None;
     UpdateProjectHandler.progress := None;
     UpdateProjectHandler.icon := None;
     UpdateProjectHandler.color := None |}.

(** Three projects; the second one matches "test" by its description
    only, the third one not at all. *)
Definition someProjects : list Project :=
  [ {| project_id := "proj-123"; project_name := "Test Project";
       project_description := Some "A test project";
       project_state := Some "started"; project_teamIds := None;
       project_startDate := None; project_targetDate := None;
       project_progress := Some (1#2);
       project_updatedAt := "2025-01-02T00:00:00.000Z";
       project_url := "https://linear.app/acme/project/test-project" |};
    {| project_id := "proj-124"; project_name := "Billing";
       project_description := Some "Contract TESTS";
       project_state := None; project_teamIds := None;
       project_startDate := None; project_targetDate := None;
       project_progress := None;
       project_updatedAt := "2025-01-03T00:00:00.000Z";
       project_url := "https://linear.app/acme/project/billing" |};
    {| project_id := "proj-125"; project_name := "Onboarding";
       project_description := None;
       project_state := Some "planned"; project_teamIds := None;
       project_startDate := None; project_targetDate := None;
       project_progress := None;
       project_updatedAt := "2025-01-04T00:00:00.000Z";
       project_url := "https://linear.app/acme/project/onboarding" |} ].

(** A tracker with these three projects, which cuts its answer at
    [first]. *)
Definition withProjects : LinearClient :=
  {| _request := fun _ _ => Throw down;
     issues := fun _ _ => Return [];
     users := fun _ _ => Return [];
     teams := fun _ _ => Return [];
     workflowStates := fun _ _ => Return [];
     issueLabels := fun _ => Return [];
     updateIssue := fun _ _ _ => Throw down;
     projects := fun _ a =>
       Return (match projects_first a with
               | Some n => firstn (Z.to_nat (Js.toInteger n)) someProjects
               | None => someProjects
               end);
     updateProject := fun _ _ _ => Throw down |}.

Definition projectsArgs (search : option string) (limit : option Q)
  : GetProjectsRequestHandler.GetProjectsArgs :=
  {| GetProjectsRequestHandler.apiKey := "lin_api_key";
     GetProjectsRequestHandler.search := search;
     GetProjectsRequestHandler.status := None;
     GetProjectsRequestHandler.limit := limit |}.

Definition getArgs (tid : string) : GetTicketByIdHandler.GetTicketByIdArgs :=
  {| GetTicketByIdHandler.apiKey := "lin_api_key";
     GetTicketByIdHandler.ticketId := tid |}.

End Sample.

(** ** getWorkflowStatesHandler.ts *)

(** This handler lists workflow states with an optional team filter and
    reads the color of a state, which the records above do not carry: it
    has its own requests, nodes and client, and the list of the requests
    made so far is passed along explicitly. It logs nothing. *)
Module GetWorkflowStatesHandler.

Record GetWorkflowStatesArgs : Type := mkArgs
  { apiKey : string;
    teamId : option string;
    teamKey : option string }.

(** The two calls of the handler; the filter of [workflowStates] is
    [team.id.eq] or [undefined]. *)
Inductive Request : Type :=
| RequestTeams (key : string)
| RequestWorkflowStates (teamIdEq : option string).

(** A node of [linearClient.workflowStates(...)]; [node_color] is absent
    when the node has no property [color]. *)
Record StateNode : Type := mkStateNode
  { node_id : string;
    node_name : string;
    node_type : string;
    node_color : option string }.

Record Client : Type := mkClient
  { teams : list Request -> string -> Outcome (list Team);
    workflowStates :
      list Request -> option string -> Outcome (list StateNode) }.

(** [stateInfo]: [color] is set only if ["color" in state]. *)
Record StateInfo : Type := mkStateInfo
  { id : string; name : string; type : string; color : option string }.

Definition stateInfo (state : StateNode) : StateInfo :=
  {| id := node_id state;
     name := node_name state;
     type := node_type state;
     color := node_color state |}.

(** [(error as Error).message], which throws on [null] and [undefined];
    [mcpMessage] is the text that the constructor of [McpError] stores for
    a code and a message. *)
Definition errorMessage (mcpMessage : ErrorCode -> string -> string)
  (error : exn) : Outcome string :=
  match error with
  | McpError c m => Return (mcpMessage c m)
  | JsError m | JsValue m => Return m
  | JsNullish typeError => Throw (JsError typeError)
  end.

(** What the [catch] of the inner [try] throws for the value it caught. *)
Definition teamLookupFailed (mcpMessage : ErrorCode -> string -> string)
  (key : string) (error : exn) : exn :=
  match errorMessage mcpMessage error with
  | Return message =>
      McpError InternalError
        ("Failed to find team with key " ++ key ++ ": " ++ message)
  | Throw typeError => typeError
  end.

(** The inner [try]: the id of the first team with the key. *)
Definition findTeamId (mcpMessage : ErrorCode -> string -> string)
  (client : Client) (key : string) : Outcome (option string) * list Request :=
  (match teams client [] key with
   | Return [] =>
       Throw (teamLookupFailed mcpMessage key
                (McpError InternalError ("Team not found with key: " ++ key)))
   | Return (t :: _) => Return (Some (team_id t))
   | Throw error => Throw (teamLookupFailed mcpMessage key error)
   end,
   [RequestTeams key]).

(** The last [catch]: an [McpError] is thrown again, any other value is
    wrapped with [(error as Error).message]; nothing is logged. *)
Definition lastCatch (error : exn) : exn :=
  match error with
  | McpError _ _ => error
  | JsError m | JsValue m =>
      McpError InternalError ("Failed to get workflow states: " ++ m)
  | JsNullish typeError => JsError typeError
  end.

(** The list of states with the filter for [teamId], under the last
    [catch]. *)
Definition listStates (client : Client) (h : list Request)
  (teamId : option string) : Outcome (list StateInfo) * list Request :=
  let filter := if Js.truthyOpt teamId then teamId else None in
  (match workflowStates client h filter with
   | Return nodes => Return (map stateInfo nodes)
   | Throw error => Throw (lastCatch error)
   end,
   (h ++ [RequestWorkflowStates filter])%list).

Definition handleRequest (mcpMessage : ErrorCode -> string -> string)
  (client : Client) (args : GetWorkflowStatesArgs)
  : Outcome (list StateInfo) * list Request :=
  if negb (Js.truthy (apiKey args)) then
    (Throw (McpError InvalidParams "Linear API key is required"), [])
  else if (negb (Js.truthyOpt (teamId args))
           && negb (Js.truthyOpt (teamKey args)))%bool then
    (Throw (McpError InvalidParams "Either teamId or teamKey is required"), [])
  else
    match teamKey args with
    | Some key =>
        if (Js.truthy key && negb (Js.truthyOpt (teamId args)))%bool then
          match findTeamId mcpMessage client key with
          | (Return found, h) => listStates client h found
          | (Throw error, h) => (Throw (lastCatch error), h)
          end
        else listStates client [] (teamId args)
    | None => listStates client [] (teamId args)
    end.

End GetWorkflowStatesHandler.

(** ** The tool dispatch of the server (index.ts) *)

(** The [case] blocks of the request handler of [CallToolRequestSchema]
    for the tools whose handlers are above. [apiKey] is [this.apiKey],
    which the server takes from the environment and refuses to start
    without; the other parameters are the properties that a block reads
    from [request.params.arguments], each one present or not. *)
Module Server.

(** [case "get-linear-projects"]: the arguments with the server's key. *)
Definition getLinearProjects (client : LinearClient) (apiKey : string)
  (search status : option string) (limit : option Q)
  : M GetProjectsRequestHandler.ProjectListResponse :=
  GetProjectsRequestHandler.handleRequest client
    {| GetProjectsRequestHandler.apiKey := apiKey;
       GetProjectsRequestHandler.search := search;
       GetProjectsRequestHandler.status := status;
       GetProjectsRequestHandler.limit := limit |}.

(** [case "get-linear-ticket"] *)
Definition getLinearTicket (client : LinearClient) (apiKey : string)
  (ticketId : option string) : M GetTicketByIdHandler.TicketResponse :=
  match ticketId with
  | Some t =>
      if negb (Js.truthy t) then
        throw (McpError InvalidParams "ticketId is required")
      else
        GetTicketByIdHandler.handleRequest client
          {| GetTicketByIdHandler.apiKey := apiKey;
             GetTicketByIdHandler.ticketId := t |}
  | None => throw (McpError InvalidParams "ticketId is required")
  end.

(** The properties that [case "update-linear-ticket"] reads. *)
Record UpdateTicketArguments : Type := mkUpdateTicketArguments
  { ticketId : option string;
    title : option string;
    description : option string;
    stateId : option string;
    assigneeId : option string;
    priority : option Q;
    dueDate : option string;
    estimate : option Q }.

Definition updateTicketArgs (apiKey t : string) (a : UpdateTicketArguments)
  : UpdateTicketHandler.UpdateTicketArgs :=
  {| UpdateTicketHandler.apiKey := apiKey;
     UpdateTicketHandler.ticketId := t;
     UpdateTicketHandler.title := title a;
     UpdateTicketHandler.description := description a;
     UpdateTicketHandler.stateId := stateId a;
     UpdateTicketHandler.assigneeId := assigneeId a;
     UpdateTicketHandler.priority := priority a;
     UpdateTicketHandler.dueDate := dueDate a;
     UpdateTicketHandler.estimate := estimate a |}.

(** [case "update-linear-ticket"] *)
Definition updateLinearTicket (client : LinearClient) (apiKey : string)
  (a : UpdateTicketArguments) : M UpdateTicketHandler.UpdateTicketResponse :=
  match ticketId a with
  | Some t =>
      if negb (Js.truthy t) then
        throw (McpError InvalidParams "ticketId is required")
      else UpdateTicketHandler.handleRequest client (updateTicketArgs apiKey t a)
  | None => throw (McpError InvalidParams "ticketId is required")
  end.

(** The properties that [case "update-linear-project"] reads. *)
Record UpdateProjectArguments : Type := mkUpdateProjectArguments
  { projectId : option string;
    name : option string;
    pdescription : option string;
    pstateId : option string;
    teamIds : option (list string);
    startDate : option string;
    targetDate : option string;
    progress : option Q;
    icon : option string;
    color : option string }.

Definition updateProjectArgs (apiKey p : string) (a : UpdateProjectArguments)
  : UpdateProjectHandler.UpdateProjectArgs :=
  {| UpdateProjectHandler.apiKey := apiKey;
     UpdateProjectHandler.projectId := p;
     UpdateProjectHandler.name := name a;
     UpdateProjectHandler.description := pdescription a;
     UpdateProjectHandler.stateId := pstateId a;
     UpdateProjectHandler.teamIds := teamIds a;
     UpdateProjectHandler.startDate := startDate a;
     UpdateProjectHandler.targetDate := targetDate a;
     UpdateProjectHandler.progress := progress a;
     UpdateProjectHandler.icon := icon a;
     UpdateProjectHandler.color := color a |}.

(** [case "update-linear-project"] *)
Definition updateLinearProject (client : LinearClient) (apiKey : string)
  (a : UpdateProjectArguments)
  : M UpdateProjectHandler.UpdateProjectResponse :=
  match projectId a with
  | Some p =>
      if negb (Js.truthy p) then
        throw (McpError InvalidParams "projectId is required")
      else
        UpdateProjectHandler.handleRequest client (updateProjectArgs apiKey p a)
  | None => throw (McpError InvalidParams "projectId is required")
  end.

End Server.

(** ** Measures of a run *)

(** [m] adds at most [n] calls to the list. *)
Definition addsAtMost {A : Type} (n : nat) (m : M A) : Prop :=
  forall w, exists l,
    calls (snd (m w)) = (calls w ++ l)%list /\ (length l <= n)%nat.

(** A thrown value that is an [McpError]. *)
Definition isMcpError (e : exn) : Prop :=
  match e with
  | McpError _ _ => True
  | _ => False
  end.

(** A thrown value that is neither [null] nor [undefined]. *)
Definition notNullish (e : exn) : Prop :=
  match e with
  | JsNullish _ => False
  | _ => True
  end.

(** Every value that [m] throws satisfies [P]. *)
Definition throwsOnly {A : Type} (P : exn -> Prop) (m : M A) : Prop :=
  forall w e, fst (m w) = Throw e -> P e.

(** [m] throws nothing but [McpError]s. *)
Definition throwsMcpOnly {A : Type} (m : M A) : Prop :=
  forall w e, fst (m w) = Throw e -> isMcpError e.

(** The lookups that the fallback path of get-ticket issues once the issue
    is found, in their order: the assignee by id, the team by id or else by
    the team key of the identifier, the state by id and the label catalog,
    each one only when the issue (or the identifier) names it. *)
Definition backfillCalls (p : GetTicketByIdHandler.Parsed) (i : Issue)
  : list Call :=
  (match issue_assigneeId i with
   | Some aid => if Js.truthy aid then [CallUsers aid] else []
   | None => []
   end
   ++ (if Js.truthyOpt (issue_teamId i) then
         match issue_teamId i with
         | Some tid => [CallTeams (TeamById tid)]
         | None => []
         end
       else
         match GetTicketByIdHandler.teamKey p with
         | Some k => if Js.truthy k then [CallTeams (TeamByKey k)] else []
         | None => []
         end)
   ++ match issue_stateId i with
      | Some sid => if Js.truthy sid then [CallWorkflowStates (StateById sid)]
                    else []
      | None => []
      end
   ++ match issue_labelIds i with
      | Some (_ :: _) => [CallIssueLabels]
      | _ => []
      end)%list.

(** A console entry that is the warning of a failed lookup of the fallback
    path. *)
Definition isLookupWarning (l : LogEntry) : Prop :=
  match l with
  | ConsoleWarn label _ =>
      In label ["Error fetching assignee:"; "Error fetching team:";
                "Error fetching team by key:"; "Error fetching state:";
                "Error fetching labels:"]
  | ConsoleError _ _ => False
  end.

(** A call that updates an issue. *)
Definition isIssueUpdate (c : Call) : Prop :=
  match c with
  | CallUpdateIssue _ _ => True
  | _ => False
  end.



(** ** More trackers for examples *)

Module Fixture.

Definition project1 : Project :=
  {| project_id := "proj-1"; project_name := "Launch";
     project_description := None; project_state := Some "started";
     project_teamIds := Some ["team-42"; "team-43"; "team-44"];
     project_startDate := None; project_targetDate := None;
     project_progress := Some (1#2);
     project_updatedAt := "2025-02-01T00:00:00.000Z";
     project_url := "https://linear.app/acme/project/launch" |}.

(** The teams of the tracker by id: "team-43" does not exist, "team-44" has
    no name. *)
Definition teamsById (id : string) : list Team :=
  if String.eqb id "team-42" then
    [{| team_id := "team-42"; team_name := "Platform"; team_key := "ABC" |}]
  else if String.eqb id "team-44" then
    [{| team_id := "team-44"; team_name := ""; team_key := "OPS" |}]
  else [].

(** A tracker with [project1] that accepts every project update; [bad] is
    a team id whose lookup is rejected. *)
Definition withProject (bad : string) : LinearClient :=
  {| _request := fun _ _ => Throw Sample.down;
     issues := fun _ _ => Return [Sample.issue7];
     users := fun _ _ => Return [];
     teams := fun _ f =>
       match f with
       | TeamById id =>
           if String.eqb id bad then Throw Sample.down
           else Return (teamsById id)
       | TeamByKey _ => Return []
       end;
     workflowStates := fun _ _ => Return [];
     issueLabels := fun _ =>
       Return [{| label_id := "label-2"; label_name := "bug";
                  label_color := "" |}];
     updateIssue := fun _ _ _ =>
       Return {| ipayload_success := true; ipayload_issue := Sample.issue7 |};
     projects := fun _ _ => Return [project1];
     updateProject := fun _ _ _ =>
       Return {| ppayload_success := true; ppayload_project := project1 |} |}.

(** A tracker with [project1] whose project update reports no success. *)
Definition refusingUpdate : LinearClient :=
  {| _request := fun _ _ => Throw Sample.down;
     issues := fun _ _ => Return [Sample.issue7];
     users := fun _ _ => Return [];
     teams := fun _ _ => Return [];
     workflowStates := fun _ _ => Return [];
     issueLabels := fun _ => Return [];
     updateIssue := fun _ _ _ =>
       Return {| ipayload_success := false; ipayload_issue := Sample.issue7 |};
     projects := fun _ _ => Return [project1];
     updateProject := fun _ _ _ =>
       Return {| ppayload_success := false; ppayload_project := project1 |} |}.

(** A tracker with [project1] and [issue7] that rejects every update. *)
Definition rejectingUpdate : LinearClient :=
  {| _request := fun _ _ => Throw Sample.down;
     issues := fun _ _ => Return [Sample.issue7];
     users := fun _ _ => Return [];
     teams := fun _ _ => Return [];
     workflowStates := fun _ _ => Return [];
     issueLabels := fun _ => Return [];
     updateIssue := fun _ _ _ => Throw Sample.down;
     projects := fun _ _ => Return [project1];
     updateProject := fun _ _ _ => Throw Sample.down |}.

(** An update-project request that only sets the progress. *)
Definition progressArgs (p : Q) : UpdateProjectHandler.UpdateProjectArgs :=
  {| UpdateProjectHandler.apiKey := "lin_api_key";
     UpdateProjectHandler.projectId := "proj-1";
     UpdateProjectHandler.name := None;
     UpdateProjectHandler.description := None;
     UpdateProjectHandler.stateId := None;
     UpdateProjectHandler.teamIds := None;
     UpdateProjectHandler.startDate := None;
     UpdateProjectHandler.targetDate := None;
     UpdateProjectHandler.progress := Some p;
     UpdateProjectHandler.icon := None;
     UpdateProjectHandler.color := None |}.

(** The arguments of an update-linear-ticket call that only sets a title. *)
Definition titleArguments (tid : option string) : Server.UpdateTicketArguments :=
  {| Server.ticketId := tid;
     Server.title := Some "New title";
     Server.description := None;
     Server.stateId := None;
     Server.assigneeId := None;
     Server.priority := None;
     Server.dueDate := None;
     Server.estimate := None |}.

(** The issue [issue7] without a team id. *)
Definition orphanIssue : Issue :=
  {| issue_id := "9f2c";
     issue_title := "Fix login";
     issue_description := None;
     issue_number := 7;
     issue_key := None;
     issue_createdAt := "2025-01-01T00:00:00.000Z";
     issue_updatedAt := "2025-01-02T00:00:00.000Z";
     issue_dueDate := None;
     issue_estimate := None;
     issue_priority := Some (2#1);
     issue_url := "https://linear.app/acme/issue/ABC-7";
     issue_assigneeId := None;
     issue_teamId := None;
     issue_stateId := None;
     issue_labelIds := None |}.

(** A tracker whose issues carry no team id: the team "team-42" is found
    by its key "ABC" alone, and it has the states "Todo" and "Done". *)
Definition teamByKey : LinearClient :=
  {| _request := fun _ _ => Throw Sample.down;
     issues := fun _ _ => Return [orphanIssue];
     users := fun _ _ => Return [];
     teams := fun _ f =>
       match f with
       | TeamByKey "ABC" =>
           Return [{| team_id := "team-42"; team_name := "Platform";
                      team_key := "ABC" |}]
       | _ => Return []
       end;
     workflowStates := fun _ f =>
       match f with
       | StateByTeamId "team-42" =>
           Return [{| state_id := "state-1"; state_name := "Todo";
                      state_type := "unstarted" |};
                   {| state_id := "state-2"; state_name := "Done";
                      state_type := "completed" |}]
       | _ => Return []
       end;
     issueLabels := fun _ => Return [];
     updateIssue := fun _ _ _ =>
       Return {| ipayload_success := true; ipayload_issue := orphanIssue |};
     projects := fun _ _ => Throw Sample.down;
     updateProject := fun _ _ _ => Throw Sample.down |}.

(** The issue [issue7] with a native key that is not the key of its
    team. *)
Definition keyedIssue : Issue :=
  {| issue_id := "9f2c";
     issue_title := "Fix login";
     issue_description := None;
     issue_number := 7;
     issue_key := Some "XYZ-9";
     issue_createdAt := "2025-01-01T00:00:00.000Z";
     issue_updatedAt := "2025-01-02T00:00:00.000Z";
     issue_dueDate := None;
     issue_estimate := None;
     issue_priority := Some (2#1);
     issue_url := "https://linear.app/acme/issue/ABC-7";
     issue_assigneeId := None;
     issue_teamId := Some "team-42";
     issue_stateId := None;
     issue_labelIds := None |}.

(** The tracker [withProject] whose issue query answers with
    [keyedIssue]. *)
Definition withKeyedIssue : LinearClient :=
  {| _request := fun _ _ => Throw Sample.down;
     issues := fun _ _ => Return [keyedIssue];
     users := fun _ _ => Return [];
     teams := teams (withProject "none");
     workflowStates := fun _ _ => Return [];
     issueLabels := fun _ => Return [];
     updateIssue := fun _ _ _ => Throw Sample.down;
     projects := fun _ _ => Throw Sample.down;
     updateProject := fun _ _ _ => Throw Sample.down |}.

(** The message of the [TypeError] that V8 throws for [null.message]. *)
Definition nullMessage : string :=
  "Cannot read properties of null (reading 'message')".

(** A tracker with [project1] and [issue7] that rejects every update, and
    every list of workflow states, with [null]. *)
Definition nullUpdate : LinearClient :=
  {| _request := fun _ _ => Throw Sample.down;
     issues := fun _ _ => Return [Sample.issue7];
     users := fun _ _ => Return [];
     teams := fun _ _ => Return [];
     workflowStates := fun _ _ => Throw (JsNullish nullMessage);
     issueLabels := fun _ => Return [];
     updateIssue := fun _ _ _ => Throw (JsNullish nullMessage);
     projects := fun _ _ => Return [project1];
     updateProject := fun _ _ _ => Throw (JsNullish nullMessage) |}.

(** A tracker that answers every project query with the three projects of
    [Sample.someProjects], whatever [first] asks for. *)
Definition overfull : LinearClient :=
  {| _request := fun _ _ => Throw Sample.down;
     issues := fun _ _ => Return [];
     users := fun _ _ => Return [];
     teams := fun _ _ => Return [];
     workflowStates := fun _ _ => Return [];
     issueLabels := fun _ => Return [];
     updateIssue := fun _ _ _ => Throw Sample.down;
     projects := fun _ _ => Return Sample.someProjects;
     updateProject := fun _ _ _ => Throw Sample.down |}.

End Fixture.

(** A tracker for get-workflow-states: the team "ABC" has the id
    "team-42" and two states; no other team exists. *)
Module StatesFixture.

Definition client : GetWorkflowStatesHandler.Client :=
  {| GetWorkflowStatesHandler.teams := fun _ key =>
       if String.eqb key "ABC" then
         Return [{| team_id := "team-42"; team_name := "Platform";
                    team_key := "ABC" |}]
       else Return [];
     GetWorkflowStatesHandler.workflowStates := fun _ filter =>
       match filter with
       | Some "team-42" =>
           Return [GetWorkflowStatesHandler.mkStateNode "state-1" "Todo"
                     "unstarted" (Some "#e2e2e2");
                   GetWorkflowStatesHandler.mkStateNode "state-2" "Done"
                     "completed" None]
       | _ => Throw Sample.down
       end |}.

(** A tracker that rejects both requests with [null]. *)
Definition rejectingWithNull : GetWorkflowStatesHandler.Client :=
  {| GetWorkflowStatesHandler.teams := fun _ _ =>
       Throw (JsNullish Fixture.nullMessage);
     GetWorkflowStatesHandler.workflowStates := fun _ _ =>
       Throw (JsNullish Fixture.nullMessage) |}.

Definition args (teamId teamKey : option string)
  : GetWorkflowStatesHandler.GetWorkflowStatesArgs :=
  {| GetWorkflowStatesHandler.apiKey := "lin_api_key";
     GetWorkflowStatesHandler.teamId := teamId;
     GetWorkflowStatesHandler.teamKey := teamKey |}.

End StatesFixture.

(** * Properties *)

(** ** The JavaScript primitives on examples *)

Example parseInt_examples :
  Js.parseInt "524" = Some 524 /\ Js.parseInt "12abc" = Some 12
  /\ Js.parseInt " +7" = Some 7 /\ Js.parseInt "xyz" = None
  /\ Js.parseInt "" = None.
Proof. repeat split; reflexivity. Qed.

Example split_examples :
  Js.split "-" "PLA-524" = ["PLA"; "524"]
  /\ Js.split "-" "29ede43e806c" = ["29ede43e806c"]
  /\ Js.split "-" "A--5" = ["A"; ""; "5"]
  /\ Js.split "-" "ABC-" = ["ABC"; ""].
Proof. repeat split; reflexivity. Qed.

Example numberToString_examples :
  Js.numberToString 7 = "7" /\ Js.numberToString 0 = "0"
  /\ Js.numberToString (-12) = "-12" /\ Js.numberToString 524 = "524".
Proof. repeat split; reflexivity. Qed.

Example toLowerCase_examples :
  Js.toLowerCase "DoNe" = "done" /\ Js.toLowerCase "Completed" = "completed"
  /\ Js.includes "a test project" "test" = true
  /\ Js.includes "abc" "" = true /\ Js.includes "abc" "abd" = false.
Proof. repeat split; reflexivity. Qed.

(** ** Strings *)

Lemma prefix_refl (s : string) : String.prefix s s = true.
Proof.
  induction s as [|c s IH]; simpl; [reflexivity|].
  destruct (ascii_dec c c) as [_|n]; [exact IH | now destruct n].
Qed.

Lemma includes_unfold (s t : string) :
  Js.includes s t
  = if String.prefix t s then true
    else match s with
         | EmptyString => false
         | String _ r => Js.includes r t
         end.
Proof. destruct s; reflexivity. Qed.

Lemma includes_self (s : string) : Js.includes s s = true.
Proof. now rewrite includes_unfold, prefix_refl. Qed.

(** A string includes each of its suffixes. *)
Lemma includes_append (a s : string) : Js.includes (a ++ s) s = true.
Proof.
  induction a as [|c a IH]; simpl String.append.
  - apply includes_self.
  - rewrite includes_unfold, IH.
    now destruct (String.prefix s (String c (a ++ s))).
Qed.

Lemma split_not_nil (sep : ascii) (s : string) : Js.split sep s <> [].
Proof.
  destruct s as [|c r]; simpl; [discriminate|].
  destruct (Ascii.eqb c sep); [discriminate|].
  destruct (Js.split sep r); discriminate.
Qed.

(** [includes] of a one-unit string looks for that unit. *)
Lemma includes_char_cons (c d : ascii) (r : string) :
  Js.includes (String c r) (String d EmptyString)
  = (Ascii.eqb d c || Js.includes r (String d EmptyString))%bool.
Proof.
  rewrite includes_unfold. cbn [String.prefix].
  destruct (ascii_dec d c) as [->|n].
  - rewrite Ascii.eqb_refl. now destruct r.
  - apply Ascii.eqb_neq in n. now rewrite n.
Qed.

(** Joining the pieces of [split] with the separator gives the string back. *)
Lemma concat_split (sep : ascii) (s : string) :
  String.concat (String sep EmptyString) (Js.split sep s) = s.
Proof.
  induction s as [|c r IH]; simpl; [reflexivity|].
  destruct (Ascii.eqb_spec c sep) as [->|n].
  - pose proof (split_not_nil sep r) as Hne.
    destruct (Js.split sep r) as [|h t] eqn:E; [congruence|].
    simpl. now rewrite <- IH.
  - pose proof (split_not_nil sep r) as Hne.
    destruct (Js.split sep r) as [|h t] eqn:E; [congruence|].
    rewrite <- IH. destruct t; reflexivity.
Qed.

(** No piece of [split] contains the separator. *)
Lemma split_pieces (sep : ascii) (s : string) :
  Forall (fun p => Js.includes p (String sep EmptyString) = false)
    (Js.split sep s).
Proof.
  induction s as [|c r IH]; simpl.
  - constructor; [reflexivity | constructor].
  - destruct (Ascii.eqb_spec c sep) as [->|n].
    + constructor; [reflexivity | exact IH].
    + destruct (Js.split sep r) as [|h t] eqn:E.
      * constructor; [|constructor].
        rewrite includes_char_cons. simpl.
        apply not_eq_sym, Ascii.eqb_neq in n. now rewrite n.
      * inversion IH as [|? ? Hh Ht]; subst. constructor; [|exact Ht].
        rewrite includes_char_cons, Hh.
        apply not_eq_sym, Ascii.eqb_neq in n. now rewrite n.
Qed.

(** A string with the separator splits into two pieces at least, and one
    without it into itself. *)
Lemma split_includes (sep : ascii) (s : string) :
  if Js.includes s (String sep EmptyString)
  then exists a b more, Js.split sep s = a :: b :: more
  else Js.split sep s = [s].
Proof.
  induction s as [|c r IH].
  - reflexivity.
  - rewrite includes_char_cons. cbn [Js.split].
    destruct (Ascii.eqb_spec c sep) as [->|n].
    + rewrite Ascii.eqb_refl. simpl.
      pose proof (split_not_nil sep r) as Hne.
      destruct (Js.split sep r) as [|h t]; [congruence|].
    now exists EmptyString, h, t.
    + apply not_eq_sym, Ascii.eqb_neq in n. rewrite n. simpl.
      destruct (Js.includes r (String sep EmptyString)).
      * destruct IH as (a & b & more & ->). now exists (String c a), b, more.
      * now rewrite IH.
Qed.

Lemma toLowerChar_idempotent (c : ascii) :
  Js.toLowerChar (Js.toLowerChar c) = Js.toLowerChar c.
Proof.
  destruct c as [[] [] [] [] [] [] [] []]; reflexivity.
Qed.

Lemma toLowerCase_idempotent (s : string) :
  Js.toLowerCase (Js.toLowerCase s) = Js.toLowerCase s.
Proof.
  induction s as [|c r IH]; simpl; [reflexivity|].
  now rewrite toLowerChar_idempotent, IH.
Qed.

(** ** Numbers *)

Lemma numLt_true (x y : Q) : (x < y)%Q -> numLt x y = true.
Proof.
  intro H. unfold numLt. destruct (Qle_bool y x) eqn:E; [|reflexivity].
  apply Qle_bool_iff in E. exfalso. exact (Qlt_not_le _ _ H E).
Qed.

Lemma numLt_false (x y : Q) : (y <= x)%Q -> numLt x y = false.
Proof.
  intro H. unfold numLt. apply Qle_bool_iff in H. now rewrite H.
Qed.

Lemma numGt_true (x y : Q) : (y < x)%Q -> numGt x y = true.
Proof. intro H. unfold numGt. now apply (numLt_true y x). Qed.

Lemma numGt_false (x y : Q) : (x <= y)%Q -> numGt x y = false.
Proof. intro H. unfold numGt. now apply (numLt_false y x). Qed.

(** ** Validation of update-ticket and update-project *)

Section Validation.

Variable client : LinearClient.

Import UpdateTicketHandler.

(** Without a field to update, update-ticket stops at one of its first
    three checks. *)
Lemma updateTicket_no_field (args : UpdateTicketArgs) :
  hasUpdateField args = false ->
  exists msg,
    run (handleRequest client args)
    = (Throw (McpError InvalidParams msg), world0)
    /\ (Js.truthy (apiKey args) = true ->
        Js.truthy (ticketId args) = true ->
        msg = "At least one field to update is required").
Proof.
  intro H. unfold run, handleRequest.
  destruct (Js.truthy (apiKey args)); simpl;
    [|eexists; split; [reflexivity | discriminate]].
  destruct (Js.truthy (ticketId args)); simpl;
    [|eexists; split; [reflexivity | discriminate]].
  rewrite H. simpl. eexists; split; reflexivity.
Qed.

(** A priority out of range stops update-ticket at one of its four
    checks. *)
Lemma updateTicket_bad_priority (args : UpdateTicketArgs) :
  priorityOutOfRange args = true ->
  exists msg,
    run (handleRequest client args)
    = (Throw (McpError InvalidParams msg), world0)
    /\ (Js.truthy (apiKey args) = true ->
        Js.truthy (ticketId args) = true ->
        msg = "Priority must be between 0 and 4").
Proof.
  intro H. unfold run, handleRequest.
  destruct (Js.truthy (apiKey args)); simpl;
    [|eexists; split; [reflexivity | discriminate]].
  destruct (Js.truthy (ticketId args)); simpl;
    [|eexists; split; [reflexivity | discriminate]].
  assert (Hf : hasUpdateField args = true).
  { unfold priorityOutOfRange in H. unfold hasUpdateField.
    destruct (priority args); [|discriminate]. simpl.
    now rewrite !orb_true_r. }
  rewrite Hf, H. simpl. eexists; split; reflexivity.
Qed.

(** Once the four checks pass, the first thing update-ticket does is the
    structured issue query. *)
Lemma updateTicket_accepted (args : UpdateTicketArgs) :
  Js.truthy (apiKey args) = true ->
  Js.truthy (ticketId args) = true ->
  hasUpdateField args = true ->
  priorityOutOfRange args = false ->
  handleRequest client args
  = tryCatch (body client args)
      (rethrow "Error updating ticket:" "Failed to update ticket: ").
Proof.
  intros H1 H2 H3 H4. unfold handleRequest. now rewrite H1, H2, H3, H4.
Qed.

Lemma updateProject_no_field (args : UpdateProjectHandler.UpdateProjectArgs) :
  UpdateProjectHandler.hasUpdateField args = false ->
  exists msg,
    run (UpdateProjectHandler.handleRequest client args)
    = (Throw (McpError InvalidParams msg), world0)
    /\ (Js.truthy (UpdateProjectHandler.apiKey args) = true ->
        Js.truthy (UpdateProjectHandler.projectId args) = true ->
        msg = "At least one field to update is required").
Proof.
  intro H. unfold run, UpdateProjectHandler.handleRequest.
  destruct (Js.truthy (UpdateProjectHandler.apiKey args)); simpl;
    [|eexists; split; [reflexivity | discriminate]].
  destruct (Js.truthy (UpdateProjectHandler.projectId args)); simpl;
    [|eexists; split; [reflexivity | discriminate]].
  rewrite H. simpl. eexists; split; reflexivity.
Qed.

End Validation.

(** ** Remote calls issued by a computation *)

Section AppendsCalls.

Context {A B : Type} (P : Call -> Prop).

Lemma appends_ret (a : A) : appendsCalls P (ret a).
Proof. intro w. exists []. now rewrite app_nil_r. Qed.

Lemma appends_throw (e : exn) : appendsCalls P (@throw A e).
Proof. intro w. exists []. now rewrite app_nil_r. Qed.

Lemma appends_await (c : Call) (f : list Call -> Outcome A) :
  P c -> appendsCalls P (await c f).
Proof. intros Hc w. exists [c]. split; [reflexivity|]. now constructor. Qed.

Lemma appends_bind (m : M A) (k : A -> M B) :
  appendsCalls P m -> (forall a, appendsCalls P (k a)) ->
  appendsCalls P (bind m k).
Proof.
  intros Hm Hk w. unfold bind. destruct (Hm w) as (l1 & E1 & F1).
  destruct (m w) as [[a|e] w1]; simpl in *.
  - destruct (Hk a w1) as (l2 & E2 & F2). exists (l1 ++ l2)%list.
    rewrite E2, E1, app_assoc. split; [reflexivity|]. now apply Forall_app.
  - now exists l1.
Qed.

Lemma appends_tryCatch (m : M A) (h : exn -> M A) :
  appendsCalls P m -> (forall e, appendsCalls P (h e)) ->
  appendsCalls P (tryCatch m h).
Proof.
  intros Hm Hh w. unfold tryCatch. destruct (Hm w) as (l1 & E1 & F1).
  destruct (m w) as [[a|e] w1]; simpl in *.
  - now exists l1.
  - destruct (Hh e w1) as (l2 & E2 & F2). exists (l1 ++ l2)%list.
    rewrite E2, E1, app_assoc. split; [reflexivity|]. now apply Forall_app.
Qed.

End AppendsCalls.

Lemma appends_log (P : Call -> Prop) (l : LogEntry) : appendsCalls P (log l).
Proof. intro w. exists []. now rewrite app_nil_r. Qed.

Lemma appends_rethrow {A : Type} (P : Call -> Prop) (label prefix : string)
  (e : exn) : appendsCalls P (@rethrow A label prefix e).
Proof.
  destruct e; simpl; try apply appends_throw;
    (apply appends_bind; [apply appends_log | intros; apply appends_throw]).
Qed.

(** Repeated steps: split a computation along its combinators. *)
Ltac appends_step :=
  first
    [ apply appends_ret | apply appends_throw | apply appends_log
    | apply appends_rethrow
    | apply appends_await; exact I
    | apply appends_bind; [|intros]
    | apply appends_tryCatch; [|intros]
    | match goal with
      | |- appendsCalls _ (match ?x with _ => _ end) => destruct x
      | |- appendsCalls _ (if ?x then _ else _) => destruct x
      end ].

Ltac appends := repeat appends_step.

Lemma appends_fetchTeamById (client : LinearClient) (t : option string) :
  appendsCalls notIssueQuery (fetchTeamById client t).
Proof. unfold fetchTeamById. appends. Qed.

Lemma appends_fetchStateById (client : LinearClient) (s : option string) :
  appendsCalls notIssueQuery (fetchStateById client s).
Proof. unfold fetchStateById. appends. Qed.

(** After a first part that issued the calls [l1], a continuation that
    only appends leaves [l1] at the front. *)
Lemma calls_bind {A B : Type} (P : Call -> Prop) (m : M A) (k : A -> M B)
  (w : World) (l1 : list Call) :
  calls (snd (m w)) = (calls w ++ l1)%list ->
  (forall a, appendsCalls P (k a)) ->
  exists l2,
    calls (snd (bind m k w)) = (calls w ++ l1 ++ l2)%list /\ Forall P l2.
Proof.
  intros E1 Hk. unfold bind. destruct (m w) as [[a|e] w1]; simpl in *.
  - destruct (Hk a w1) as (l2 & E2 & F2). exists l2.
    now rewrite E2, E1, app_assoc.
  - exists []. now rewrite app_nil_r.
Qed.

Lemma calls_tryCatch_quiet {A : Type} (m : M A) (h : exn -> M A) (w : World) :
  (forall e, appendsCalls (fun _ => False) (h e)) ->
  calls (snd (tryCatch m h w)) = calls (snd (m w)).
Proof.
  intro Hh. unfold tryCatch.
  destruct (m w) as [[a|e] w1]; simpl; [reflexivity|].
  destruct (Hh e w1) as (l & E & F). rewrite E.
  destruct l as [|c l]; [apply app_nil_r | now inversion F].
Qed.

(** ** The issue lookup of update-ticket *)

Ltac appends_lookups :=
  repeat first
    [ apply appends_fetchTeamById | apply appends_fetchStateById
    | appends_step ].

Section UpdateTicketCalls.

Import UpdateTicketHandler.

Variable client : LinearClient.

(** The issue lookup issues exactly one call, the structured query. *)
Lemma findIssue_calls (tid : string) (w : World) :
  calls (snd (findIssue client tid w))
  = (calls w
     ++ [CallIssues {| issues_filter := issuesFilter tid;
                       issues_expand := false |}])%list.
Proof.
  unfold findIssue, tryCatch, bind, await, firstIssue. simpl.
  destruct (issues client (calls w) _) as [[|i nodes]|e]; reflexivity.
Qed.

Lemma appends_applyUpdate (tid : string) (i : Issue) (d : IssueUpdate) :
  appendsCalls notIssueQuery (applyUpdate client tid i d).
Proof. unfold applyUpdate. appends. Qed.

(** The calls of an accepted update-ticket request: the structured query
    first, then calls that are not queries for the issue. *)
Lemma updateTicket_calls (args : UpdateTicketArgs) :
  Js.truthy (apiKey args) = true ->
  Js.truthy (ticketId args) = true ->
  hasUpdateField args = true ->
  priorityOutOfRange args = false ->
  exists rest,
    calls (snd (run (handleRequest client args)))
    = CallIssues {| issues_filter := issuesFilter (ticketId args);
                    issues_expand := false |} :: rest
    /\ Forall notIssueQuery rest.
Proof.
  intros H1 H2 H3 H4. rewrite (updateTicket_accepted client args H1 H2 H3 H4).
  unfold run. rewrite calls_tryCatch_quiet by (intro; apply appends_rethrow).
  unfold body.
  destruct (calls_bind notIssueQuery (findIssue client (ticketId args))
              (fun i =>
                 updatedIssue <- applyUpdate client (ticketId args) i
                                   (updateData args) ;;
                 team <- fetchTeamById client (issue_teamId updatedIssue) ;;
                 ret {| success := true;
                        message := "Ticket updated successfully";
                        ticket :=
                          {| t_id := issue_id updatedIssue;
                             t_title := issue_title updatedIssue;
                             t_description := issue_description updatedIssue;
                             t_number := issue_number updatedIssue;
                             t_key := ticketKey (issue_key updatedIssue) team
                                        (issue_number updatedIssue);
                             t_updatedAt := issue_updatedAt updatedIssue;
                             t_url := issue_url updatedIssue |} |})
              world0 _ (findIssue_calls (ticketId args) world0))
    as (rest & E & F).
  - intro i. apply appends_bind; [apply appends_applyUpdate|]. intros.
    appends_lookups.
  - exists rest. split; [exact E | exact F].
Qed.

End UpdateTicketCalls.

(** ** Update requests that are rejected before any remote call *)

(** C9. An update-ticket or update-project request in which every
    updatable field is undefined fails with an invalid-parameter error and
    leaves the world untouched: no remote call was made and nothing was
    logged. When the API key and the identifier are present, the message is
    "At least one field to update is required". *)
Theorem C9_update_without_field_rejected :
  forall client : LinearClient,
    (forall args : UpdateTicketHandler.UpdateTicketArgs,
        UpdateTicketHandler.title args = None ->
        UpdateTicketHandler.description args = None ->
        UpdateTicketHandler.stateId args = None ->
        UpdateTicketHandler.assigneeId args = None ->
        UpdateTicketHandler.priority args = None ->
        UpdateTicketHandler.dueDate args = None ->
        UpdateTicketHandler.estimate args = None ->
        exists msg,
          run (UpdateTicketHandler.handleRequest client args)
          = (Throw (McpError InvalidParams msg), world0)
          /\ (Js.truthy (UpdateTicketHandler.apiKey args) = true ->
              Js.truthy (UpdateTicketHandler.ticketId args) = true ->
              msg = "At least one field to update is required"))
    /\ (forall args : UpdateProjectHandler.UpdateProjectArgs,
        UpdateProjectHandler.name args = None ->
        UpdateProjectHandler.description args = None ->
        UpdateProjectHandler.stateId args = None ->
        UpdateProjectHandler.teamIds args = None ->
        UpdateProjectHandler.startDate args = None ->
        UpdateProjectHandler.targetDate args = None ->
        UpdateProjectHandler.progress args = None ->
        UpdateProjectHandler.icon args = None ->
        UpdateProjectHandler.color args = None ->
        exists msg,
          run (UpdateProjectHandler.handleRequest client args)
          = (Throw (McpError InvalidParams msg), world0)
          /\ (Js.truthy (UpdateProjectHandler.apiKey args) = true ->
              Js.truthy (UpdateProjectHandler.projectId args) = true ->
              msg = "At least one field to update is required")).
Proof.
  intro client. split.
  - intros args H1 H2 H3 H4 H5 H6 H7. apply updateTicket_no_field.
    unfold UpdateTicketHandler.hasUpdateField.
    now rewrite H1, H2, H3, H4, H5, H6, H7.
  - intros args H1 H2 H3 H4 H5 H6 H7 H8 H9. apply updateProject_no_field.
    unfold UpdateProjectHandler.hasUpdateField.
    now rewrite H1, H2, H3, H4, H5, H6, H7, H8, H9.
Qed.

Lemma C9_update_without_field_rejected_witness :
  run (UpdateTicketHandler.handleRequest Sample.unreachable
         (Sample.updateArgs "ABC-7" None None))
  = (Throw (McpError InvalidParams "At least one field to update is required"),
     world0)
  /\ run (UpdateProjectHandler.handleRequest Sample.unreachable
            Sample.emptyProjectArgs)
     = (Throw (McpError InvalidParams "At least one field to update is required"),
        world0).
Proof.
  destruct (C9_update_without_field_rejected Sample.unreachable) as [Ht Hp].
  split.
  - destruct (Ht (Sample.updateArgs "ABC-7" None None)
                eq_refl eq_refl eq_refl eq_refl eq_refl eq_refl eq_refl)
      as (msg & Hrun & Hmsg).
    rewrite Hrun, (Hmsg eq_refl eq_refl). reflexivity.
  - destruct (Hp Sample.emptyProjectArgs
                eq_refl eq_refl eq_refl eq_refl eq_refl eq_refl eq_refl
                eq_refl eq_refl)
      as (msg & Hrun & Hmsg).
    rewrite Hrun, (Hmsg eq_refl eq_refl). reflexivity.
Defined.

(** C7. An update-ticket request whose priority lies outside [0,4] fails
    with an invalid-parameter error before any remote call (the world is
    untouched); a priority within the bounds, 0 and 4 included, passes the
    check, and a request that carries its API key and identifier goes on
    to query the tracker. *)
Theorem C7_priority_validation :
  forall (client : LinearClient) (args : UpdateTicketHandler.UpdateTicketArgs)
         (p : Q),
    UpdateTicketHandler.priority args = Some p ->
    ((p < 0 \/ 4 < p)%Q ->
     exists msg,
       run (UpdateTicketHandler.handleRequest client args)
       = (Throw (McpError InvalidParams msg), world0)
       /\ (Js.truthy (UpdateTicketHandler.apiKey args) = true ->
           Js.truthy (UpdateTicketHandler.ticketId args) = true ->
           msg = "Priority must be between 0 and 4"))
    /\ ((0 <= p /\ p <= 4)%Q ->
        UpdateTicketHandler.priorityOutOfRange args = false
        /\ (Js.truthy (UpdateTicketHandler.apiKey args) = true ->
            Js.truthy (UpdateTicketHandler.ticketId args) = true ->
            exists rest,
              calls (snd (run (UpdateTicketHandler.handleRequest client args)))
              = CallIssues
                  {| issues_filter :=
                       UpdateTicketHandler.issuesFilter
                         (UpdateTicketHandler.ticketId args);
                     issues_expand := false |} :: rest)).
Proof.
  intros client args p Hp. split.
  - intros Hout. apply updateTicket_bad_priority.
    unfold UpdateTicketHandler.priorityOutOfRange. rewrite Hp.
    destruct Hout as [Hlt|Hgt].
    + now rewrite (numLt_true _ _ Hlt).
    + rewrite (numGt_true _ _ Hgt). apply orb_true_r.
  - intros [Hlo Hhi].
    assert (Hin : UpdateTicketHandler.priorityOutOfRange args = false).
    { unfold UpdateTicketHandler.priorityOutOfRange. rewrite Hp.
      now rewrite (numLt_false _ _ Hlo), (numGt_false _ _ Hhi). }
    split; [exact Hin|]. intros H1 H2.
    destruct (updateTicket_calls client args H1 H2) as (rest & E & _).
    + unfold UpdateTicketHandler.hasUpdateField. rewrite Hp. simpl.
      now rewrite !orb_true_r.
    + exact Hin.
    + now exists rest.
Qed.

Lemma C7_priority_validation_witness :
  run (UpdateTicketHandler.handleRequest Sample.unreachable
         (Sample.updateArgs "ABC-7" None (Some (5#1))))
  = (Throw (McpError InvalidParams "Priority must be between 0 and 4"), world0)
  /\ UpdateTicketHandler.priorityOutOfRange
       (Sample.updateArgs "ABC-7" None (Some (0#1))) = false
  /\ UpdateTicketHandler.priorityOutOfRange
       (Sample.updateArgs "ABC-7" None (Some (4#1))) = false.
Proof.
  split; [|split].
  - destruct (C7_priority_validation Sample.unreachable
                (Sample.updateArgs "ABC-7" None (Some (5#1))) (5#1) eq_refl)
      as [Hout _].
    destruct (Hout (or_intror eq_refl)) as (msg & Hrun & Hmsg).
    rewrite Hrun, (Hmsg eq_refl eq_refl). reflexivity.
  - destruct (C7_priority_validation Sample.unreachable
                (Sample.updateArgs "ABC-7" None (Some (0#1))) (0#1) eq_refl)
      as [_ Hin].
    apply Hin. split; discriminate.
  - destruct (C7_priority_validation Sample.unreachable
                (Sample.updateArgs "ABC-7" None (Some (4#1))) (4#1) eq_refl)
      as [_ Hin].
    apply Hin. split; discriminate.
Defined.

(** ** Derived keys and the last handler *)

Lemma truthy_append_r (a b : string) :
  Js.truthy b = true -> Js.truthy (a ++ b) = true.
Proof. destruct a; simpl; auto. Qed.

(** A derived key is never empty, so it is taken as it is when it comes
    back as the key of a record. *)
Lemma ticketKey_truthy (key : option string) (team : option Team) (number : Z) :
  Js.truthy (ticketKey key team number) = true.
Proof.
  unfold ticketKey. destruct key as [k|]; simpl.
  - destruct (Js.truthy k) eqn:E; [exact E|].
    destruct team; [now apply truthy_append_r | reflexivity].
  - destruct team; [now apply truthy_append_r | reflexivity].
Qed.

Lemma rethrow_never_returns {A : Type} (label prefix : string) (e : exn)
  (w w' : World) (a : A) :
  rethrow label prefix e w <> (Return a, w').
Proof. destruct e; discriminate. Qed.

(** ** How an identifier is parsed *)

Section Parsing.

Variable tid : string.

(** With a hyphen: the first two pieces of the split are the team key and
    the number of all three queries; the structured query of get-ticket
    needs both pieces non-empty. *)
Lemma parse_hyphen (args : GetTicketByIdHandler.GetTicketByIdArgs) :
  Js.includes tid "-" = true ->
  exists prefix suffix more,
    Js.split "-" tid = prefix :: suffix :: more
    /\ UpdateTicketHandler.issuesFilter tid
       = IssueByTeamKeyAndNumber prefix (Js.parseInt suffix)
    /\ GetTicketByIdHandler.query (GetTicketByIdHandler.parse tid)
       = QueryIssueByTeamKeyAndNumber (Some prefix)
           (if Js.truthy suffix then Js.parseInt suffix else Some 0)
    /\ GetTicketByIdHandler.issuesFilter args (GetTicketByIdHandler.parse tid)
       = (if (Js.truthy prefix && Js.truthy suffix)%bool
          then IssueByTeamKeyAndNumber prefix (Js.parseInt suffix)
          else IssueById (GetTicketByIdHandler.ticketId args)).
Proof.
  intro H. pose proof (split_includes "-" tid) as S. rewrite H in S.
  destruct S as (prefix & suffix & more & S). exists prefix, suffix, more.
  unfold UpdateTicketHandler.issuesFilter, GetTicketByIdHandler.parse,
    GetTicketByIdHandler.query, GetTicketByIdHandler.issuesFilter.
  rewrite H, S. simpl. repeat split.
Qed.

(** Without a hyphen: the identifier itself is the id of all three
    queries. *)
Lemma parse_plain (args : GetTicketByIdHandler.GetTicketByIdArgs) :
  Js.includes tid "-" = false ->
  Js.truthy tid = true ->
  UpdateTicketHandler.issuesFilter tid = IssueById tid
  /\ GetTicketByIdHandler.query (GetTicketByIdHandler.parse tid)
     = QueryIssue tid
  /\ GetTicketByIdHandler.issuesFilter args (GetTicketByIdHandler.parse tid)
     = IssueById (GetTicketByIdHandler.ticketId args).
Proof.
  intros H T.
  unfold UpdateTicketHandler.issuesFilter, GetTicketByIdHandler.parse,
    GetTicketByIdHandler.query, GetTicketByIdHandler.issuesFilter.
  rewrite H. simpl. rewrite T. repeat split.
Qed.

End Parsing.

(** ** The calls of get-ticket *)

Section GetTicketCalls.

Import GetTicketByIdHandler.

Variables (client : LinearClient) (args : GetTicketByIdArgs).

(** The raw path issues one call and logs nothing. *)
Lemma graphqlPath_world (p : Parsed) (w : World) :
  snd (graphqlPath client args p w)
  = {| calls := (calls w ++ [CallRequest (query p)])%list;
       console := console w |}.
Proof.
  unfold graphqlPath, bind, await. simpl.
  destruct (_request client (calls w) (query p)) as [resp|e]; [|reflexivity].
  destruct (responseIssue resp); reflexivity.
Qed.

Lemma findIssue_calls_get (p : Parsed) (w : World) :
  calls (snd (findIssue client args p w))
  = (calls w
     ++ [CallIssues {| issues_filter := issuesFilter args p;
                       issues_expand := true |}])%list.
Proof.
  unfold findIssue, tryCatch, bind, await, firstIssue. simpl.
  destruct (issues client (calls w) _) as [[|i nodes]|e]; reflexivity.
Qed.

Lemma appends_backfill (p : Parsed) (i : Issue) :
  appendsCalls notIssueQuery (fetchAssignee client i)
  /\ appendsCalls notIssueQuery (fetchTeam client p i)
  /\ appendsCalls notIssueQuery (fetchLabels client i).
Proof.
  repeat split.
  - unfold fetchAssignee. appends.
  - unfold fetchTeam. appends_lookups.
  - unfold fetchLabels. appends.
Qed.

(** The calls of the fallback path: the structured query, then lookups
    of related records. *)
Lemma fallbackPath_calls (p : Parsed) (w : World) :
  exists rest,
    calls (snd (fallbackPath client args p w))
    = (calls w
       ++ CallIssues {| issues_filter := issuesFilter args p;
                        issues_expand := true |} :: rest)%list
    /\ Forall notIssueQuery rest.
Proof.
  unfold fallbackPath.
  match goal with
  | |- context [bind (findIssue client args p) ?k] =>
      destruct (calls_bind notIssueQuery (findIssue client args p) k w _
                  (findIssue_calls_get p w)) as (rest & E & F)
  end.
  - intro i. destruct (appends_backfill p i) as (Ha & Ht & Hl).
    apply appends_bind; [exact Ha|]. intros.
    apply appends_bind; [exact Ht|]. intros.
    apply appends_bind; [apply appends_fetchStateById|]. intros.
    apply appends_bind; [exact Hl|]. intros. apply appends_ret.
  - exists rest. split; [|exact F]. rewrite E. reflexivity.
Qed.

(** The raw path returns exactly when the raw request is answered with
    an issue. *)
Lemma graphqlPath_outcome (p : Parsed) (w : World) :
  match _request client (calls w) (query p) with
  | Return resp =>
      match responseIssue resp with
      | Some i => fst (graphqlPath client args p w) = Return (formatGraphQL i)
      | None => exists e, fst (graphqlPath client args p w) = Throw e
      end
  | Throw _ => exists e, fst (graphqlPath client args p w) = Throw e
  end.
Proof.
  unfold graphqlPath, bind, await. cbv beta iota.
  destruct (_request client (calls w) (query p)) as [resp|e];
    [|now exists e].
  destruct (responseIssue resp) as [i|]; [reflexivity | now eexists].
Qed.

(** The calls of a get-ticket request that carries its API key and
    identifier: the raw query, and nothing else when it is answered with
    an issue; when it is rejected or answered without an issue, the
    structured query and the lookups follow. *)
Lemma getTicket_calls :
  Js.truthy (apiKey args) = true ->
  Js.truthy (ticketId args) = true ->
  exists rest,
    calls (snd (run (handleRequest client args)))
    = CallRequest (query (parse (ticketId args))) :: rest
    /\ match _request client [] (query (parse (ticketId args))) with
       | Return resp =>
           match responseIssue resp with
           | Some _ => rest = []
           | None =>
               exists rest',
                 rest = CallIssues
                          {| issues_filter :=
                               issuesFilter args (parse (ticketId args));
                             issues_expand := true |} :: rest'
                 /\ Forall notIssueQuery rest'
           end
       | Throw _ =>
           exists rest',
             rest = CallIssues
                      {| issues_filter :=
                           issuesFilter args (parse (ticketId args));
                         issues_expand := true |} :: rest'
             /\ Forall notIssueQuery rest'
       end.
Proof.
  intros H1 H2. unfold run, handleRequest. rewrite H1, H2. simpl.
  rewrite calls_tryCatch_quiet by (intro; apply appends_rethrow).
  unfold tryCatch.
  pose proof (graphqlPath_world (parse (ticketId args)) world0) as G.
  pose proof (graphqlPath_outcome (parse (ticketId args)) world0) as O.
  cbn [calls world0] in O.
  destruct (fallbackPath_calls (parse (ticketId args))
              {| calls := [CallRequest (query (parse (ticketId args)))];
                 console := [] |}) as (rest & E & F).
  destruct (graphqlPath client args (parse (ticketId args)) world0)
    as [[r|e] w1]; simpl in G; subst w1; cbn [fst] in O.
  - exists []. split; [reflexivity|].
    destruct (_request client [] _) as [resp|e0];
      [destruct (responseIssue resp)|]; try reflexivity;
      destruct O as [e O]; discriminate O.
  - eexists. split; [exact E|].
    destruct (_request client [] _) as [resp|e0];
      [destruct (responseIssue resp) as [i|]|]; try discriminate O;
      now exists rest.
Qed.

End GetTicketCalls.

(** ** The calls of the revision of update-ticket that resolves "done" *)

Section UpdateTicketDoneCalls.

Import UpdateTicketHandler.

Variables (mcpMessage : ErrorCode -> string -> string)
          (client : LinearClient).

Lemma appends_resolveState (args : UpdateTicketArgs) (i : Issue) :
  appendsCalls notIssueQuery
    (UpdateTicketDoneHandler.resolveState mcpMessage client args i).
Proof.
  unfold UpdateTicketDoneHandler.resolveState,
    UpdateTicketDoneHandler.findDoneState,
    UpdateTicketDoneHandler.effectiveTeamId.
  appends.
Qed.

Lemma updateTicketDone_accepted (args : UpdateTicketArgs) :
  Js.truthy (apiKey args) = true ->
  Js.truthy (ticketId args) = true ->
  hasUpdateField args = true ->
  priorityOutOfRange args = false ->
  UpdateTicketDoneHandler.handleRequest mcpMessage client args
  = tryCatch (UpdateTicketDoneHandler.body mcpMessage client args)
      (rethrow "Error updating ticket:" "Failed to update ticket: ").
Proof.
  intros H1 H2 H3 H4. unfold UpdateTicketDoneHandler.handleRequest.
  now rewrite H1, H2, H3, H4.
Qed.

Lemma updateTicketDone_calls (args : UpdateTicketArgs) :
  Js.truthy (apiKey args) = true ->
  Js.truthy (ticketId args) = true ->
  hasUpdateField args = true ->
  priorityOutOfRange args = false ->
  exists rest,
    calls (snd (run (UpdateTicketDoneHandler.handleRequest mcpMessage client
                       args)))
    = CallIssues {| issues_filter := issuesFilter (ticketId args);
                    issues_expand := false |} :: rest
    /\ Forall notIssueQuery rest.
Proof.
  intros H1 H2 H3 H4. rewrite (updateTicketDone_accepted args H1 H2 H3 H4).
  unfold run. rewrite calls_tryCatch_quiet by (intro; apply appends_rethrow).
  unfold UpdateTicketDoneHandler.body.
  match goal with
  | |- context [bind (findIssue client ?t) ?k] =>
      destruct (calls_bind notIssueQuery (findIssue client t) k world0 _
                  (findIssue_calls client t world0)) as (rest & E & F)
  end.
  - intro i. apply appends_bind; [apply appends_resolveState|]. intros.
    apply appends_bind; [apply appends_applyUpdate|]. intros.
    appends_lookups.
  - exists rest. split; [exact E | exact F].
Qed.

End UpdateTicketDoneCalls.

(** ** Which query resolves an identifier *)

(** C1, as the code has it. For a non-empty identifier: with a hyphen,
    [prefix] and [suffix] being the first two pieces of the split,
    update-ticket (both revisions) issues one structured query, for
    [team.key == prefix] and [number == parseInt(suffix)]; get-ticket
    issues the raw query by team key and number (number 0 when the suffix
    is empty). When the raw query is answered with an issue, it is the only
    call of get-ticket; when it is rejected or answered without an issue,
    one structured query follows, which is by team key and number when
    prefix and suffix are both non-empty and by [id == identifier]
    otherwise. Without a hyphen, every one of these queries is by
    [id == identifier]. No other query for the issue is issued. *)
Theorem C1_resolution_query :
  forall (client : LinearClient) (tid : string),
    Js.truthy tid = true ->
    exists (f : IssueFilter) (q : RawQuery) (g : IssueFilter),
      (if Js.includes tid "-" then
         exists prefix suffix more,
           Js.split "-" tid = prefix :: suffix :: more
           /\ f = IssueByTeamKeyAndNumber prefix (Js.parseInt suffix)
           /\ q = QueryIssueByTeamKeyAndNumber (Some prefix)
                    (if Js.truthy suffix then Js.parseInt suffix else Some 0)
           /\ g = (if (Js.truthy prefix && Js.truthy suffix)%bool
                   then IssueByTeamKeyAndNumber prefix (Js.parseInt suffix)
                   else IssueById tid)
       else f = IssueById tid /\ q = QueryIssue tid /\ g = IssueById tid)
      /\ (forall args : UpdateTicketHandler.UpdateTicketArgs,
             UpdateTicketHandler.ticketId args = tid ->
             Js.truthy (UpdateTicketHandler.apiKey args) = true ->
             UpdateTicketHandler.hasUpdateField args = true ->
             UpdateTicketHandler.priorityOutOfRange args = false ->
             (exists rest,
                 calls (snd (run (UpdateTicketHandler.handleRequest client args)))
                 = CallIssues {| issues_filter := f; issues_expand := false |}
                   :: rest
                 /\ Forall notIssueQuery rest)
             /\ (forall mcpMessage, exists rest,
                   calls (snd (run (UpdateTicketDoneHandler.handleRequest
                                      mcpMessage client args)))
                   = CallIssues {| issues_filter := f; issues_expand := false |}
                     :: rest
                   /\ Forall notIssueQuery rest))
      /\ (forall args : GetTicketByIdHandler.GetTicketByIdArgs,
             GetTicketByIdHandler.ticketId args = tid ->
             Js.truthy (GetTicketByIdHandler.apiKey args) = true ->
             exists rest,
               calls (snd (run (GetTicketByIdHandler.handleRequest client args)))
               = CallRequest q :: rest
               /\ match _request client [] q with
                  | Return resp =>
                      match GetTicketByIdHandler.responseIssue resp with
                      | Some _ => rest = []
                      | None =>
                          exists rest',
                            rest = CallIssues {| issues_filter := g;
                                                 issues_expand := true |}
                                   :: rest'
                            /\ Forall notIssueQuery rest'
                      end
                  | Throw _ =>
                      exists rest',
                        rest = CallIssues {| issues_filter := g;
                                             issues_expand := true |} :: rest'
                        /\ Forall notIssueQuery rest'
                  end).
Proof.
  intros client tid T.
  exists (UpdateTicketHandler.issuesFilter tid),
    (GetTicketByIdHandler.query (GetTicketByIdHandler.parse tid)),
    (GetTicketByIdHandler.issuesFilter
       (GetTicketByIdHandler.mkArgs "" tid) (GetTicketByIdHandler.parse tid)).
  split; [|split].
  - destruct (Js.includes tid "-") eqn:H.
    + destruct (parse_hyphen tid (GetTicketByIdHandler.mkArgs "" tid) H)
        as (prefix & suffix & more & S & F & Q & G).
      exists prefix, suffix, more. repeat split; assumption.
    + exact (parse_plain tid (GetTicketByIdHandler.mkArgs "" tid) H T).
  - intros args <- H1 H3 H4. split.
    + exact (updateTicket_calls client args H1 T H3 H4).
    + intro m. exact (updateTicketDone_calls m client args H1 T H3 H4).
  - intros args E H1. subst tid.
    destruct (getTicket_calls client args H1 T) as (rest & Hc & Hr).
    exists rest. split; [exact Hc|].
    destruct args as [k t]. exact Hr.
Qed.

Lemma C1_resolution_query_witness :
  exists rest',
    calls (snd (run (GetTicketByIdHandler.handleRequest Sample.vacant
                       (Sample.getArgs "PLA-524"))))
    = CallRequest (QueryIssueByTeamKeyAndNumber (Some "PLA") (Some 524))
      :: CallIssues
           {| issues_filter := IssueByTeamKeyAndNumber "PLA" (Some 524);
              issues_expand := true |} :: rest'
    /\ Forall notIssueQuery rest'.
Proof.
  destruct (C1_resolution_query Sample.vacant "PLA-524" eq_refl)
    as (f & q & g & Hshape & _ & Hget).
  simpl in Hshape.
  destruct Hshape as (prefix & suffix & more & S & _ & -> & ->).
  injection S as <- <- _.
  destruct (Hget (Sample.getArgs "PLA-524") eq_refl eq_refl)
    as (rest & Hc & rest' & -> & F).
  exists rest'. split; [exact Hc | exact F].
Defined.

(** C1 fails as stated: "ABC-" contains a hyphen, yet the structured
    query of get-ticket is by [id == "ABC-"], and it runs after a raw query
    by team key and number. *)
Lemma C1_counterexample :
  Js.includes "ABC-" "-" = true
  /\ calls (snd (run (GetTicketByIdHandler.handleRequest Sample.unreachable
                        (Sample.getArgs "ABC-"))))
     = [CallRequest (QueryIssueByTeamKeyAndNumber (Some "ABC") (Some 0));
        CallIssues {| issues_filter := IssueById "ABC-";
                      issues_expand := true |}].
Proof. split; reflexivity. Qed.

(** C6, as the code has it. An identifier with a hyphen is split at every
    hyphen and the first two pieces are kept: [prefix] is the text before
    the first hyphen and [number] the text between the first hyphen and the
    second one (or the end). [number] goes through [parseInt] without a
    check: update-ticket queries by team key and number whatever
    [parseInt] gives, NaN included, and never by id; get-ticket does the
    same in its raw query (with 0 for an empty [number]) and falls back to
    an id lookup in its structured query only when [prefix] or [number] is
    empty. *)
Theorem C6_identifier_parsing :
  forall tid : string,
    Js.includes tid "-" = true ->
    exists prefix number more,
      Js.split "-" tid = prefix :: number :: more
      /\ tid = String.concat "-" (prefix :: number :: more)
      /\ Js.includes prefix "-" = false
      /\ Js.includes number "-" = false
      /\ UpdateTicketHandler.issuesFilter tid
         = IssueByTeamKeyAndNumber prefix (Js.parseInt number)
      /\ GetTicketByIdHandler.query (GetTicketByIdHandler.parse tid)
         = QueryIssueByTeamKeyAndNumber (Some prefix)
             (if Js.truthy number then Js.parseInt number else Some 0)
      /\ (forall args : GetTicketByIdHandler.GetTicketByIdArgs,
             GetTicketByIdHandler.issuesFilter args
               (GetTicketByIdHandler.parse tid)
             = (if (Js.truthy prefix && Js.truthy number)%bool
                then IssueByTeamKeyAndNumber prefix (Js.parseInt number)
                else IssueById (GetTicketByIdHandler.ticketId args))).
Proof.
  intros tid H.
  destruct (parse_hyphen tid (GetTicketByIdHandler.mkArgs "" tid) H)
    as (prefix & number & more & S & F & Q & _).
  exists prefix, number, more.
  pose proof (concat_split "-" tid) as C. rewrite S in C.
  pose proof (split_pieces "-" tid) as P. rewrite S in P.
  apply Forall_cons_iff in P. destruct P as [P1 P].
  apply Forall_cons_iff in P. destruct P as [P2 _].
  split; [exact S|]. split; [now symmetry|].
  split; [exact P1|]. split; [exact P2|].
  split; [exact F|]. split; [exact Q|].
  intro args. destruct (parse_hyphen tid args H)
    as (prefix' & number' & more' & S' & _ & _ & G).
  rewrite S in S'. injection S' as <- <- <-. exact G.
Qed.

Lemma C6_identifier_parsing_witness :
  UpdateTicketHandler.issuesFilter "PLA-524"
  = IssueByTeamKeyAndNumber "PLA" (Some 524).
Proof.
  destruct (C6_identifier_parsing "PLA-524" eq_refl)
    as (prefix & number & more & S & _ & _ & _ & F & _).
  injection S as <- <- _. exact F.
Defined.

(** C6 fails as stated: the number part of "ABC-xyz" does not parse as an
    integer, yet update-ticket queries by team key and number, not by id. *)
Lemma C6_counterexample :
  Js.includes "ABC-xyz" "-" = true
  /\ Js.parseInt "xyz" = None
  /\ calls (snd (run (UpdateTicketHandler.handleRequest Sample.vacant
                        (Sample.updateArgs "ABC-xyz" None (Some (1#1))))))
     = [CallIssues {| issues_filter := IssueByTeamKeyAndNumber "ABC" None;
                      issues_expand := false |}].
Proof. repeat split; reflexivity. Qed.

(** ** The two paths of get-ticket *)

Section GetTicketPaths.

Import GetTicketByIdHandler.

Variables (client : LinearClient) (args : GetTicketByIdArgs).

Hypothesis HapiKey : Js.truthy (apiKey args) = true.
Hypothesis HticketId : Js.truthy (ticketId args) = true.

(** When the raw path throws, the handler is the fallback path run after
    the raw request, under the last [catch]. The thrown value does not
    occur on the right-hand side. *)
Lemma handleRequest_fallback (e : exn) (w : World) :
  graphqlPath client args (parse (ticketId args)) world0 = (Throw e, w) ->
  run (handleRequest client args)
  = tryCatch (fallbackPath client args (parse (ticketId args)))
      (rethrow "Error retrieving ticket:" "Failed to retrieve ticket: ")
      {| calls := [CallRequest (query (parse (ticketId args)))];
         console := [] |}.
Proof.
  intro G.
  pose proof (graphqlPath_world client args (parse (ticketId args)) world0)
    as W.
  rewrite G in W. simpl in W. subst w.
  unfold run, handleRequest. rewrite HapiKey, HticketId. simpl.
  unfold tryCatch. now rewrite G.
Qed.

(** When the raw path returns, its record is the answer and the raw
    request the only call. *)
Lemma handleRequest_graphql (r : TicketResponse) (w : World) :
  graphqlPath client args (parse (ticketId args)) world0 = (Return r, w) ->
  run (handleRequest client args)
  = (Return r,
     {| calls := [CallRequest (query (parse (ticketId args)))];
        console := [] |}).
Proof.
  intro G.
  pose proof (graphqlPath_world client args (parse (ticketId args)) world0)
    as W.
  rewrite G in W. simpl in W. subst w.
  unfold run, handleRequest. rewrite HapiKey, HticketId. simpl.
  unfold tryCatch. now rewrite G.
Qed.

(** The raw path throws when the request is rejected or its response
    carries no issue. *)
Lemma graphqlPath_throws :
  (forall resp,
      _request client [] (query (parse (ticketId args))) = Return resp ->
      responseIssue resp = None) ->
  exists e,
    graphqlPath client args (parse (ticketId args)) world0
    = (Throw e,
       {| calls := [CallRequest (query (parse (ticketId args)))];
          console := [] |}).
Proof.
  intro H. unfold graphqlPath, bind, await. simpl.
  destruct (_request client [] (query (parse (ticketId args))))
    as [resp|e] eqn:E.
  - rewrite (H resp eq_refl). now eexists.
  - now eexists.
Qed.

(** Zero matches on the structured query: the lookup logs and throws,
    and has issued that one call. *)
Lemma findIssue_zero (w : World) :
  issues client (calls w)
    {| issues_filter := issuesFilter args (parse (ticketId args));
       issues_expand := true |}
  = Return [] ->
  findIssue client args (parse (ticketId args)) w
  = (Throw (McpError InternalError ("Could not find ticket: " ++ ticketId args)),
     {| calls :=
          (calls w
           ++ [CallIssues
                 {| issues_filter :=
                      issuesFilter args (parse (ticketId args));
                    issues_expand := true |}])%list;
        console :=
          (console w
           ++ [ConsoleError "Error finding ticket:"
                 (McpError InternalError
                    ("Ticket not found: " ++ ticketId args))])%list |}).
Proof.
  intro H. unfold findIssue, tryCatch, bind, await. simpl. now rewrite H.
Qed.

Lemma findIssue_found (w : World) (i : Issue) (nodes : list Issue) :
  issues client (calls w)
    {| issues_filter := issuesFilter args (parse (ticketId args));
       issues_expand := true |}
  = Return (i :: nodes) ->
  findIssue client args (parse (ticketId args)) w
  = (Return i,
     {| calls :=
          (calls w
           ++ [CallIssues
                 {| issues_filter :=
                      issuesFilter args (parse (ticketId args));
                    issues_expand := true |}])%list;
        console := console w |}).
Proof.
  intro H. unfold findIssue, tryCatch, bind, await. simpl. now rewrite H.
Qed.

End GetTicketPaths.

(** ** Zero matches *)

(** C4, as the code has it. When neither query of get-ticket finds the
    issue (the raw request is rejected or answers without an issue, the
    structured query answers with zero nodes), the handler fails with an
    error whose message is "Could not find ticket: " followed by the
    identifier; the raw query and the structured query are the only remote
    calls, so nothing is called after the zero-match answer of the
    structured query. *)
Theorem C4_zero_matches :
  forall (client : LinearClient)
         (args : GetTicketByIdHandler.GetTicketByIdArgs),
    Js.truthy (GetTicketByIdHandler.apiKey args) = true ->
    Js.truthy (GetTicketByIdHandler.ticketId args) = true ->
    (forall resp,
        _request client []
          (GetTicketByIdHandler.query
             (GetTicketByIdHandler.parse (GetTicketByIdHandler.ticketId args)))
        = Return resp ->
        GetTicketByIdHandler.responseIssue resp = None) ->
    issues client
      [CallRequest
         (GetTicketByIdHandler.query
            (GetTicketByIdHandler.parse (GetTicketByIdHandler.ticketId args)))]
      {| issues_filter :=
           GetTicketByIdHandler.issuesFilter args
             (GetTicketByIdHandler.parse (GetTicketByIdHandler.ticketId args));
         issues_expand := true |}
    = Return [] ->
    exists msg,
      fst (run (GetTicketByIdHandler.handleRequest client args))
      = Throw (McpError InternalError msg)
      /\ msg = "Could not find ticket: " ++ GetTicketByIdHandler.ticketId args
      /\ Js.includes msg (GetTicketByIdHandler.ticketId args) = true
      /\ calls (snd (run (GetTicketByIdHandler.handleRequest client args)))
         = [CallRequest
              (GetTicketByIdHandler.query
                 (GetTicketByIdHandler.parse
                    (GetTicketByIdHandler.ticketId args)));
            CallIssues
              {| issues_filter :=
                   GetTicketByIdHandler.issuesFilter args
                     (GetTicketByIdHandler.parse
                        (GetTicketByIdHandler.ticketId args));
                 issues_expand := true |}].
Proof.
  intros client args H1 H2 Hraw Hzero.
  destruct (graphqlPath_throws client args Hraw) as [e G].
  rewrite (handleRequest_fallback client args H1 H2 e _ G).
  unfold tryCatch, GetTicketByIdHandler.fallbackPath, bind.
  rewrite (findIssue_zero client args
             {| calls :=
                  [CallRequest
                     (GetTicketByIdHandler.query
                        (GetTicketByIdHandler.parse
                           (GetTicketByIdHandler.ticketId args)))];
                console := [] |} Hzero).
  cbv beta iota. unfold rethrow, throw. cbn [fst snd calls console].
  eexists. split; [reflexivity|]. split; [reflexivity|].
  split; [apply includes_append | reflexivity].
Qed.

Lemma C4_zero_matches_witness :
  fst (run (GetTicketByIdHandler.handleRequest Sample.vacant
              (Sample.getArgs "ABC-7")))
  = Throw (McpError InternalError "Could not find ticket: ABC-7")
  /\ Js.includes "Could not find ticket: ABC-7" "ABC-7" = true.
Proof.
  destruct (C4_zero_matches Sample.vacant (Sample.getArgs "ABC-7")
              eq_refl eq_refl)
    as (msg & Hrun & Hmsg & Hinc & _).
  - intros resp H. injection H as <-. reflexivity.
  - reflexivity.
  - rewrite Hmsg in Hrun, Hinc. split; [exact Hrun | exact Hinc].
Defined.

(** C4 fails as stated: the tracker answers the raw query for "ABC-7"
    with zero matches, and get-ticket makes a further remote call, the
    structured query. *)
Lemma C4_counterexample :
  _request Sample.vacant []
    (QueryIssueByTeamKeyAndNumber (Some "ABC") (Some 7))
  = Return (Some {| resp_issue := None; resp_issueByTeamKeyAndNumber := None |})
  /\ calls (snd (run (GetTicketByIdHandler.handleRequest Sample.vacant
                        (Sample.getArgs "ABC-7"))))
     = [CallRequest (QueryIssueByTeamKeyAndNumber (Some "ABC") (Some 7));
        CallIssues
          {| issues_filter := IssueByTeamKeyAndNumber "ABC" (Some 7);
             issues_expand := true |}].
Proof. split; reflexivity. Qed.

(** In update-ticket the structured query is the first call, and zero
    matches end the request there. *)
Remark updateTicket_zero_matches (client : LinearClient)
  (args : UpdateTicketHandler.UpdateTicketArgs) :
  Js.truthy (UpdateTicketHandler.apiKey args) = true ->
  Js.truthy (UpdateTicketHandler.ticketId args) = true ->
  UpdateTicketHandler.hasUpdateField args = true ->
  UpdateTicketHandler.priorityOutOfRange args = false ->
  issues client []
    {| issues_filter :=
         UpdateTicketHandler.issuesFilter (UpdateTicketHandler.ticketId args);
       issues_expand := false |} = Return [] ->
  fst (run (UpdateTicketHandler.handleRequest client args))
  = Throw (McpError InternalError
             ("Could not find ticket: " ++ UpdateTicketHandler.ticketId args))
  /\ calls (snd (run (UpdateTicketHandler.handleRequest client args)))
     = [CallIssues
          {| issues_filter :=
               UpdateTicketHandler.issuesFilter
                 (UpdateTicketHandler.ticketId args);
             issues_expand := false |}].
Proof.
  intros H1 H2 H3 H4 Hzero.
  rewrite (updateTicket_accepted client args H1 H2 H3 H4).
  unfold run, tryCatch, UpdateTicketHandler.body, bind,
    UpdateTicketHandler.findIssue, tryCatch, bind, await.
  cbn [calls console world0]. rewrite Hzero. split; reflexivity.
Qed.

(** ** Backfill of the related records *)

Section Backfill.

Import GetTicketByIdHandler.

Variables (client : LinearClient) (p : Parsed) (i : Issue).

(** Each lookup of the fallback path returns, whatever the tracker
    answers. *)
Lemma fetchAssignee_total (w : World) :
  exists a w', fetchAssignee client i w = (Return a, w').
Proof.
  unfold fetchAssignee, tryCatch, bind, await, log, ret.
  destruct (issue_assigneeId i) as [aid|]; [|now eexists; eexists].
  destruct (Js.truthy aid); [|now eexists; eexists]. simpl.
  destruct (users client (calls w) aid) as [[|u nodes]|e];
    now eexists; eexists.
Qed.

Lemma fetchTeamById_total (t : option string) (w : World) :
  exists a w', fetchTeamById client t w = (Return a, w').
Proof.
  unfold fetchTeamById, tryCatch, bind, await, log, ret.
  destruct t as [tid|]; [|now eexists; eexists].
  destruct (Js.truthy tid); [|now eexists; eexists]. simpl.
  destruct (teams client (calls w) (TeamById tid)) as [[|u nodes]|e];
    now eexists; eexists.
Qed.

Lemma fetchTeam_total (w : World) :
  exists a w', fetchTeam client p i w = (Return a, w').
Proof.
  unfold fetchTeam.
  destruct (Js.truthyOpt (issue_teamId i)); [apply fetchTeamById_total|].
  unfold tryCatch, bind, await, log, ret.
  destruct (teamKey p) as [k|]; [|now eexists; eexists].
  destruct (Js.truthy k); [|now eexists; eexists]. simpl.
  destruct (teams client (calls w) (TeamByKey k)) as [[|u nodes]|e];
    now eexists; eexists.
Qed.

Lemma fetchStateById_total (s : option string) (w : World) :
  exists a w', fetchStateById client s w = (Return a, w').
Proof.
  unfold fetchStateById, tryCatch, bind, await, log, ret.
  destruct s as [sid|]; [|now eexists; eexists].
  destruct (Js.truthy sid); [|now eexists; eexists]. simpl.
  destruct (workflowStates client (calls w) (StateById sid))
    as [[|u nodes]|e]; now eexists; eexists.
Qed.

Lemma fetchLabels_total (w : World) :
  exists a w', fetchLabels client i w = (Return a, w').
Proof.
  unfold fetchLabels, tryCatch, bind, await, log, ret.
  destruct (issue_labelIds i) as [[|l ls]|]; try (now eexists; eexists).
  simpl. destruct (issueLabels client (calls w)); now eexists; eexists.
Qed.

(** When every lookup is rejected, the assignee, the team and the state
    stay [null], and every label id gets the placeholder label. *)
Section AllRejected.

Hypothesis Husers : forall h x, exists e, users client h x = Throw e.
Hypothesis Hteams : forall h f, exists e, teams client h f = Throw e.
Hypothesis Hstates :
  forall h f, exists e, workflowStates client h f = Throw e.
Hypothesis Hlabels : forall h, exists e, issueLabels client h = Throw e.

Lemma fetchAssignee_rejected (w : World) :
  exists w', fetchAssignee client i w = (Return None, w').
Proof.
  unfold fetchAssignee, tryCatch, bind, await, log, ret.
  destruct (issue_assigneeId i) as [aid|]; [|now eexists].
  destruct (Js.truthy aid); [|now eexists]. simpl.
  destruct (Husers (calls w) aid) as [e ->]. now eexists.
Qed.

Lemma fetchTeamById_rejected (t : option string) (w : World) :
  exists w', fetchTeamById client t w = (Return None, w').
Proof.
  unfold fetchTeamById, tryCatch, bind, await, log, ret.
  destruct t as [tid|]; [|now eexists].
  destruct (Js.truthy tid); [|now eexists]. simpl.
  destruct (Hteams (calls w) (TeamById tid)) as [e ->]. now eexists.
Qed.

Lemma fetchTeam_rejected (w : World) :
  exists w', fetchTeam client p i w = (Return None, w').
Proof.
  unfold fetchTeam.
  destruct (Js.truthyOpt (issue_teamId i)); [apply fetchTeamById_rejected|].
  unfold tryCatch, bind, await, log, ret.
  destruct (teamKey p) as [k|]; [|now eexists].
  destruct (Js.truthy k); [|now eexists]. simpl.
  destruct (Hteams (calls w) (TeamByKey k)) as [e ->]. now eexists.
Qed.

Lemma fetchStateById_rejected (s : option string) (w : World) :
  exists w', fetchStateById client s w = (Return None, w').
Proof.
  unfold fetchStateById, tryCatch, bind, await, log, ret.
  destruct s as [sid|]; [|now eexists].
  destruct (Js.truthy sid); [|now eexists]. simpl.
  destruct (Hstates (calls w) (StateById sid)) as [e ->]. now eexists.
Qed.

Lemma fetchLabels_rejected (w : World) :
  exists w',
    fetchLabels client i w
    = (Return (map unknownLabel
                 (match issue_labelIds i with Some l => l | None => [] end)),
       w').
Proof.
  unfold fetchLabels, tryCatch, bind, await, log, ret.
  destruct (issue_labelIds i) as [[|l ls]|]; try (now eexists).
  simpl. destruct (Hlabels (calls w)) as [e ->]. now eexists.
Qed.

End AllRejected.

End Backfill.

(** C3, as the code has it. Once the fallback path of get-ticket has found
    the issue, the handler returns a record whatever the lookups of the
    assignee, the team, the state and the label catalog do. When all of
    them are rejected, the assignee, the team and the state of the record
    are [null] (no placeholder stands for them) and every label id is
    given the placeholder name "Unknown" and color "#cccccc". *)
Theorem C3_backfill_never_raises :
  forall (client : LinearClient)
         (args : GetTicketByIdHandler.GetTicketByIdArgs)
         (i : Issue) (nodes : list Issue),
    Js.truthy (GetTicketByIdHandler.apiKey args) = true ->
    Js.truthy (GetTicketByIdHandler.ticketId args) = true ->
    (forall resp,
        _request client []
          (GetTicketByIdHandler.query
             (GetTicketByIdHandler.parse (GetTicketByIdHandler.ticketId args)))
        = Return resp ->
        GetTicketByIdHandler.responseIssue resp = None) ->
    issues client
      [CallRequest
         (GetTicketByIdHandler.query
            (GetTicketByIdHandler.parse (GetTicketByIdHandler.ticketId args)))]
      {| issues_filter :=
           GetTicketByIdHandler.issuesFilter args
             (GetTicketByIdHandler.parse (GetTicketByIdHandler.ticketId args));
         issues_expand := true |}
    = Return (i :: nodes) ->
    (exists r w,
        run (GetTicketByIdHandler.handleRequest client args) = (Return r, w)
        /\ GetTicketByIdHandler.id r = issue_id i
        /\ GetTicketByIdHandler.title r = issue_title i
        /\ GetTicketByIdHandler.number r = issue_number i
        /\ GetTicketByIdHandler.url r = issue_url i)
    /\ ((forall h x, exists e, users client h x = Throw e) ->
        (forall h f, exists e, teams client h f = Throw e) ->
        (forall h f, exists e, workflowStates client h f = Throw e) ->
        (forall h, exists e, issueLabels client h = Throw e) ->
        exists w,
          run (GetTicketByIdHandler.handleRequest client args)
          = (Return
               {| GetTicketByIdHandler.id := issue_id i;
                  GetTicketByIdHandler.title := issue_title i;
                  GetTicketByIdHandler.description := issue_description i;
                  GetTicketByIdHandler.number := issue_number i;
                  GetTicketByIdHandler.key :=
                    ticketKey (issue_key i) None (issue_number i);
                  GetTicketByIdHandler.createdAt := issue_createdAt i;
                  GetTicketByIdHandler.updatedAt := issue_updatedAt i;
                  GetTicketByIdHandler.dueDate := issue_dueDate i;
                  GetTicketByIdHandler.estimate := issue_estimate i;
                  GetTicketByIdHandler.priority := issue_priority i;
                  GetTicketByIdHandler.assignee := None;
                  GetTicketByIdHandler.team := None;
                  GetTicketByIdHandler.state := None;
                  GetTicketByIdHandler.labels :=
                    map GetTicketByIdHandler.unknownLabel
                      (match issue_labelIds i with
                       | Some l => l
                       | None => []
                       end);
                  GetTicketByIdHandler.url := issue_url i |}, w)).
Proof.
  intros client args i nodes H1 H2 Hraw Hfound.
  destruct (graphqlPath_throws client args Hraw) as [e G].
  rewrite (handleRequest_fallback client args H1 H2 e _ G).
  unfold tryCatch, GetTicketByIdHandler.fallbackPath, bind.
  rewrite (findIssue_found client args
             {| calls :=
                  [CallRequest
                     (GetTicketByIdHandler.query
                        (GetTicketByIdHandler.parse
                           (GetTicketByIdHandler.ticketId args)))];
                console := [] |} i nodes Hfound).
  cbv beta iota. split.
  - match goal with
    | |- context [GetTicketByIdHandler.fetchAssignee client i ?w] =>
        destruct (fetchAssignee_total client i w) as (a & w2 & ->)
    end. cbv beta iota.
    match goal with
    | |- context [GetTicketByIdHandler.fetchTeam client ?p i ?w] =>
        destruct (fetchTeam_total client p i w) as (t & w3 & ->)
    end. cbv beta iota.
    match goal with
    | |- context [fetchStateById client ?s ?w] =>
        destruct (fetchStateById_total client s w) as (s' & w4 & ->)
    end. cbv beta iota.
    match goal with
    | |- context [GetTicketByIdHandler.fetchLabels client i ?w] =>
        destruct (fetchLabels_total client i w) as (l & w5 & ->)
    end. cbv beta iota.
    unfold ret. eexists. eexists. split; [reflexivity|]. repeat split.
  - intros Hu Ht Hs Hl.
    match goal with
    | |- context [GetTicketByIdHandler.fetchAssignee client i ?w] =>
        destruct (fetchAssignee_rejected client i Hu w) as (w2 & ->)
    end. cbv beta iota.
    match goal with
    | |- context [GetTicketByIdHandler.fetchTeam client ?p i ?w] =>
        destruct (fetchTeam_rejected client p i Ht w) as (w3 & ->)
    end. cbv beta iota.
    match goal with
    | |- context [fetchStateById client ?s ?w] =>
        destruct (fetchStateById_rejected client Hs s w) as (w4 & ->)
    end. cbv beta iota.
    match goal with
    | |- context [GetTicketByIdHandler.fetchLabels client i ?w] =>
        destruct (fetchLabels_rejected client i Hl w) as (w5 & ->)
    end. cbv beta iota.
    unfold ret. eexists. reflexivity.
Qed.

Lemma C3_backfill_never_raises_witness :
  exists w,
    run (GetTicketByIdHandler.handleRequest Sample.issueOnly
           (Sample.getArgs "ABC-7"))
    = (Return
         {| GetTicketByIdHandler.id := "9f2c";
            GetTicketByIdHandler.title := "Fix login";
            GetTicketByIdHandler.description := None;
            GetTicketByIdHandler.number := 7;
            GetTicketByIdHandler.key := "ISSUE-7";
            GetTicketByIdHandler.createdAt := "2025-01-01T00:00:00.000Z";
            GetTicketByIdHandler.updatedAt := "2025-01-02T00:00:00.000Z";
            GetTicketByIdHandler.dueDate := None;
            GetTicketByIdHandler.estimate := None;
            GetTicketByIdHandler.priority := Some (2#1);
            GetTicketByIdHandler.assignee := None;
            GetTicketByIdHandler.team := None;
            GetTicketByIdHandler.state := None;
            GetTicketByIdHandler.labels :=
              [mkLabel "label-1" "Unknown" "#cccccc";
               mkLabel "label-2" "Unknown" "#cccccc"];
            GetTicketByIdHandler.url := "https://linear.app/acme/issue/ABC-7" |},
       w).
Proof.
  destruct (C3_backfill_never_raises Sample.issueOnly (Sample.getArgs "ABC-7")
              Sample.issue7 [] eq_refl eq_refl) as [_ H].
  - intros resp E. discriminate E.
  - reflexivity.
  - apply H; intros; eexists; reflexivity.
Defined.

(** C3 fails as stated: every lookup for the ticket "ABC-7" is rejected,
    and the record has no assignee, team or state at all, where the claim
    puts placeholders named "Unknown". *)
Lemma C3_counterexample :
  users Sample.issueOnly [] "user-1" = Throw Sample.down
  /\ teams Sample.issueOnly [] (TeamById "team-42") = Throw Sample.down
  /\ workflowStates Sample.issueOnly [] (StateById "state-1")
     = Throw Sample.down
  /\ exists r w,
       run (GetTicketByIdHandler.handleRequest Sample.issueOnly
              (Sample.getArgs "ABC-7")) = (Return r, w)
       /\ GetTicketByIdHandler.assignee r = None
       /\ GetTicketByIdHandler.team r = None
       /\ GetTicketByIdHandler.state r = None.
Proof.
  repeat split. eexists. eexists. split; [reflexivity|]. repeat split.
Qed.

(** ** Running a sequence step by step *)

Lemma bind_return {A B : Type} (m : M A) (k : A -> M B) (w w' : World) (a : A) :
  m w = (Return a, w') -> bind m k w = k a w'.
Proof. intro H. unfold bind. now rewrite H. Qed.

Lemma bind_throw {A B : Type} (m : M A) (k : A -> M B) (w w' : World)
  (e : exn) :
  m w = (Throw e, w') -> bind m k w = (Throw e, w').
Proof. intro H. unfold bind. now rewrite H. Qed.

(** ** The fallback of get-ticket *)

Section Fallback.

Import GetTicketByIdHandler.

Variables (client : LinearClient) (args : GetTicketByIdArgs).

(** Each lookup of the fallback path adds its call when the issue names
    the record, and at most a warning to the console. *)
Lemma fetchAssignee_world (i : Issue) (w : World) :
  exists a lg,
    fetchAssignee client i w
    = (Return a,
       {| calls :=
            (calls w
             ++ match issue_assigneeId i with
                | Some aid => if Js.truthy aid then [CallUsers aid] else []
                | None => []
                end)%list;
          console := (console w ++ lg)%list |})
    /\ Forall isLookupWarning lg.
Proof.
  unfold fetchAssignee, tryCatch, bind, await, log, ret.
  destruct (issue_assigneeId i) as [aid|].
  2:{ exists None, []. rewrite !app_nil_r. destruct w. now split. }
  destruct (Js.truthy aid).
  2:{ exists None, []. rewrite !app_nil_r. destruct w. now split. }
  cbv beta iota.
  destruct (users client (calls w) aid) as [[|u nodes]|e].
  - exists None, []. rewrite app_nil_r. now split.
  - eexists. exists []. rewrite app_nil_r. now split.
  - exists None. eexists. split; [reflexivity|].
    constructor; [|constructor]. cbn. tauto.
Qed.

Lemma fetchTeam_world (p : Parsed) (i : Issue) (w : World) :
  exists t lg,
    fetchTeam client p i w
    = (Return t,
       {| calls :=
            (calls w
             ++ (if Js.truthyOpt (issue_teamId i) then
                   match issue_teamId i with
                   | Some tid => [CallTeams (TeamById tid)]
                   | None => []
                   end
                 else
                   match teamKey p with
                   | Some k =>
                       if Js.truthy k then [CallTeams (TeamByKey k)] else []
                   | None => []
                   end))%list;
          console := (console w ++ lg)%list |})
    /\ Forall isLookupWarning lg.
Proof.
  unfold fetchTeam, fetchTeamById, tryCatch, bind, await, log, ret.
  destruct (issue_teamId i) as [tid|]; cbn [Js.truthyOpt].
  - destruct (Js.truthy tid).
    + cbv beta iota.
      destruct (teams client (calls w) (TeamById tid)) as [[|u nodes]|e].
      * exists None, []. rewrite app_nil_r. now split.
      * eexists. exists []. rewrite app_nil_r. now split.
      * exists None. eexists. split; [reflexivity|].
        constructor; [|constructor]. cbn. tauto.
    + destruct (teamKey p) as [k|].
      2:{ exists None, []. rewrite !app_nil_r. destruct w. now split. }
      destruct (Js.truthy k).
      2:{ exists None, []. rewrite !app_nil_r. destruct w. now split. }
      cbv beta iota.
      destruct (teams client (calls w) (TeamByKey k)) as [[|u nodes]|e].
      * exists None, []. rewrite app_nil_r. now split.
      * eexists. exists []. rewrite app_nil_r. now split.
      * exists None. eexists. split; [reflexivity|].
        constructor; [|constructor]. cbn. tauto.
  - destruct (teamKey p) as [k|].
    2:{ exists None, []. rewrite !app_nil_r. destruct w. now split. }
    destruct (Js.truthy k).
    2:{ exists None, []. rewrite !app_nil_r. destruct w. now split. }
    cbv beta iota.
    destruct (teams client (calls w) (TeamByKey k)) as [[|u nodes]|e].
    + exists None, []. rewrite app_nil_r. now split.
    + eexists. exists []. rewrite app_nil_r. now split.
    + exists None. eexists. split; [reflexivity|].
      constructor; [|constructor]. cbn. tauto.
Qed.

Lemma fetchStateById_world (sid : option string) (w : World) :
  exists st lg,
    fetchStateById client sid w
    = (Return st,
       {| calls :=
            (calls w
             ++ match sid with
                | Some x =>
                    if Js.truthy x then [CallWorkflowStates (StateById x)]
                    else []
                | None => []
                end)%list;
          console := (console w ++ lg)%list |})
    /\ Forall isLookupWarning lg.
Proof.
  unfold fetchStateById, tryCatch, bind, await, log, ret.
  destruct sid as [x|].
  2:{ exists None, []. rewrite !app_nil_r. destruct w. now split. }
  destruct (Js.truthy x).
  2:{ exists None, []. rewrite !app_nil_r. destruct w. now split. }
  cbv beta iota.
  destruct (workflowStates client (calls w) (StateById x)) as [[|u nodes]|e].
  - exists None, []. rewrite app_nil_r. now split.
  - eexists. exists []. rewrite app_nil_r. now split.
  - exists None. eexists. split; [reflexivity|].
    constructor; [|constructor]. cbn. tauto.
Qed.

Lemma fetchLabels_world (i : Issue) (w : World) :
  exists l lg,
    fetchLabels client i w
    = (Return l,
       {| calls :=
            (calls w
             ++ match issue_labelIds i with
                | Some (_ :: _) => [CallIssueLabels]
                | _ => []
                end)%list;
          console := (console w ++ lg)%list |})
    /\ Forall isLookupWarning lg.
Proof.
  unfold fetchLabels, tryCatch, bind, await, log, ret.
  destruct (issue_labelIds i) as [[|x xs]|].
  - exists [], []. rewrite !app_nil_r. destruct w. now split.
  - cbv beta iota. destruct (issueLabels client (calls w)) as [all|e].
    + eexists. exists []. rewrite app_nil_r. now split.
    + eexists. eexists. split; [reflexivity|].
      constructor; [|constructor]. cbn. tauto.
  - exists [], []. rewrite !app_nil_r. destruct w. now split.
Qed.

(** The fallback path once the structured query has found the issue: it
    returns, after the lookups that the issue asks for, and it has logged
    nothing but warnings of these lookups. *)
Lemma fallbackPath_found (p : Parsed) (i : Issue) (w w1 : World) :
  findIssue client args p w = (Return i, w1) ->
  exists a t st l lg,
    fallbackPath client args p w
    = (Return {| id := issue_id i;
                 title := issue_title i;
                 description := issue_description i;
                 number := issue_number i;
                 key := ticketKey (issue_key i) t (issue_number i);
                 createdAt := issue_createdAt i;
                 updatedAt := issue_updatedAt i;
                 dueDate := issue_dueDate i;
                 estimate := issue_estimate i;
                 priority := issue_priority i;
                 assignee := a;
                 team := t;
                 state := st;
                 labels := l;
                 url := issue_url i |},
       {| calls := (calls w1 ++ backfillCalls p i)%list;
          console := (console w1 ++ lg)%list |})
    /\ Forall isLookupWarning lg
    /\ exists w2 w3,
         fetchAssignee client i w1 = (Return a, w2)
         /\ fetchTeam client p i w2 = (Return t, w3).
Proof.
  intro F. unfold fallbackPath. rewrite (bind_return _ _ _ _ _ F).
  destruct (fetchAssignee_world i w1) as (a & lg1 & E1 & W1).
  rewrite (bind_return _ _ _ _ _ E1).
  match type of E1 with _ = (_, ?v) =>
    destruct (fetchTeam_world p i v) as (t & lg2 & E2 & W2) end.
  rewrite (bind_return _ _ _ _ _ E2).
  match type of E2 with _ = (_, ?v) =>
    destruct (fetchStateById_world (issue_stateId i) v)
      as (st & lg3 & E3 & W3) end.
  rewrite (bind_return _ _ _ _ _ E3).
  match type of E3 with _ = (_, ?v) =>
    destruct (fetchLabels_world i v) as (l & lg4 & E4 & W4) end.
  rewrite (bind_return _ _ _ _ _ E4).
  exists a, t, st, l, (lg1 ++ lg2 ++ lg3 ++ lg4)%list.
  split; [|split].
  - unfold ret, backfillCalls. cbn [calls console].
    now rewrite <- !app_assoc.
  - repeat (apply Forall_app; split); assumption.
  - eexists. eexists. split; [exact E1 | exact E2].
Qed.

End Fallback.

(** C5. A get-ticket request that carries its API key and identifier starts
    with the raw query, and when that query is answered with an issue, the
    record made of this answer is returned after this one call. When the
    raw path fails (the request is rejected, or answered without an issue)
    and the structured query finds the issue, the handler returns the
    record of that issue; its calls are the raw query, the structured
    query and then the backfill lookups that the issue asks for (assignee,
    team, state, label catalog), and the console holds nothing but
    warnings of these lookups: the error of the first path is not logged.
    The whole run, console included, is the same whatever value the raw
    request was rejected with. *)
Theorem C5_fallback_swallows_first_error :
  forall (client : LinearClient)
         (args : GetTicketByIdHandler.GetTicketByIdArgs),
    Js.truthy (GetTicketByIdHandler.apiKey args) = true ->
    Js.truthy (GetTicketByIdHandler.ticketId args) = true ->
    (exists rest,
        calls (snd (run (GetTicketByIdHandler.handleRequest client args)))
        = CallRequest
            (GetTicketByIdHandler.query
               (GetTicketByIdHandler.parse (GetTicketByIdHandler.ticketId args)))
          :: rest)
    /\ (forall resp found,
           _request client []
             (GetTicketByIdHandler.query
                (GetTicketByIdHandler.parse
                   (GetTicketByIdHandler.ticketId args))) = Return resp ->
           GetTicketByIdHandler.responseIssue resp = Some found ->
           run (GetTicketByIdHandler.handleRequest client args)
           = (Return (GetTicketByIdHandler.formatGraphQL found),
              {| calls :=
                   [CallRequest
                      (GetTicketByIdHandler.query
                         (GetTicketByIdHandler.parse
                            (GetTicketByIdHandler.ticketId args)))];
                 console := [] |}))
    /\ ((forall resp,
           _request client []
             (GetTicketByIdHandler.query
                (GetTicketByIdHandler.parse
                   (GetTicketByIdHandler.ticketId args))) = Return resp ->
           GetTicketByIdHandler.responseIssue resp = None) ->
        forall i nodes,
          issues client
            [CallRequest
               (GetTicketByIdHandler.query
                  (GetTicketByIdHandler.parse
                     (GetTicketByIdHandler.ticketId args)))]
            {| issues_filter :=
                 GetTicketByIdHandler.issuesFilter args
                   (GetTicketByIdHandler.parse
                      (GetTicketByIdHandler.ticketId args));
               issues_expand := true |} = Return (i :: nodes) ->
          exists r w,
            run (GetTicketByIdHandler.handleRequest client args)
            = (Return r, w)
            /\ GetTicketByIdHandler.id r = issue_id i
            /\ calls w
               = CallRequest
                   (GetTicketByIdHandler.query
                      (GetTicketByIdHandler.parse
                         (GetTicketByIdHandler.ticketId args)))
                 :: CallIssues
                      {| issues_filter :=
                           GetTicketByIdHandler.issuesFilter args
                             (GetTicketByIdHandler.parse
                                (GetTicketByIdHandler.ticketId args));
                         issues_expand := true |}
                 :: backfillCalls
                      (GetTicketByIdHandler.parse
                         (GetTicketByIdHandler.ticketId args)) i
            /\ Forall isLookupWarning (console w))
    /\ (forall e e',
           run (GetTicketByIdHandler.handleRequest
                  (rejectingRequest client e) args)
           = run (GetTicketByIdHandler.handleRequest
                    (rejectingRequest client e') args)).
Proof.
  intros client args H1 H2. split; [|split; [|split]].
  - destruct (getTicket_calls client args H1 H2) as (rest & E & _).
    now exists rest.
  - intros resp found Hr Hi.
    apply (handleRequest_graphql client args H1 H2 _
             {| calls :=
                  [CallRequest
                     (GetTicketByIdHandler.query
                        (GetTicketByIdHandler.parse
                           (GetTicketByIdHandler.ticketId args)))];
                console := [] |}).
    unfold GetTicketByIdHandler.graphqlPath, bind, await.
    cbn [calls console world0 app]. now rewrite Hr, Hi.
  - intros Hraw i nodes Hfound.
    destruct (graphqlPath_throws client args Hraw) as [e G].
    rewrite (handleRequest_fallback client args H1 H2 e _ G).
    pose proof (findIssue_found client args
                  {| calls :=
                       [CallRequest
                          (GetTicketByIdHandler.query
                             (GetTicketByIdHandler.parse
                                (GetTicketByIdHandler.ticketId args)))];
                     console := [] |} i nodes Hfound) as F.
    destruct (fallbackPath_found client args _ i _ _ F)
      as (a & t & st & l & lg & R & W & _).
    unfold tryCatch. rewrite R. eexists. eexists.
    split; [reflexivity|]. split; [reflexivity|].
    split; [reflexivity | exact W].
  - intros e e'.
    rewrite (handleRequest_fallback (rejectingRequest client e) args H1 H2 e
               _ eq_refl).
    rewrite (handleRequest_fallback (rejectingRequest client e') args H1 H2 e'
               _ eq_refl).
    reflexivity.
Qed.

Lemma C5_fallback_swallows_first_error_witness :
  exists r w,
    run (GetTicketByIdHandler.handleRequest Sample.issueOnly
           (Sample.getArgs "ABC-7")) = (Return r, w)
    /\ GetTicketByIdHandler.id r = "9f2c"
    /\ calls w
       = [CallRequest (QueryIssueByTeamKeyAndNumber (Some "ABC") (Some 7));
          CallIssues {| issues_filter := IssueByTeamKeyAndNumber "ABC" (Some 7);
                        issues_expand := true |};
          CallUsers "user-1";
          CallTeams (TeamById "team-42");
          CallWorkflowStates (StateById "state-1");
          CallIssueLabels]
    /\ Forall isLookupWarning (console w).
Proof.
  destruct (C5_fallback_swallows_first_error Sample.issueOnly
              (Sample.getArgs "ABC-7") eq_refl eq_refl) as (_ & _ & H & _).
  destruct (H (fun resp E =>
                 match E in (_ = o)
                       return (match o with
                               | Return _ => _
                               | Throw _ => True
                               end)
                 with eq_refl => I end)
              Sample.issue7 [] eq_refl) as (r & w & R & Hid & Hc & Hw).
  exists r, w. split; [exact R|]. split; [exact Hid|].
  split; [exact Hc | exact Hw].
Defined.

(** ** The display key *)

(** C8. The display key of the record that get-ticket returns. In the raw
    path the key is derived from the team and the number of the answer:
    [team.key + "-" + number] with a team, ["ISSUE-" + number] without. In
    the fallback path an issue that carries a native key keeps exactly
    that key; without one, the key is [team.key + "-" + number] for the
    team of the record and ["ISSUE-" + number] when the record has no
    team. The team of the record is the one that the lookup found: by the
    team id of the issue or, for an issue without a team id, by the team
    key of the identifier; a lookup that is rejected or finds nothing
    leaves the record without a team. Deriving a key again from the
    returned record gives the same key. *)
Theorem C8_display_key :
  forall (client : LinearClient)
         (args : GetTicketByIdHandler.GetTicketByIdArgs),
    Js.truthy (GetTicketByIdHandler.apiKey args) = true ->
    Js.truthy (GetTicketByIdHandler.ticketId args) = true ->
    (forall resp found,
        _request client []
          (GetTicketByIdHandler.query
             (GetTicketByIdHandler.parse (GetTicketByIdHandler.ticketId args)))
        = Return resp ->
        GetTicketByIdHandler.responseIssue resp = Some found ->
        exists r w,
          run (GetTicketByIdHandler.handleRequest client args) = (Return r, w)
          /\ GetTicketByIdHandler.team r = gql_team found
          /\ GetTicketByIdHandler.number r = gql_number found
          /\ GetTicketByIdHandler.key r
             = match gql_team found with
               | Some t =>
                   team_key t ++ "-" ++ Js.numberToString (gql_number found)
               | None => "ISSUE-" ++ Js.numberToString (gql_number found)
               end)
    /\ ((forall resp,
           _request client []
             (GetTicketByIdHandler.query
                (GetTicketByIdHandler.parse
                   (GetTicketByIdHandler.ticketId args))) = Return resp ->
           GetTicketByIdHandler.responseIssue resp = None) ->
        forall i nodes,
          issues client
            [CallRequest
               (GetTicketByIdHandler.query
                  (GetTicketByIdHandler.parse
                     (GetTicketByIdHandler.ticketId args)))]
            {| issues_filter :=
                 GetTicketByIdHandler.issuesFilter args
                   (GetTicketByIdHandler.parse
                      (GetTicketByIdHandler.ticketId args));
               issues_expand := true |} = Return (i :: nodes) ->
          exists r w,
            run (GetTicketByIdHandler.handleRequest client args)
            = (Return r, w)
            /\ GetTicketByIdHandler.number r = issue_number i
            /\ (forall k, issue_key i = Some k -> Js.truthy k = true ->
                          GetTicketByIdHandler.key r = k)
            /\ (Js.truthyOpt (issue_key i) = false ->
                GetTicketByIdHandler.key r
                = match GetTicketByIdHandler.team r with
                  | Some t =>
                      team_key t ++ "-"
                      ++ Js.numberToString (GetTicketByIdHandler.number r)
                  | None =>
                      "ISSUE-"
                      ++ Js.numberToString (GetTicketByIdHandler.number r)
                  end)
            /\ (forall tid,
                   issue_teamId i = Some tid -> Js.truthy tid = true ->
                   (forall t more,
                       (forall h, teams client h (TeamById tid)
                                  = Return (t :: more)) ->
                       GetTicketByIdHandler.team r
                       = Some (formatTeam "TEAM" t))
                   /\ ((forall h, teams client h (TeamById tid) = Return []
                                  \/ exists e, teams client h (TeamById tid)
                                               = Throw e) ->
                       GetTicketByIdHandler.team r = None))
            /\ (forall k,
                   Js.truthyOpt (issue_teamId i) = false ->
                   GetTicketByIdHandler.teamKey
                     (GetTicketByIdHandler.parse
                        (GetTicketByIdHandler.ticketId args)) = Some k ->
                   Js.truthy k = true ->
                   (forall t more,
                       (forall h, teams client h (TeamByKey k)
                                  = Return (t :: more)) ->
                       GetTicketByIdHandler.team r = Some (formatTeam k t))
                   /\ ((forall h, teams client h (TeamByKey k) = Return []
                                  \/ exists e, teams client h (TeamByKey k)
                                               = Throw e) ->
                       GetTicketByIdHandler.team r = None))
            /\ ticketKey (Some (GetTicketByIdHandler.key r))
                 (GetTicketByIdHandler.team r) (GetTicketByIdHandler.number r)
               = GetTicketByIdHandler.key r).
Proof.
  intros client args H1 H2. split.
  - intros resp found Hr Hi. eexists. eexists. split.
    + apply (handleRequest_graphql client args H1 H2 _
               {| calls :=
                    [CallRequest
                       (GetTicketByIdHandler.query
                          (GetTicketByIdHandler.parse
                             (GetTicketByIdHandler.ticketId args)))];
                  console := [] |}).
      unfold GetTicketByIdHandler.graphqlPath, bind, await.
      cbn [calls console world0 app]. rewrite Hr, Hi. reflexivity.
    + repeat split.
  - intros Hraw i nodes Hfound.
    destruct (graphqlPath_throws client args Hraw) as [e G].
    rewrite (handleRequest_fallback client args H1 H2 e _ G).
    pose proof (findIssue_found client args
                  {| calls :=
                       [CallRequest
                          (GetTicketByIdHandler.query
                             (GetTicketByIdHandler.parse
                                (GetTicketByIdHandler.ticketId args)))];
                     console := [] |} i nodes Hfound) as F.
    destruct (fallbackPath_found client args _ i _ _ F)
      as (a & t & st & l & lg & R & _ & w2 & w3 & _ & Ht).
    unfold tryCatch. rewrite R. eexists. eexists.
    split; [reflexivity|].
    cbn [GetTicketByIdHandler.number GetTicketByIdHandler.key
         GetTicketByIdHandler.team].
    split; [reflexivity|]. split; [|split; [|split; [|split]]].
    + intros k Hk T. unfold ticketKey. rewrite Hk. cbn [Js.truthyOpt].
      now rewrite T.
    + intro Hk. unfold ticketKey. rewrite Hk. now destruct t.
    + intros tid Hid T. unfold GetTicketByIdHandler.fetchTeam in Ht.
      rewrite Hid in Ht. cbn [Js.truthyOpt] in Ht. rewrite T in Ht.
      unfold fetchTeamById in Ht. rewrite T in Ht.
      unfold tryCatch, bind, await, log, ret in Ht. cbv beta iota in Ht.
      split.
      * intros t0 more Hall. rewrite Hall in Ht. now injection Ht as <- _.
      * intros Hnone. destruct (Hnone (calls w2)) as [E|[e0 E]];
          rewrite E in Ht; now injection Ht as <- _.
    + intros k Hid Hk T. unfold GetTicketByIdHandler.fetchTeam in Ht.
      rewrite Hid, Hk, T in Ht.
      unfold tryCatch, bind, await, log, ret in Ht. cbv beta iota in Ht.
      split.
      * intros t0 more Hall. rewrite Hall in Ht. now injection Ht as <- _.
      * intros Hnone. destruct (Hnone (calls w2)) as [E|[e0 E]];
          rewrite E in Ht; now injection Ht as <- _.
    + unfold ticketKey at 1. cbn [Js.truthyOpt].
      now rewrite ticketKey_truthy.
Qed.

Lemma C8_display_key_witness :
  (exists r w,
      run (GetTicketByIdHandler.handleRequest (Fixture.withProject "none")
             (Sample.getArgs "ABC-7")) = (Return r, w)
      /\ GetTicketByIdHandler.team r
         = Some (mkTeam "team-42" "Platform" "ABC")
      /\ GetTicketByIdHandler.key r = "ABC-7")
  /\ (exists r w,
         run (GetTicketByIdHandler.handleRequest Fixture.withKeyedIssue
                (Sample.getArgs "ABC-7")) = (Return r, w)
         /\ GetTicketByIdHandler.key r = "XYZ-9").
Proof.
  split.
  - destruct (proj2 (C8_display_key (Fixture.withProject "none")
                       (Sample.getArgs "ABC-7") eq_refl eq_refl)
                (fun resp E =>
                   match E in (_ = o)
                         return (match o with
                                 | Return _ => _
                                 | Throw _ => True
                                 end)
                   with eq_refl => I end)
                Sample.issue7 [] eq_refl)
      as (r & w & R & Hn & _ & Hk & Ht & _).
    exists r, w. split; [exact R|].
    pose proof (proj1 (Ht "team-42" eq_refl eq_refl)
                  (mkTeam "team-42" "Platform" "ABC") []
                  (fun h => eq_refl)) as T.
    split; [exact T|]. rewrite (Hk eq_refl), T, Hn. reflexivity.
  - destruct (proj2 (C8_display_key Fixture.withKeyedIssue
                       (Sample.getArgs "ABC-7") eq_refl eq_refl)
                (fun resp E =>
                   match E in (_ = o)
                         return (match o with
                                 | Return _ => _
                                 | Throw _ => True
                                 end)
                   with eq_refl => I end)
                Fixture.keyedIssue [] eq_refl)
      as (r & w & R & _ & Hk & _).
    exists r, w. split; [exact R|]. exact (Hk "XYZ-9" eq_refl eq_refl).
Defined.

(** ** Resolving "done" to a workflow state *)

Lemma find_first {A : Type} (f : A -> bool) (l : list A) (x : A) :
  find f l = Some x ->
  exists before after,
    l = (before ++ x :: after)%list
    /\ Forall (fun y => f y = false) before /\ f x = true.
Proof.
  induction l as [|a l IH]; simpl; [discriminate|].
  destruct (f a) eqn:E.
  - intro H. injection H as <-. now exists [], l.
  - intro H. destruct (IH H) as (before & after & -> & Hb & Hx).
    exists (a :: before), after. repeat split; [|exact Hx]. now constructor.
Qed.

Lemma toLowerCase_truthy (s t : string) :
  Js.toLowerCase s = t -> Js.truthy t = true -> Js.truthy s = true.
Proof. intros <-. now destruct s. Qed.

Lemma isDoneState_spec (st : WorkflowState) :
  UpdateTicketDoneHandler.isDoneState st = true
  <-> (Js.toLowerCase (state_name st) = "done"
       \/ Js.toLowerCase (state_name st) = "completed"
       \/ state_type st = "completed").
Proof.
  unfold UpdateTicketDoneHandler.isDoneState.
  rewrite !orb_true_iff, !String.eqb_eq. tauto.
Qed.

Section DoneState.

Import UpdateTicketHandler.

Variables (mcpMessage : ErrorCode -> string -> string)
          (client : LinearClient) (args : UpdateTicketArgs).

Lemma wantsDone_true (s : string) :
  stateId args = Some s ->
  Js.toLowerCase s = "done" \/ Js.toLowerCase s = "completed" ->
  UpdateTicketDoneHandler.wantsDone args = true.
Proof.
  intros Hs Hd. unfold UpdateTicketDoneHandler.wantsDone,
    UpdateTicketDoneHandler.isDoneName. rewrite Hs.
  destruct Hd as [Hd|Hd]; rewrite (toLowerCase_truthy s _ Hd eq_refl), Hd;
    reflexivity.
Qed.

Lemma findIssue_found_update (w : World) (i : Issue) (nodes : list Issue) :
  issues client (calls w)
    {| issues_filter := issuesFilter (ticketId args);
       issues_expand := false |} = Return (i :: nodes) ->
  findIssue client (ticketId args) w
  = (Return i,
     {| calls := (calls w
                  ++ [CallIssues
                        {| issues_filter := issuesFilter (ticketId args);
                           issues_expand := false |}])%list;
        console := console w |}).
Proof.
  intro H. unfold findIssue, tryCatch, bind, await. simpl. now rewrite H.
Qed.

(** How the team of the issue is found: the team id of the issue when it
    has one, without a call; else, for an identifier with a hyphen, the
    first team whose key is the text before the first hyphen. *)
Lemma effectiveTeamId_spec (i : Issue) (w w' : World) (team : option string) :
  UpdateTicketDoneHandler.effectiveTeamId client (ticketId args) i w
  = (Return team, w') ->
  (Js.truthyOpt (issue_teamId i) = true /\ team = issue_teamId i /\ w' = w)
  \/ (Js.truthyOpt (issue_teamId i) = false
      /\ Js.includes (ticketId args) "-" = false
      /\ team = issue_teamId i /\ w' = w)
  \/ (Js.truthyOpt (issue_teamId i) = false
      /\ Js.includes (ticketId args) "-" = true
      /\ calls w'
         = (calls w
            ++ [CallTeams (TeamByKey (nth 0 (Js.split "-" (ticketId args)) ""))])%list
      /\ ((exists t more,
              teams client (calls w)
                (TeamByKey (nth 0 (Js.split "-" (ticketId args)) ""))
              = Return (t :: more)
              /\ team = Some (team_id t))
          \/ team = issue_teamId i)).
Proof.
  unfold UpdateTicketDoneHandler.effectiveTeamId.
  destruct (Js.truthyOpt (issue_teamId i)) eqn:T; cbn [negb andb].
  - unfold ret. intro H. injection H as <- <-. now left.
  - destruct (Js.includes (ticketId args) "-") eqn:I.
    + unfold tryCatch, bind, await, log, ret. cbv beta iota.
      destruct (teams client (calls w) _) as [[|t more]|e] eqn:E;
        intro H; injection H as <- <-; right; right;
        (split; [reflexivity|]); (split; [reflexivity|]);
        (split; [reflexivity|]).
      * now right.
      * left. now exists t, more.
      * now right.
    + unfold ret. intro H. injection H as <- <-. right. left. repeat split.
Qed.

(** Once the team is known, the synonym is resolved by one call, the list
    of the team's workflow states. *)
Lemma resolveState_done (i : Issue) (teamId : string)
  (states : list WorkflowState) (w w' : World) :
  UpdateTicketDoneHandler.wantsDone args = true ->
  UpdateTicketDoneHandler.effectiveTeamId client (ticketId args) i w
  = (Return (Some teamId), w') ->
  Js.truthy teamId = true ->
  workflowStates client (calls w') (StateByTeamId teamId) = Return states ->
  UpdateTicketDoneHandler.resolveState mcpMessage client args i w
  = (match find UpdateTicketDoneHandler.isDoneState states with
     | Some doneState =>
         Return (UpdateTicketDoneHandler.setStateId
                   (UpdateTicketDoneHandler.updateData args)
                   (state_id doneState))
     | None =>
         Throw (McpError InternalError
                  ("Failed to find 'Done' state: "
                   ++ mcpMessage InternalError
                        "Could not find a 'Done' state for this team"))
     end,
     {| calls := (calls w' ++ [CallWorkflowStates (StateByTeamId teamId)])%list;
        console := console w' |}).
Proof.
  intros Hd Ht Htr Hs.
  unfold UpdateTicketDoneHandler.resolveState. rewrite Hd.
  unfold tryCatch. unfold bind at 1.
  unfold UpdateTicketDoneHandler.findDoneState.
  rewrite (bind_return _ _ _ _ _ Ht). rewrite Htr.
  unfold bind, await. cbv beta iota. rewrite Hs.
  destruct (find UpdateTicketDoneHandler.isDoneState states); reflexivity.
Qed.

(** Without a team, the synonym cannot be resolved. *)
Lemma resolveState_no_team (i : Issue) (team : option string) (w w' : World) :
  UpdateTicketDoneHandler.wantsDone args = true ->
  UpdateTicketDoneHandler.effectiveTeamId client (ticketId args) i w
  = (Return team, w') ->
  Js.truthyOpt team = false ->
  UpdateTicketDoneHandler.resolveState mcpMessage client args i w
  = (Throw (McpError InternalError
              ("Failed to find 'Done' state: "
               ++ mcpMessage InternalError
                    "Ticket does not have a team, cannot determine workflow states")),
     w').
Proof.
  intros Hd Ht Htr.
  unfold UpdateTicketDoneHandler.resolveState. rewrite Hd.
  unfold tryCatch. unfold bind at 1.
  unfold UpdateTicketDoneHandler.findDoneState.
  rewrite (bind_return _ _ _ _ _ Ht).
  destruct team as [t|]; [simpl in Htr; rewrite Htr|]; reflexivity.
Qed.

Lemma applyUpdate_calls (tid : string) (i : Issue) (d : IssueUpdate)
  (w : World) :
  calls (snd (applyUpdate client tid i d w))
  = (calls w ++ [CallUpdateIssue (issue_id i) d])%list.
Proof.
  unfold applyUpdate, bind, await. simpl.
  destruct (updateIssue client (calls w) (issue_id i) d) as [[[] u]|e];
    reflexivity.
Qed.

End DoneState.

(** C2, as the code has it. An accepted update-ticket request whose
    [stateId] is "done" or "completed" in any case, once its issue is found:
    the team is the team id of the issue, taken without a call, or, for an
    issue without a team id and an identifier with a hyphen, the id of the
    first team that the tracker finds by the key before the first hyphen
    of the identifier. The handler then lists the workflow states of that
    team and takes the first state whose lower-cased name is "done" or
    "completed" or whose type is "completed"; the update call that follows
    carries the id of that state. When no state qualifies, the handler
    fails right after listing the states, with the fixed message "Failed to
    find 'Done' state: " followed by the message of an error built from
    "Could not find a 'Done' state for this team". *)
Theorem C2_done_state_resolution :
  forall (mcpMessage : ErrorCode -> string -> string) (client : LinearClient)
         (args : UpdateTicketHandler.UpdateTicketArgs) (s : string)
         (i : Issue) (nodes : list Issue) (teamId : string)
         (lookup : list Call) (states : list WorkflowState),
    Js.truthy (UpdateTicketHandler.apiKey args) = true ->
    Js.truthy (UpdateTicketHandler.ticketId args) = true ->
    UpdateTicketHandler.priorityOutOfRange args = false ->
    UpdateTicketHandler.stateId args = Some s ->
    (Js.toLowerCase s = "done" \/ Js.toLowerCase s = "completed") ->
    issues client []
      {| issues_filter :=
           UpdateTicketHandler.issuesFilter (UpdateTicketHandler.ticketId args);
         issues_expand := false |} = Return (i :: nodes) ->
    ((issue_teamId i = Some teamId /\ lookup = [])
     \/ (Js.truthyOpt (issue_teamId i) = false
         /\ Js.includes (UpdateTicketHandler.ticketId args) "-" = true
         /\ exists prefix pieces t more,
             Js.split "-" (UpdateTicketHandler.ticketId args)
             = prefix :: pieces
             /\ teams client
                  [CallIssues
                     {| issues_filter :=
                          UpdateTicketHandler.issuesFilter
                            (UpdateTicketHandler.ticketId args);
                        issues_expand := false |}]
                  (TeamByKey prefix) = Return (t :: more)
             /\ team_id t = teamId
             /\ lookup = [CallTeams (TeamByKey prefix)])) ->
    Js.truthy teamId = true ->
    workflowStates client
      (CallIssues
         {| issues_filter :=
              UpdateTicketHandler.issuesFilter
                (UpdateTicketHandler.ticketId args);
            issues_expand := false |} :: lookup)
      (StateByTeamId teamId) = Return states ->
    match find UpdateTicketDoneHandler.isDoneState states with
    | Some doneState =>
        (exists before after,
            states = (before ++ doneState :: after)%list
            /\ Forall
                 (fun st => UpdateTicketDoneHandler.isDoneState st = false)
                 before
            /\ (Js.toLowerCase (state_name doneState) = "done"
                \/ Js.toLowerCase (state_name doneState) = "completed"
                \/ state_type doneState = "completed"))
        /\ exists rest,
            calls (snd (run (UpdateTicketDoneHandler.handleRequest
                               mcpMessage client args)))
            = (CallIssues
                 {| issues_filter :=
                      UpdateTicketHandler.issuesFilter
                        (UpdateTicketHandler.ticketId args);
                    issues_expand := false |}
               :: lookup
               ++ CallWorkflowStates (StateByTeamId teamId)
                  :: CallUpdateIssue (issue_id i)
                       (UpdateTicketDoneHandler.setStateId
                          (UpdateTicketDoneHandler.updateData args)
                          (state_id doneState))
                  :: rest)%list
            /\ Forall (fun c => notIssueQuery c /\ ~ isIssueUpdate c) rest
    | None =>
        Forall (fun st => UpdateTicketDoneHandler.isDoneState st = false)
          states
        /\ run (UpdateTicketDoneHandler.handleRequest mcpMessage client args)
           = (Throw
                (McpError InternalError
                   ("Failed to find 'Done' state: "
                    ++ mcpMessage InternalError
                         "Could not find a 'Done' state for this team")),
              {| calls :=
                   (CallIssues
                      {| issues_filter :=
                           UpdateTicketHandler.issuesFilter
                             (UpdateTicketHandler.ticketId args);
                         issues_expand := false |}
                    :: lookup
                    ++ [CallWorkflowStates (StateByTeamId teamId)])%list;
                 console := [] |})
    end.
Proof.
  intros mcpMessage client args s i nodes teamId lookup states
    H1 H2 H4 Hs Hd Hi Hteam Htr Hw.
  assert (H3 : UpdateTicketHandler.hasUpdateField args = true).
  { unfold UpdateTicketHandler.hasUpdateField. rewrite Hs. simpl.
    now rewrite !orb_true_r. }
  pose proof (wantsDone_true args s Hs Hd) as Hwd.
  pose proof (findIssue_found_update client args world0 i nodes Hi) as Hfind.
  unfold world0 in Hfind. cbn [calls console app] in Hfind.
  assert (Ht : UpdateTicketDoneHandler.effectiveTeamId client
                 (UpdateTicketHandler.ticketId args) i
                 {| calls :=
                      [CallIssues
                         {| issues_filter :=
                              UpdateTicketHandler.issuesFilter
                                (UpdateTicketHandler.ticketId args);
                            issues_expand := false |}];
                    console := [] |}
               = (Return (Some teamId),
                  {| calls :=
                       CallIssues
                         {| issues_filter :=
                              UpdateTicketHandler.issuesFilter
                                (UpdateTicketHandler.ticketId args);
                            issues_expand := false |} :: lookup;
                     console := [] |})).
  { unfold UpdateTicketDoneHandler.effectiveTeamId.
    destruct Hteam as [[E ->]|(F & I & prefix & pieces & t & more & S & T & E & ->)].
    - rewrite E. cbn [Js.truthyOpt]. rewrite Htr. reflexivity.
    - rewrite F, I, S. cbn [negb andb nth].
      unfold tryCatch, bind, await, ret. cbn [calls console app].
      rewrite T, E. reflexivity. }
  pose proof (resolveState_done mcpMessage client args i teamId states
                _ _ Hwd Ht Htr Hw) as Hres.
  cbn [calls console] in Hres.
  rewrite (updateTicketDone_accepted mcpMessage client args H1 H2 H3 H4).
  unfold run.
  destruct (find UpdateTicketDoneHandler.isDoneState states) as [st|] eqn:F.
  - split.
    + destruct (find_first _ _ _ F) as (before & after & E & Hb & Hx).
      exists before, after. split; [exact E|]. split; [exact Hb|].
      now apply isDoneState_spec.
    + rewrite calls_tryCatch_quiet by (intro; apply appends_rethrow).
      unfold UpdateTicketDoneHandler.body.
      rewrite (bind_return _ _ _ _ _ Hfind).
      rewrite (bind_return _ _ _ _ _ Hres).
      match goal with
      | |- context [bind (UpdateTicketHandler.applyUpdate ?c ?t ?j ?d) ?k ?v] =>
          destruct (calls_bind (fun c => notIssueQuery c /\ ~ isIssueUpdate c)
                      (UpdateTicketHandler.applyUpdate c t j d) k v _
                      (applyUpdate_calls c t j d v)) as (rest & E & Frest)
      end.
      * intros. unfold fetchTeamById, fetchStateById.
        repeat first
          [ apply appends_ret | apply appends_throw | apply appends_log
          | apply appends_await; split; [exact I | exact (fun f => f)]
          | apply appends_bind; [|intros]
          | apply appends_tryCatch; [|intros]
          | match goal with
            | |- appendsCalls _ (match ?x with _ => _ end) => destruct x
            | |- appendsCalls _ (if ?x then _ else _) => destruct x
            end ].
      * exists rest. split; [|exact Frest]. rewrite E. cbn [calls app].
        rewrite <- !app_assoc. reflexivity.
  - split.
    + apply Forall_forall. intros x Hx. exact (find_none _ _ F x Hx).
    + unfold tryCatch, UpdateTicketDoneHandler.body.
      rewrite (bind_return _ _ _ _ _ Hfind).
      rewrite (bind_throw _ _ _ _ _ Hres). reflexivity.
Qed.

Lemma C2_done_state_resolution_witness :
  (exists rest,
      calls (snd (run (UpdateTicketDoneHandler.handleRequest
                         UpdateTicketDoneHandler.sdkMessage Sample.withDoneState
                         (Sample.updateArgs "ABC-7" (Some "Completed") None))))
      = CallIssues {| issues_filter := IssueByTeamKeyAndNumber "ABC" (Some 7);
                      issues_expand := false |}
        :: CallWorkflowStates (StateByTeamId "team-42")
        :: CallUpdateIssue "9f2c"
             {| upd_title := None; upd_description := None;
                upd_stateId := Some "state-2"; upd_assigneeId := None;
                upd_priority := None; upd_dueDate := None;
                upd_estimate := None |}
        :: rest)
  /\ (exists rest,
         calls (snd (run (UpdateTicketDoneHandler.handleRequest
                            UpdateTicketDoneHandler.sdkMessage Fixture.teamByKey
                            (Sample.updateArgs "ABC-7" (Some "done") None))))
         = CallIssues {| issues_filter := IssueByTeamKeyAndNumber "ABC" (Some 7);
                         issues_expand := false |}
           :: CallTeams (TeamByKey "ABC")
           :: CallWorkflowStates (StateByTeamId "team-42")
           :: CallUpdateIssue "9f2c"
                {| upd_title := None; upd_description := None;
                   upd_stateId := Some "state-2"; upd_assigneeId := None;
                   upd_priority := None; upd_dueDate := None;
                   upd_estimate := None |}
           :: rest)
  /\ fst (run (UpdateTicketDoneHandler.handleRequest
                 UpdateTicketDoneHandler.sdkMessage Sample.noDoneState
                 (Sample.updateArgs "ABC-7" (Some "done") None)))
     = Throw
         (McpError InternalError
            "Failed to find 'Done' state: MCP error -32603: Could not find a 'Done' state for this team").
Proof.
  split; [|split].
  - destruct (proj2
                (C2_done_state_resolution UpdateTicketDoneHandler.sdkMessage
                   Sample.withDoneState
                   (Sample.updateArgs "ABC-7" (Some "Completed") None)
                   "Completed" Sample.issue7 [] "team-42" [] _
                   eq_refl eq_refl eq_refl eq_refl (or_intror eq_refl)
                   eq_refl (or_introl (conj eq_refl eq_refl)) eq_refl eq_refl))
      as (rest & C & _).
    exists rest. exact C.
  - assert (Hteam :
              (issue_teamId Fixture.orphanIssue = Some "team-42"
               /\ [CallTeams (TeamByKey "ABC")] = [])
              \/ (Js.truthyOpt (issue_teamId Fixture.orphanIssue) = false
                  /\ Js.includes "ABC-7" "-" = true
                  /\ exists prefix pieces t more,
                      Js.split "-" "ABC-7" = prefix :: pieces
                      /\ teams Fixture.teamByKey
                           [CallIssues
                              {| issues_filter :=
                                   UpdateTicketHandler.issuesFilter "ABC-7";
                                 issues_expand := false |}]
                           (TeamByKey prefix) = Return (t :: more)
                      /\ team_id t = "team-42"
                      /\ [CallTeams (TeamByKey "ABC")]
                         = [CallTeams (TeamByKey prefix)])).
    { right. split; [reflexivity|]. split; [reflexivity|].
      exists "ABC", ["7"], (mkTeam "team-42" "Platform" "ABC"), [].
      repeat split. }
    destruct (proj2
                (C2_done_state_resolution UpdateTicketDoneHandler.sdkMessage
                   Fixture.teamByKey
                   (Sample.updateArgs "ABC-7" (Some "done") None)
                   "done" Fixture.orphanIssue [] "team-42"
                   [CallTeams (TeamByKey "ABC")] _
                   eq_refl eq_refl eq_refl eq_refl (or_introl eq_refl)
                   eq_refl Hteam eq_refl eq_refl))
      as (rest & C & _).
    exists rest. exact C.
  - rewrite (proj2
               (C2_done_state_resolution UpdateTicketDoneHandler.sdkMessage
                  Sample.noDoneState
                  (Sample.updateArgs "ABC-7" (Some "done") None)
                  "done" Sample.issue7 [] "team-42" [] _
                  eq_refl eq_refl eq_refl eq_refl (or_introl eq_refl)
                  eq_refl (or_introl (conj eq_refl eq_refl)) eq_refl eq_refl)).
    reflexivity.
Defined.

(** The revision in updateTicketHandler.ts has no such resolution: the
    state of the request goes into the update as it is. *)
Remark updateTicket_sends_stateId
  (args : UpdateTicketHandler.UpdateTicketArgs) :
  upd_stateId (UpdateTicketHandler.updateData args)
  = UpdateTicketHandler.stateId args.
Proof. reflexivity. Qed.

(** C2 fails as stated: the team "team-42" (key "ABC", name "Platform")
    has no state that stands for "done", and the error message of the
    request names none of the three, with the message format of the
    protocol library as with the bare message. *)
Lemma C2_counterexample :
  (exists msg,
      fst (run (UpdateTicketDoneHandler.handleRequest
                  UpdateTicketDoneHandler.sdkMessage Sample.noDoneState
                  (Sample.updateArgs "ABC-7" (Some "done") None)))
      = Throw (McpError InternalError msg)
      /\ Js.includes msg "team-42" = false
      /\ Js.includes msg "ABC" = false
      /\ Js.includes msg "Platform" = false)
  /\ (exists msg,
         fst (run (UpdateTicketDoneHandler.handleRequest (fun _ m => m)
                     Sample.noDoneState
                     (Sample.updateArgs "ABC-7" (Some "done") None)))
         = Throw (McpError InternalError msg)
         /\ Js.includes msg "team-42" = false
         /\ Js.includes msg "ABC" = false
         /\ Js.includes msg "Platform" = false).
Proof.
  split; eexists; (split; [reflexivity|]); repeat split; reflexivity.
Qed.

(** ** The list of projects *)

Lemma numGt_spec (x y : Q) : numGt x y = true -> (y < x)%Q.
Proof.
  unfold numGt, numLt. destruct (Qle_bool x y) eqn:E; [discriminate|].
  intros _. apply Qnot_le_lt. intro H. apply Qle_bool_iff in H. congruence.
Qed.

Lemma mathMin_le (x y : Q) : (Js.mathMin x y <= x)%Q /\ (Js.mathMin x y <= y)%Q.
Proof.
  unfold Js.mathMin. destruct (Qle_bool x y) eqn:E.
  - split; [apply Qle_refl | now apply Qle_bool_iff].
  - split; [|apply Qle_refl]. apply Qlt_le_weak, Qnot_le_lt.
    intro H. apply Qle_bool_iff in H. congruence.
Qed.

Section GetProjects.

Import GetProjectsRequestHandler.

Variable args : GetProjectsArgs.

Lemma effectiveLimit_range :
  (0 < effectiveLimit args)%Q /\ (effectiveLimit args <= 50)%Q.
Proof.
  unfold effectiveLimit. destruct (limit args) as [l|];
    [|split; [reflexivity | discriminate]].
  destruct (negb (Qeq_bool l 0) && numGt l 0)%bool eqn:E;
    [|split; [reflexivity | discriminate]].
  apply andb_true_iff in E. destruct E as [_ E]. apply numGt_spec in E.
  split; [|apply mathMin_le].
  unfold Js.mathMin. destruct (Qle_bool l 50); [exact E | reflexivity].
Qed.

Lemma effectiveLimit_positive (l : Q) :
  limit args = Some l -> (0 < l)%Q ->
  effectiveLimit args = Js.mathMin l 50 /\ (effectiveLimit args <= l)%Q.
Proof.
  intros H Hl. unfold effectiveLimit. rewrite H.
  assert (E0 : Qeq_bool l 0 = false).
  { destruct (Qeq_bool l 0) eqn:E; [|reflexivity].
    apply Qeq_bool_eq in E. rewrite E in Hl. now apply Qlt_irrefl in Hl. }
  rewrite E0, (numGt_true _ _ Hl). cbn [negb andb].
  split; [reflexivity | apply mathMin_le].
Qed.

Lemma effectiveLimit_default :
  (limit args = None \/ exists l, limit args = Some l /\ (l <= 0)%Q) ->
  effectiveLimit args = 10#1.
Proof.
  unfold effectiveLimit. intros [->|(l & -> & Hl)]; [reflexivity|].
  now rewrite (numGt_false _ _ Hl), andb_false_r.
Qed.

(** The bound as [slice] reads it: its integer part, which is not
    negative. *)
Lemma toInteger_limit :
  Js.toInteger (effectiveLimit args) = Qfloor (effectiveLimit args)
  /\ 0 <= Qfloor (effectiveLimit args).
Proof.
  destruct effectiveLimit_range as [Hpos _]. apply Qlt_le_weak in Hpos.
  split.
  - unfold Js.toInteger. apply Qle_bool_iff in Hpos. now rewrite Hpos.
  - exact (Qfloor_resp_le 0 _ Hpos).
Qed.

Lemma slice0_firstn {A : Type} (n : Z) (l : list A) :
  0 <= n -> slice0 n l = firstn (Z.to_nat n) l.
Proof.
  intro H. unfold slice0. destruct (n <? 0) eqn:E; [|reflexivity].
  apply Z.ltb_lt in E. lia.
Qed.

(** A list cut after the integer part of the bound is within the bound. *)
Lemma firstn_limit {A : Type} (l : list A) :
  (inject_Z (Z.of_nat (length (firstn (Z.to_nat (Qfloor (effectiveLimit args)))
                                 l)))
   <= effectiveLimit args)%Q.
Proof.
  destruct toInteger_limit as [_ Hpos].
  apply Qle_trans with (inject_Z (Qfloor (effectiveLimit args)));
    [|apply Qfloor_le].
  rewrite <- Zle_Qle.
  pose proof (firstn_le_length (Z.to_nat (Qfloor (effectiveLimit args))) l).
  rewrite length_firstn. lia.
Qed.

(** The search predicate: the lower-cased name, or a non-empty description
    once lower-cased, contains the term. *)
Lemma matches_spec (t : string) (p : Project) :
  matches t p = true
  <-> (Js.includes (Js.toLowerCase (project_name p)) t = true
       \/ exists d, project_description p = Some d
                    /\ Js.truthy d = true
                    /\ Js.includes (Js.toLowerCase d) t = true).
Proof.
  unfold matches. rewrite orb_true_iff. split.
  - intros [H|H]; [now left|]. right.
    destruct (project_description p) as [d|]; [|discriminate].
    destruct (Js.truthy d) eqn:T; [|discriminate]. now exists d.
  - intros [H|(d & -> & T & H)]; [now left|]. right. now rewrite T.
Qed.

Variable client : LinearClient.

(** What the search path leaves of the tracker's answer. *)
Lemma fetchProjects_search (term : string) (w w' : World)
  (nodes : list Project) :
  search args = Some term ->
  Js.truthy term = true ->
  fetchProjects client args w = (Return nodes, w') ->
  exists answer,
    projects client (calls w)
      {| projects_filter := None;
         projects_first := Some (effectiveLimit args * (2#1))%Q |}
    = Return answer
    /\ nodes = firstn (Z.to_nat (Qfloor (effectiveLimit args)))
                 (filter (matches (Js.toLowerCase term)) answer).
Proof.
  intros Hs Ht. unfold fetchProjects. rewrite Hs. cbn [Js.truthyOpt].
  rewrite Ht. unfold bind, await, ret. cbv beta iota.
  destruct (projects client (calls w) _) as [answer|e]; [|discriminate].
  intro H. injection H as <- _. exists answer. split; [reflexivity|].
  destruct toInteger_limit as [-> Hpos]. now apply slice0_firstn.
Qed.

(** The plain path returns the tracker's answer as it is. *)
Lemma fetchProjects_plain (w w' : World) (nodes : list Project) :
  Js.truthyOpt (search args) = false ->
  fetchProjects client args w = (Return nodes, w') ->
  projects client (calls w)
    {| projects_filter := Some (ProjectByStateType (stateFilter args));
       projects_first := Some (effectiveLimit args) |}
  = Return nodes.
Proof.
  intro Hs. unfold fetchProjects. rewrite Hs. unfold await.
  intro H. now injection H as H _.
Qed.

(** A returned list comes from the body, past the check of the API key. *)
Lemma handleRequest_returns (r : ProjectListResponse) (w : World) :
  run (handleRequest client args) = (Return r, w) ->
  exists nodes,
    fetchProjects client args world0 = (Return nodes, w)
    /\ r = {| projects_ := map formatProject nodes;
              total := Z.of_nat (length (map formatProject nodes)) |}.
Proof.
  unfold run, handleRequest, tryCatch.
  destruct (body client args world0) as [[r0|e] w0] eqn:B.
  - intro H. injection H as <- <-. unfold body in B.
    destruct (Js.truthy (apiKey args)); [|discriminate]. simpl in B.
    unfold bind in B.
    destruct (fetchProjects client args world0) as [[nodes|e] w1];
      [|discriminate].
    unfold ret in B. injection B as <- <-. now exists nodes.
  - destruct e; discriminate.
Qed.

End GetProjects.

(** C10, as the code has it. The bound of get-projects is [min(limit, 50)]
    for a positive limit and 10 when the limit is absent, zero or negative;
    it is positive and at most 50, and [total] is the length of the
    returned list. In the search path the list is the tracker's answer to
    a query for twice the bound, filtered by the term (the lower-cased name,
    or the lower-cased non-empty description, contains the lower-cased
    term) and cut after the integer part of the bound: it has no more
    projects than the bound. Without a search term the handler passes the
    bound as [first] and returns the answer of the tracker uncut. *)
Theorem C10_projects_bounded :
  forall (client : LinearClient)
         (args : GetProjectsRequestHandler.GetProjectsArgs)
         (r : GetProjectsRequestHandler.ProjectListResponse) (w : World),
    run (GetProjectsRequestHandler.handleRequest client args) = (Return r, w) ->
    ((0 < GetProjectsRequestHandler.effectiveLimit args)%Q
     /\ (GetProjectsRequestHandler.effectiveLimit args <= 50)%Q)
    /\ (forall l, GetProjectsRequestHandler.limit args = Some l -> (0 < l)%Q ->
                  GetProjectsRequestHandler.effectiveLimit args
                  = Js.mathMin l 50
                  /\ (GetProjectsRequestHandler.effectiveLimit args <= l)%Q)
    /\ ((GetProjectsRequestHandler.limit args = None
         \/ exists l, GetProjectsRequestHandler.limit args = Some l
                      /\ (l <= 0)%Q) ->
        GetProjectsRequestHandler.effectiveLimit args = 10#1)
    /\ GetProjectsRequestHandler.total r
       = Z.of_nat (length (GetProjectsRequestHandler.projects_ r))
    /\ (forall term,
           GetProjectsRequestHandler.search args = Some term ->
           Js.truthy term = true ->
           exists answer,
             projects client []
               {| projects_filter := None;
                  projects_first :=
                    Some (GetProjectsRequestHandler.effectiveLimit args
                          * (2#1))%Q |}
             = Return answer
             /\ GetProjectsRequestHandler.projects_ r
                = map GetProjectsRequestHandler.formatProject
                    (firstn
                       (Z.to_nat
                          (Qfloor (GetProjectsRequestHandler.effectiveLimit
                                     args)))
                       (filter
                          (GetProjectsRequestHandler.matches
                             (Js.toLowerCase term)) answer))
             /\ (inject_Z
                   (Z.of_nat (length (GetProjectsRequestHandler.projects_ r)))
                 <= GetProjectsRequestHandler.effectiveLimit args)%Q)
    /\ (Js.truthyOpt (GetProjectsRequestHandler.search args) = false ->
        exists answer,
          projects client []
            {| projects_filter :=
                 Some (ProjectByStateType
                         (GetProjectsRequestHandler.stateFilter args));
               projects_first :=
                 Some (GetProjectsRequestHandler.effectiveLimit args) |}
          = Return answer
          /\ GetProjectsRequestHandler.projects_ r
             = map GetProjectsRequestHandler.formatProject answer)
    /\ (forall t p,
           GetProjectsRequestHandler.matches t p = true
           <-> (Js.includes (Js.toLowerCase (project_name p)) t = true
                \/ exists d, project_description p = Some d
                             /\ Js.truthy d = true
                             /\ Js.includes (Js.toLowerCase d) t = true)).
Proof.
  intros client args r w Hrun.
  destruct (handleRequest_returns args client r w Hrun) as (nodes & F & ->).
  cbn [GetProjectsRequestHandler.projects_ GetProjectsRequestHandler.total].
  split; [|split; [|split; [|split; [|split; [|split]]]]].
  - apply effectiveLimit_range.
  - apply effectiveLimit_positive.
  - apply effectiveLimit_default.
  - reflexivity.
  - intros term Hs Ht.
    destruct (fetchProjects_search args client term world0 _ _ Hs Ht F)
      as (answer & P & ->).
    exists answer. split; [exact P|]. split; [reflexivity|].
    rewrite length_map. apply firstn_limit.
  - intro Hs. exists nodes. split; [|reflexivity].
    exact (fetchProjects_plain args client world0 _ _ Hs F).
  - apply matches_spec.
Qed.

Lemma C10_projects_bounded_witness :
  (exists r w,
      run (GetProjectsRequestHandler.handleRequest Sample.withProjects
             (Sample.projectsArgs None (Some (2#1)))) = (Return r, w)
      /\ map GetProjectsRequestHandler.id (GetProjectsRequestHandler.projects_ r)
         = ["proj-123"; "proj-124"]
      /\ GetProjectsRequestHandler.total r = 2)
  /\ (exists r w,
         run (GetProjectsRequestHandler.handleRequest Sample.withProjects
                (Sample.projectsArgs (Some "TEST") (Some (3#2))))
         = (Return r, w)
         /\ map GetProjectsRequestHandler.id
              (GetProjectsRequestHandler.projects_ r) = ["proj-123"]
         /\ (inject_Z
               (Z.of_nat (length (GetProjectsRequestHandler.projects_ r)))
             <= 3#2)%Q).
Proof.
  split.
  - eexists. eexists. split; [reflexivity|]. split; [reflexivity|].
    exact (proj1 (proj2 (proj2 (proj2
             (C10_projects_bounded Sample.withProjects
                (Sample.projectsArgs None (Some (2#1))) _ _ eq_refl))))).
  - eexists. eexists. split; [reflexivity|]. split; [reflexivity|].
    destruct (proj1 (proj2 (proj2 (proj2 (proj2
                (C10_projects_bounded Sample.withProjects
                   (Sample.projectsArgs (Some "TEST") (Some (3#2))) _ _
                   eq_refl))))) "TEST" eq_refl eq_refl)
      as (answer & _ & _ & B).
    exact B.
Defined.

(** C10 fails as stated: the request asks for at most 2 projects without
    a search term, the tracker answers the query for [first: 2] with 3
    projects, and get-projects returns all 3. *)
Lemma C10_counterexample :
  exists r w,
    run (GetProjectsRequestHandler.handleRequest Fixture.overfull
           (Sample.projectsArgs None (Some (2#1)))) = (Return r, w)
    /\ calls w
       = [CallProjects {| projects_filter := Some (ProjectByStateType None);
                          projects_first := Some (2#1) |}]
    /\ Js.mathMin (2#1) 50 = 2#1
    /\ length (GetProjectsRequestHandler.projects_ r) = 3%nat
    /\ ~ (inject_Z (Z.of_nat (length (GetProjectsRequestHandler.projects_ r)))
          <= Js.mathMin (2#1) 50)%Q.
Proof.
  eexists. eexists. split; [reflexivity|].
  split; [reflexivity|]. split; [reflexivity|]. split; [reflexivity|].
  intro H. vm_compute in H. now apply H.
Qed.

(** * Further properties of the handlers *)

(** ** update-project *)

Lemma appends_promiseAll {A : Type} (P : Call -> Prop) (ms : list (M A)) :
  Forall (appendsCalls P) ms -> appendsCalls P (promiseAll ms).
Proof.
  induction ms as [|m rest IH]; intro H.
  - apply appends_ret.
  - apply Forall_cons_iff in H. destruct H as [Hm Hrest].
    specialize (IH Hrest). intro w. cbn [promiseAll].
    destruct (Hm w) as (l1 & E1 & F1).
    destruct (m w) as [[a|e] w1]; cbn [snd] in E1.
    + destruct (IH w1) as (l2 & E2 & F2).
      destruct (promiseAll rest w1) as [[l|e] w2]; cbn [snd] in *;
        exists (l1 ++ l2)%list; rewrite E2, E1, app_assoc;
        (split; [reflexivity | now apply Forall_app]).
    + destruct (IH w1) as (l2 & E2 & F2). cbn [snd].
      exists (l1 ++ l2)%list. rewrite E2, E1, app_assoc.
      split; [reflexivity | now apply Forall_app].
Qed.

Section UpdateProject.

Import UpdateProjectHandler.

Variable client : LinearClient.

Lemma updateProject_accepted (args : UpdateProjectArgs) :
  Js.truthy (apiKey args) = true ->
  Js.truthy (projectId args) = true ->
  hasUpdateField args = true ->
  progressOutOfRange args = false ->
  handleRequest client args
  = tryCatch (body client args)
      (rethrow "Error updating project:" "Failed to update project: ").
Proof.
  intros H1 H2 H3 H4. unfold handleRequest. now rewrite H1, H2, H3, H4.
Qed.

Lemma updateProject_bad_progress (args : UpdateProjectArgs) :
  progressOutOfRange args = true ->
  exists msg,
    run (handleRequest client args)
    = (Throw (McpError InvalidParams msg), world0)
    /\ (Js.truthy (apiKey args) = true ->
        Js.truthy (projectId args) = true ->
        msg = "Progress must be between 0 and 1").
Proof.
  intro H. unfold run, handleRequest.
  destruct (Js.truthy (apiKey args)); simpl;
    [|eexists; split; [reflexivity | discriminate]].
  destruct (Js.truthy (projectId args)); simpl;
    [|eexists; split; [reflexivity | discriminate]].
  assert (Hf : hasUpdateField args = true).
  { unfold progressOutOfRange in H. unfold hasUpdateField.
    destruct (progress args); [|discriminate]. simpl.
    now rewrite !orb_true_r. }
  rewrite Hf, H. simpl. eexists; split; reflexivity.
Qed.

(** One team lookup of the join: its call, and the first node reshaped. *)
Lemma fetchTeam_run (teamId : string) (w : World) :
  fetchTeam client teamId w
  = (match teams client (calls w) (TeamById teamId) with
     | Return nodes =>
         Return (option_map (formatTeam "TEAM") (hd_error nodes))
     | Throw e => Throw e
     end,
     {| calls := (calls w ++ [CallTeams (TeamById teamId)])%list;
        console := console w |}).
Proof.
  unfold fetchTeam, bind, await. cbv beta iota.
  destruct (teams client (calls w) (TeamById teamId)) as [[|t nodes]|e];
    reflexivity.
Qed.

(** The join issues one lookup for every team id, in the order of the ids,
    whatever the lookups answer, and logs nothing. *)
Lemma promiseAll_world (ids : list string) (w : World) :
  snd (promiseAll (map (fetchTeam client) ids) w)
  = {| calls :=
         (calls w ++ map (fun id => CallTeams (TeamById id)) ids)%list;
       console := console w |}.
Proof.
  revert w. induction ids as [|id ids IH]; intro w.
  - simpl. rewrite app_nil_r. now destruct w.
  - cbn [map promiseAll]. rewrite fetchTeam_run.
    specialize (IH {| calls := (calls w ++ [CallTeams (TeamById id)])%list;
                      console := console w |}).
    cbn [calls console] in IH. rewrite <- app_assoc in IH. cbn [app] in IH.
    destruct (teams client (calls w) (TeamById id)) as [nodes|e].
    + destruct (promiseAll (map (fetchTeam client) ids) _) as [[l|e] w2];
        cbn [snd] in *; exact IH.
    + cbn [snd]. exact IH.
Qed.

(** With lookups that answer by the id alone, the join returns one entry
    for every id, in the order of the ids. *)
Lemma promiseAll_returns (db : string -> list Team) (ids : list string)
  (w : World) :
  (forall h id, In id ids -> teams client h (TeamById id) = Return (db id)) ->
  fst (promiseAll (map (fetchTeam client) ids) w)
  = Return (map (fun id => option_map (formatTeam "TEAM") (hd_error (db id)))
              ids).
Proof.
  revert w. induction ids as [|id ids IH]; intros w H; [reflexivity|].
  cbn [map promiseAll]. rewrite fetchTeam_run.
  rewrite (H (calls w) id (or_introl eq_refl)).
  specialize (IH {| calls := (calls w ++ [CallTeams (TeamById id)])%list;
                    console := console w |}
                (fun h i Hi => H h i (or_intror Hi))).
  destruct (promiseAll (map (fetchTeam client) ids) _) as [[l|e] w2];
    cbn [fst] in *; [|discriminate]. now injection IH as ->.
Qed.

(** One rejected lookup rejects the join. *)
Lemma promiseAll_rejects (bad : string) (ids : list string) (w : World) :
  In bad ids ->
  (forall h, exists e, teams client h (TeamById bad) = Throw e) ->
  exists e, fst (promiseAll (map (fetchTeam client) ids) w) = Throw e.
Proof.
  revert w. induction ids as [|id ids IH]; intros w Hin Hbad; [destruct Hin|].
  cbn [map promiseAll]. rewrite fetchTeam_run.
  destruct (teams client (calls w) (TeamById id)) as [nodes|e] eqn:E.
  - destruct Hin as [->|Hin].
    + destruct (Hbad (calls w)) as [e He]. congruence.
    + destruct (IH {| calls := (calls w ++ [CallTeams (TeamById id)])%list;
                      console := console w |} Hin Hbad) as [e He].
      destruct (promiseAll (map (fetchTeam client) ids) _) as [[l|e'] w2];
        cbn [fst] in *; [discriminate|]. now exists e'.
  - now exists e.
Qed.

(** The team ids that the lookups follow. *)
Lemma fetchTeams_run (p : Project) (w : World) :
  exists ts lg,
    fetchTeams client p w
    = (Return ts,
       {| calls :=
            (calls w
             ++ map (fun id => CallTeams (TeamById id))
                  (match project_teamIds p with Some l => l | None => [] end))%list;
          console := (console w ++ lg)%list |})
    /\ (forall db,
           (forall h id,
               In id (match project_teamIds p with Some l => l | None => [] end) ->
               teams client h (TeamById id) = Return (db id)) ->
           lg = []
           /\ ts = nonNull
                     (map (fun id =>
                             option_map (formatTeam "TEAM") (hd_error (db id)))
                        (match project_teamIds p with
                         | Some l => l
                         | None => []
                         end)))
    /\ (forall bad,
           In bad (match project_teamIds p with Some l => l | None => [] end) ->
           (forall h, exists e, teams client h (TeamById bad) = Throw e) ->
           ts = [] /\ exists e, lg = [ConsoleWarn "Error fetching teams:" e]).
Proof.
  unfold fetchTeams.
  destruct (project_teamIds p) as [[|t ts]|].
  - exists [], []. rewrite !app_nil_r. destruct w.
    split; [reflexivity|]. split; [now intros|]. intros bad [].
  - unfold tryCatch, bind.
    pose proof (promiseAll_world (t :: ts) w) as W.
    pose proof (promiseAll_returns) as R.
    pose proof (promiseAll_rejects) as J.
    destruct (promiseAll (map (fetchTeam client) (t :: ts)) w)
      as [[l|e] w1] eqn:PA; cbn [snd] in W; subst w1.
    + exists (nonNull l), []. rewrite app_nil_r.
      split; [reflexivity|]. split.
      * intros db Hdb. split; [reflexivity|].
        specialize (R db (t :: ts) w Hdb). rewrite PA in R.
        cbn [fst] in R. now injection R as ->.
      * intros bad Hin Hbad. destruct (J bad (t :: ts) w Hin Hbad) as [e He].
        rewrite PA in He. discriminate He.
    + exists [], [ConsoleWarn "Error fetching teams:" e].
      split; [reflexivity|]. split.
      * intros db Hdb. specialize (R db (t :: ts) w Hdb). rewrite PA in R.
        discriminate R.
      * intros bad _ _. split; [reflexivity|]. now exists e.
  - exists [], []. rewrite !app_nil_r. destruct w.
    split; [reflexivity|]. split; [now intros|]. intros bad [].
Qed.

End UpdateProject.

Section UpdateProjectRuns.

Import UpdateProjectHandler.

Variables (client : LinearClient) (args : UpdateProjectArgs).

Hypothesis HapiKey : Js.truthy (apiKey args) = true.
Hypothesis HprojectId : Js.truthy (projectId args) = true.
Hypothesis Hfield : hasUpdateField args = true.
Hypothesis Hprogress : progressOutOfRange args = false.

(** The run of an accepted request whose project is found and whose update
    succeeds. *)
Lemma updateProject_success_run (found : Project) (more : list Project)
  (payload : ProjectPayload) :
  projects client []
    {| projects_filter := Some (ProjectById (projectId args));
       projects_first := None |} = Return (found :: more) ->
  updateProject client
    [CallProjects {| projects_filter := Some (ProjectById (projectId args));
                     projects_first := None |}]
    (project_id found) (updateData args) = Return payload ->
  ppayload_success payload = true ->
  exists ts lg,
    run (handleRequest client args)
    = (Return
         {| success := true;
            message := "Project updated successfully";
            project :=
              {| p_id := project_id (ppayload_project payload);
                 p_name := project_name (ppayload_project payload);
                 p_description := project_description (ppayload_project payload);
                 p_state := project_state (ppayload_project payload);
                 p_teams := ts;
                 p_startDate := project_startDate (ppayload_project payload);
                 p_targetDate := project_targetDate (ppayload_project payload);
                 p_progress := project_progress (ppayload_project payload);
                 p_updatedAt := project_updatedAt (ppayload_project payload);
                 p_url := project_url (ppayload_project payload) |} |},
       {| calls :=
            (CallProjects
               {| projects_filter := Some (ProjectById (projectId args));
                  projects_first := None |}
             :: CallUpdateProject (project_id found) (updateData args)
             :: map (fun id => CallTeams (TeamById id))
                  (match project_teamIds (ppayload_project payload) with
                   | Some l => l
                   | None => []
                   end))%list;
          console := lg |})
    /\ fetchTeams client (ppayload_project payload)
         {| calls :=
              [CallProjects
                 {| projects_filter := Some (ProjectById (projectId args));
                    projects_first := None |};
               CallUpdateProject (project_id found) (updateData args)];
            console := [] |}
       = (Return ts,
          {| calls :=
               (CallProjects
                  {| projects_filter := Some (ProjectById (projectId args));
                     projects_first := None |}
                :: CallUpdateProject (project_id found) (updateData args)
                :: map (fun id => CallTeams (TeamById id))
                     (match project_teamIds (ppayload_project payload) with
                      | Some l => l
                      | None => []
                      end))%list;
             console := lg |}).
Proof.
  intros Hp Hu Hs.
  rewrite (updateProject_accepted client args HapiKey HprojectId Hfield
             Hprogress).
  destruct (fetchTeams_run client (ppayload_project payload)
              {| calls :=
                   [CallProjects
                      {| projects_filter := Some (ProjectById (projectId args));
                         projects_first := None |};
                    CallUpdateProject (project_id found) (updateData args)];
                 console := [] |}) as (ts & lg & F & _).
  cbn [calls console app] in F.
  exists ts, lg. split; [|exact F].
  unfold run, tryCatch, body, bind at 1, await at 1.
  cbn [calls console world0 app]. rewrite Hp.
  unfold bind at 1, await at 1. cbn [calls console app]. rewrite Hu, Hs.
  cbn [negb]. unfold bind. rewrite F. reflexivity.
Qed.

End UpdateProjectRuns.

(** X1. Progress validation of update-project: a progress outside [0,1]
    fails with an invalid-parameter error and leaves the world untouched;
    a progress within the bounds, 0 and 1 included, passes, and a request
    with its API key and project id goes on to query the project by id. *)
Theorem updateProject_progress_validation :
  forall (client : LinearClient) (args : UpdateProjectHandler.UpdateProjectArgs)
         (p : Q),
    UpdateProjectHandler.progress args = Some p ->
    ((p < 0 \/ 1 < p)%Q ->
     exists msg,
       run (UpdateProjectHandler.handleRequest client args)
       = (Throw (McpError InvalidParams msg), world0)
       /\ (Js.truthy (UpdateProjectHandler.apiKey args) = true ->
           Js.truthy (UpdateProjectHandler.projectId args) = true ->
           msg = "Progress must be between 0 and 1"))
    /\ ((0 <= p /\ p <= 1)%Q ->
        Js.truthy (UpdateProjectHandler.apiKey args) = true ->
        Js.truthy (UpdateProjectHandler.projectId args) = true ->
        exists rest,
          calls (snd (run (UpdateProjectHandler.handleRequest client args)))
          = CallProjects
              {| projects_filter :=
                   Some (ProjectById (UpdateProjectHandler.projectId args));
                 projects_first := None |} :: rest).
Proof.
  intros client args p Hp. split.
  - intros Hout. apply updateProject_bad_progress.
    unfold UpdateProjectHandler.progressOutOfRange. rewrite Hp.
    destruct Hout as [Hlt|Hgt].
    + now rewrite (numLt_true _ _ Hlt).
    + rewrite (numGt_true _ _ Hgt). apply orb_true_r.
  - intros [Hlo Hhi] H1 H2.
    rewrite (updateProject_accepted client args H1 H2).
    + unfold run. rewrite calls_tryCatch_quiet by (intro; apply appends_rethrow).
      unfold UpdateProjectHandler.body.
      match goal with
      | |- context [bind (await ?c ?f) ?k] =>
          destruct (calls_bind (fun _ => True) (await c f) k world0 [c]
                      eq_refl) as (rest & E & _)
      end.
      * intros [|found more]; [apply appends_throw|].
        apply appends_bind; [apply appends_await; exact I|]. intro payload.
        destruct (negb (ppayload_success payload)); [apply appends_throw|].
        apply appends_bind; [|intros; apply appends_ret].
        unfold UpdateProjectHandler.fetchTeams.
        destruct (project_teamIds (ppayload_project payload)) as [[|t ts]|];
          try apply appends_ret.
        apply appends_tryCatch.
        -- apply appends_bind; [|intros; apply appends_ret].
           apply appends_promiseAll. apply Forall_forall. intros m Hm.
           apply in_map_iff in Hm. destruct Hm as (id & <- & _).
           unfold UpdateProjectHandler.fetchTeam. appends.
        -- intros. appends.
      * exists rest. exact E.
    + unfold UpdateProjectHandler.hasUpdateField. rewrite Hp. simpl.
      now rewrite !orb_true_r.
    + unfold UpdateProjectHandler.progressOutOfRange. rewrite Hp.
      now rewrite (numLt_false _ _ Hlo), (numGt_false _ _ Hhi).
Qed.

Lemma updateProject_progress_validation_witness :
  run (UpdateProjectHandler.handleRequest Sample.unreachable
         (Fixture.progressArgs (3#2)))
  = (Throw (McpError InvalidParams "Progress must be between 0 and 1"), world0)
  /\ (exists rest,
         calls (snd (run (UpdateProjectHandler.handleRequest Sample.unreachable
                            (Fixture.progressArgs (1#1)))))
         = CallProjects {| projects_filter := Some (ProjectById "proj-1");
                           projects_first := None |} :: rest)
  /\ (exists rest,
         calls (snd (run (UpdateProjectHandler.handleRequest Sample.unreachable
                            (Fixture.progressArgs (0#1)))))
         = CallProjects {| projects_filter := Some (ProjectById "proj-1");
                           projects_first := None |} :: rest).
Proof.
  split; [|split].
  - destruct (updateProject_progress_validation Sample.unreachable
                (Fixture.progressArgs (3#2)) (3#2) eq_refl) as [Hout _].
    destruct (Hout (or_intror eq_refl)) as (msg & Hrun & Hmsg).
    rewrite Hrun, (Hmsg eq_refl eq_refl). reflexivity.
  - destruct (updateProject_progress_validation Sample.unreachable
                (Fixture.progressArgs (1#1)) (1#1) eq_refl) as [_ Hin].
    apply Hin; [split; discriminate | reflexivity | reflexivity].
  - destruct (updateProject_progress_validation Sample.unreachable
                (Fixture.progressArgs (0#1)) (0#1) eq_refl) as [_ Hin].
    apply Hin; [split; discriminate | reflexivity | reflexivity].
Defined.

(** X2. update-project for a project that the tracker does not know: the
    request fails with "Project not found: " and the project id after the
    one query; no update is sent and nothing is logged. *)
Theorem updateProject_not_found :
  forall (client : LinearClient) (args : UpdateProjectHandler.UpdateProjectArgs),
    Js.truthy (UpdateProjectHandler.apiKey args) = true ->
    Js.truthy (UpdateProjectHandler.projectId args) = true ->
    UpdateProjectHandler.hasUpdateField args = true ->
    UpdateProjectHandler.progressOutOfRange args = false ->
    projects client []
      {| projects_filter :=
           Some (ProjectById (UpdateProjectHandler.projectId args));
         projects_first := None |} = Return [] ->
    run (UpdateProjectHandler.handleRequest client args)
    = (Throw (McpError InternalError
                ("Project not found: " ++ UpdateProjectHandler.projectId args)),
       {| calls :=
            [CallProjects
               {| projects_filter :=
                    Some (ProjectById (UpdateProjectHandler.projectId args));
                  projects_first := None |}];
          console := [] |}).
Proof.
  intros client args H1 H2 H3 H4 Hp.
  rewrite (updateProject_accepted client args H1 H2 H3 H4).
  unfold run, tryCatch, UpdateProjectHandler.body, bind, await.
  cbn [calls console world0 app]. rewrite Hp. reflexivity.
Qed.

Lemma updateProject_not_found_witness :
  fst (run (UpdateProjectHandler.handleRequest Sample.vacant
              (Fixture.progressArgs (1#2))))
  = Throw (McpError InternalError "Project not found: proj-1").
Proof.
  rewrite (updateProject_not_found Sample.vacant (Fixture.progressArgs (1#2))
             eq_refl eq_refl eq_refl eq_refl eq_refl).
  reflexivity.
Defined.

(** X3. update-project whose update does not succeed: when the tracker
    reports no success the request fails with "Failed to update project: "
    and the project id, and when the tracker rejects the update with an
    error the request fails with "Failed to update project: " and the
    message of that error, which is logged. Either way the query and the
    update are the only calls: no team is looked up. *)
Theorem updateProject_update_failed :
  forall (client : LinearClient) (args : UpdateProjectHandler.UpdateProjectArgs)
         (found : Project) (more : list Project),
    Js.truthy (UpdateProjectHandler.apiKey args) = true ->
    Js.truthy (UpdateProjectHandler.projectId args) = true ->
    UpdateProjectHandler.hasUpdateField args = true ->
    UpdateProjectHandler.progressOutOfRange args = false ->
    projects client []
      {| projects_filter :=
           Some (ProjectById (UpdateProjectHandler.projectId args));
         projects_first := None |} = Return (found :: more) ->
    match
      updateProject client
        [CallProjects
           {| projects_filter :=
                Some (ProjectById (UpdateProjectHandler.projectId args));
              projects_first := None |}]
        (project_id found) (UpdateProjectHandler.updateData args)
    with
    | Return payload =>
        ppayload_success payload = false ->
        run (UpdateProjectHandler.handleRequest client args)
        = (Throw (McpError InternalError
                    ("Failed to update project: "
                     ++ UpdateProjectHandler.projectId args)),
           {| calls :=
                [CallProjects
                   {| projects_filter :=
                        Some (ProjectById (UpdateProjectHandler.projectId args));
                      projects_first := None |};
                 CallUpdateProject (project_id found)
                   (UpdateProjectHandler.updateData args)];
              console := [] |})
    | Throw (JsError m) =>
        run (UpdateProjectHandler.handleRequest client args)
        = (Throw (McpError InternalError ("Failed to update project: " ++ m)),
           {| calls :=
                [CallProjects
                   {| projects_filter :=
                        Some (ProjectById (UpdateProjectHandler.projectId args));
                      projects_first := None |};
                 CallUpdateProject (project_id found)
                   (UpdateProjectHandler.updateData args)];
              console := [ConsoleError "Error updating project:" (JsError m)] |})
    | Throw _ => True
    end.
Proof.
  intros client args found more H1 H2 H3 H4 Hp.
  rewrite (updateProject_accepted client args H1 H2 H3 H4).
  unfold run, tryCatch, UpdateProjectHandler.body, bind, await.
  cbn [calls console world0 app]. rewrite Hp. cbv beta iota.
  cbn [calls console app].
  destruct (updateProject client _ (project_id found) _) as [payload|[| | |]];
    try exact I.
  - intros ->. reflexivity.
  - reflexivity.
Qed.

Lemma updateProject_update_failed_witness :
  fst (run (UpdateProjectHandler.handleRequest Fixture.refusingUpdate
              (Fixture.progressArgs (1#2))))
  = Throw (McpError InternalError "Failed to update project: proj-1")
  /\ fst (run (UpdateProjectHandler.handleRequest Fixture.rejectingUpdate
                 (Fixture.progressArgs (1#2))))
     = Throw (McpError InternalError
                "Failed to update project: connect ECONNREFUSED").
Proof.
  split.
  - rewrite (updateProject_update_failed Fixture.refusingUpdate
               (Fixture.progressArgs (1#2)) Fixture.project1 []
               eq_refl eq_refl eq_refl eq_refl eq_refl eq_refl).
    reflexivity.
  - rewrite (updateProject_update_failed Fixture.rejectingUpdate
               (Fixture.progressArgs (1#2)) Fixture.project1 []
               eq_refl eq_refl eq_refl eq_refl eq_refl).
    reflexivity.
Defined.

(** X4. update-project after a successful update: the request returns
    the updated project whatever the team lookups answer, and it has looked
    up every team id of the updated project once, in the order of the ids,
    right after the query and the update. *)
Theorem updateProject_team_lookups :
  forall (client : LinearClient) (args : UpdateProjectHandler.UpdateProjectArgs)
         (found : Project) (more : list Project) (payload : ProjectPayload),
    Js.truthy (UpdateProjectHandler.apiKey args) = true ->
    Js.truthy (UpdateProjectHandler.projectId args) = true ->
    UpdateProjectHandler.hasUpdateField args = true ->
    UpdateProjectHandler.progressOutOfRange args = false ->
    projects client []
      {| projects_filter :=
           Some (ProjectById (UpdateProjectHandler.projectId args));
         projects_first := None |} = Return (found :: more) ->
    updateProject client
      [CallProjects
         {| projects_filter :=
              Some (ProjectById (UpdateProjectHandler.projectId args));
            projects_first := None |}]
      (project_id found) (UpdateProjectHandler.updateData args)
    = Return payload ->
    ppayload_success payload = true ->
    exists r w,
      run (UpdateProjectHandler.handleRequest client args) = (Return r, w)
      /\ UpdateProjectHandler.success r = true
      /\ UpdateProjectHandler.p_id (UpdateProjectHandler.project r)
         = project_id (ppayload_project payload)
      /\ UpdateProjectHandler.p_name (UpdateProjectHandler.project r)
         = project_name (ppayload_project payload)
      /\ calls w
         = CallProjects
             {| projects_filter :=
                  Some (ProjectById (UpdateProjectHandler.projectId args));
                projects_first := None |}
           :: CallUpdateProject (project_id found)
                (UpdateProjectHandler.updateData args)
           :: map (fun id => CallTeams (TeamById id))
                (match project_teamIds (ppayload_project payload) with
                 | Some l => l
                 | None => []
                 end).
Proof.
  intros client args found more payload H1 H2 H3 H4 Hp Hu Hs.
  destruct (updateProject_success_run client args H1 H2 H3 H4 found more
              payload Hp Hu Hs) as (ts & lg & R & _).
  eexists. eexists. split; [exact R|]. repeat split.
Qed.

Lemma updateProject_team_lookups_witness :
  exists r w,
    run (UpdateProjectHandler.handleRequest (Fixture.withProject "team-43")
           (Fixture.progressArgs (1#2))) = (Return r, w)
    /\ calls w
       = [CallProjects {| projects_filter := Some (ProjectById "proj-1");
                          projects_first := None |};
          CallUpdateProject "proj-1"
            (UpdateProjectHandler.updateData (Fixture.progressArgs (1#2)));
          CallTeams (TeamById "team-42");
          CallTeams (TeamById "team-43");
          CallTeams (TeamById "team-44")].
Proof.
  destruct (updateProject_team_lookups (Fixture.withProject "team-43")
              (Fixture.progressArgs (1#2)) Fixture.project1 [] _
              eq_refl eq_refl eq_refl eq_refl eq_refl eq_refl eq_refl)
    as (r & w & R & _ & _ & _ & C).
  exists r, w. split; [exact R | exact C].
Defined.

(** X5. update-project with team lookups that all answer, each by its
    team id alone: the teams of the answer follow the order of the team
    ids of the updated project; an id without a team is skipped, a team
    without a name is named "Unknown" and one without a key gets the key
    "TEAM"; nothing is logged. *)
Theorem updateProject_teams_in_order :
  forall (client : LinearClient) (args : UpdateProjectHandler.UpdateProjectArgs)
         (found : Project) (more : list Project) (payload : ProjectPayload)
         (db : string -> list Team),
    Js.truthy (UpdateProjectHandler.apiKey args) = true ->
    Js.truthy (UpdateProjectHandler.projectId args) = true ->
    UpdateProjectHandler.hasUpdateField args = true ->
    UpdateProjectHandler.progressOutOfRange args = false ->
    projects client []
      {| projects_filter :=
           Some (ProjectById (UpdateProjectHandler.projectId args));
         projects_first := None |} = Return (found :: more) ->
    updateProject client
      [CallProjects
         {| projects_filter :=
              Some (ProjectById (UpdateProjectHandler.projectId args));
            projects_first := None |}]
      (project_id found) (UpdateProjectHandler.updateData args)
    = Return payload ->
    ppayload_success payload = true ->
    (forall h id,
        In id (match project_teamIds (ppayload_project payload) with
               | Some l => l
               | None => []
               end) ->
        teams client h (TeamById id) = Return (db id)) ->
    exists r w,
      run (UpdateProjectHandler.handleRequest client args) = (Return r, w)
      /\ console w = []
      /\ UpdateProjectHandler.p_teams (UpdateProjectHandler.project r)
         = UpdateProjectHandler.nonNull
             (map (fun id => option_map (formatTeam "TEAM") (hd_error (db id)))
                (match project_teamIds (ppayload_project payload) with
                 | Some l => l
                 | None => []
                 end)).
Proof.
  intros client args found more payload db H1 H2 H3 H4 Hp Hu Hs Hdb.
  destruct (updateProject_success_run client args H1 H2 H3 H4 found more
              payload Hp Hu Hs) as (ts & lg & R & F).
  destruct (fetchTeams_run client (ppayload_project payload)
              {| calls :=
                   [CallProjects
                      {| projects_filter :=
                           Some (ProjectById
                                   (UpdateProjectHandler.projectId args));
                         projects_first := None |};
                    CallUpdateProject (project_id found)
                      (UpdateProjectHandler.updateData args)];
                 console := [] |}) as (ts' & lg' & F' & Hall & _).
  rewrite F in F'. injection F' as -> ->.
  destruct (Hall db Hdb) as [-> ->].
  eexists. eexists. split; [exact R|]. split; reflexivity.
Qed.

Lemma updateProject_teams_in_order_witness :
  exists r w,
    run (UpdateProjectHandler.handleRequest (Fixture.withProject "none")
           (Fixture.progressArgs (1#2))) = (Return r, w)
    /\ UpdateProjectHandler.p_teams (UpdateProjectHandler.project r)
       = [mkTeam "team-42" "Platform" "ABC"; mkTeam "team-44" "Unknown" "OPS"].
Proof.
  destruct (updateProject_teams_in_order (Fixture.withProject "none")
              (Fixture.progressArgs (1#2)) Fixture.project1 [] _
              Fixture.teamsById
              eq_refl eq_refl eq_refl eq_refl eq_refl eq_refl eq_refl)
    as (r & w & R & _ & T).
  - intros h id [<-|[<-|[<-|[]]]]; reflexivity.
  - exists r, w. split; [exact R | exact T].
Defined.

(** X6. update-project with one team lookup that is rejected: the request
    still returns the updated project, but with no team at all, also
    not the teams whose lookups answered; the rejection is logged as one
    warning. *)
Theorem updateProject_teams_dropped :
  forall (client : LinearClient) (args : UpdateProjectHandler.UpdateProjectArgs)
         (found : Project) (more : list Project) (payload : ProjectPayload)
         (bad : string),
    Js.truthy (UpdateProjectHandler.apiKey args) = true ->
    Js.truthy (UpdateProjectHandler.projectId args) = true ->
    UpdateProjectHandler.hasUpdateField args = true ->
    UpdateProjectHandler.progressOutOfRange args = false ->
    projects client []
      {| projects_filter :=
           Some (ProjectById (UpdateProjectHandler.projectId args));
         projects_first := None |} = Return (found :: more) ->
    updateProject client
      [CallProjects
         {| projects_filter :=
              Some (ProjectById (UpdateProjectHandler.projectId args));
            projects_first := None |}]
      (project_id found) (UpdateProjectHandler.updateData args)
    = Return payload ->
    ppayload_success payload = true ->
    In bad (match project_teamIds (ppayload_project payload) with
            | Some l => l
            | None => []
            end) ->
    (forall h, exists e, teams client h (TeamById bad) = Throw e) ->
    exists r w e,
      run (UpdateProjectHandler.handleRequest client args) = (Return r, w)
      /\ UpdateProjectHandler.p_teams (UpdateProjectHandler.project r) = []
      /\ console w = [ConsoleWarn "Error fetching teams:" e].
Proof.
  intros client args found more payload bad H1 H2 H3 H4 Hp Hu Hs Hin Hbad.
  destruct (updateProject_success_run client args H1 H2 H3 H4 found more
              payload Hp Hu Hs) as (ts & lg & R & F).
  destruct (fetchTeams_run client (ppayload_project payload)
              {| calls :=
                   [CallProjects
                      {| projects_filter :=
                           Some (ProjectById
                                   (UpdateProjectHandler.projectId args));
                         projects_first := None |};
                    CallUpdateProject (project_id found)
                      (UpdateProjectHandler.updateData args)];
                 console := [] |}) as (ts' & lg' & F' & _ & Hone).
  rewrite F in F'. injection F' as -> ->.
  destruct (Hone bad Hin Hbad) as (-> & e & ->).
  eexists. eexists. exists e. split; [exact R|]. split; reflexivity.
Qed.

Lemma updateProject_teams_dropped_witness :
  exists r w,
    run (UpdateProjectHandler.handleRequest (Fixture.withProject "team-44")
           (Fixture.progressArgs (1#2))) = (Return r, w)
    /\ UpdateProjectHandler.p_teams (UpdateProjectHandler.project r) = []
    /\ console w = [ConsoleWarn "Error fetching teams:" Sample.down].
Proof.
  destruct (updateProject_teams_dropped (Fixture.withProject "team-44")
              (Fixture.progressArgs (1#2)) Fixture.project1 [] _ "team-44"
              eq_refl eq_refl eq_refl eq_refl eq_refl eq_refl eq_refl)
    as (r & w & e & R & T & L).
  - right. right. left. reflexivity.
  - intro h. exists Sample.down. reflexivity.
  - exists r, w. split; [exact R|]. split; [exact T|].
    rewrite L. f_equal. f_equal.
    assert (E : console w = console (snd (run
                 (UpdateProjectHandler.handleRequest
                    (Fixture.withProject "team-44")
                    (Fixture.progressArgs (1#2)))))) by now rewrite R.
    rewrite L in E. vm_compute in E. now injection E.
Defined.

(** ** What a handler throws *)

Section ThrowsOnly.

Context {A B : Type} (P : exn -> Prop).

Lemma throwsOnly_ret (a : A) : throwsOnly P (ret a).
Proof. intros w e H. discriminate H. Qed.

Lemma throwsOnly_throw (e : exn) : P e -> throwsOnly P (@throw A e).
Proof. intros He w e' H. now injection H as <-. Qed.

Lemma throwsOnly_await (c : Call) (f : list Call -> Outcome A) :
  (forall h e, f h = Throw e -> P e) -> throwsOnly P (await c f).
Proof. intros Hf w e H. exact (Hf _ _ H). Qed.

Lemma throwsOnly_bind (m : M A) (k : A -> M B) :
  throwsOnly P m -> (forall a, throwsOnly P (k a)) ->
  throwsOnly P (bind m k).
Proof.
  intros Hm Hk w e. unfold bind. specialize (Hm w).
  destruct (m w) as [[a|e0] w1]; cbn [fst] in *.
  - apply Hk.
  - intro H. injection H as <-. now apply Hm.
Qed.

(** What leaves a [try] is what its [catch] throws. *)
Lemma throwsOnly_tryCatch (m : M A) (h : exn -> M A) :
  (forall e, throwsOnly P (h e)) -> throwsOnly P (tryCatch m h).
Proof.
  intros Hh w e. unfold tryCatch.
  destruct (m w) as [[a|e0] w1]; [discriminate | apply Hh].
Qed.

End ThrowsOnly.

Lemma throwsOnly_log (P : exn -> Prop) (l : LogEntry) : throwsOnly P (log l).
Proof. intros w e H. discriminate H. Qed.

(** Under the last [catch], a body that throws neither [null] nor
    [undefined] throws [McpError]s only. *)
Lemma tryCatch_rethrow_mcp {A : Type} (m : M A) (label prefix : string) :
  throwsOnly notNullish m ->
  throwsMcpOnly (tryCatch m (rethrow label prefix)).
Proof.
  intros Hm w e. unfold tryCatch. specialize (Hm w).
  destruct (m w) as [[a|e0] w1]; [discriminate|]. cbn [fst] in Hm.
  specialize (Hm e0 eq_refl).
  destruct e0; simpl; intro H; injection H as <-; try exact I.
  destruct Hm.
Qed.

Lemma throw_mcp {A : Type} (c : ErrorCode) (msg : string) :
  throwsMcpOnly (@throw A (McpError c msg)).
Proof. intros w e H. injection H as <-. exact I. Qed.

(** Split a computation along its combinators; [tac] shows that a rejected
    call throws an allowed value. *)
Ltac throws_with tac :=
  repeat first
    [ apply throwsOnly_ret | apply throwsOnly_log
    | apply throwsOnly_throw; exact I
    | apply throwsOnly_await; tac
    | apply throwsOnly_bind; [|intros]
    | apply throwsOnly_tryCatch; intros
    | match goal with
      | |- throwsOnly _ (match ?x with _ => _ end) => destruct x
      | |- throwsOnly _ (if ?x then _ else _) => destruct x
      end ].

Section NotNullish.

Variable client : LinearClient.

Lemma fetchTeamById_quiet (P : exn -> Prop) (t : option string) :
  throwsOnly P (fetchTeamById client t).
Proof. unfold fetchTeamById. throws_with idtac. Qed.

Lemma fetchStateById_quiet (P : exn -> Prop) (st : option string) :
  throwsOnly P (fetchStateById client st).
Proof. unfold fetchStateById. throws_with idtac. Qed.

Lemma fallbackPath_notNullish (args : GetTicketByIdHandler.GetTicketByIdArgs)
  (p : GetTicketByIdHandler.Parsed) :
  throwsOnly notNullish (GetTicketByIdHandler.fallbackPath client args p).
Proof.
  unfold GetTicketByIdHandler.fallbackPath, GetTicketByIdHandler.findIssue,
    GetTicketByIdHandler.fetchAssignee, GetTicketByIdHandler.fetchTeam,
    GetTicketByIdHandler.fetchLabels, fetchTeamById, fetchStateById.
  throws_with idtac.
Qed.

Lemma findIssue_notNullish (tid : string) :
  throwsOnly notNullish (UpdateTicketHandler.findIssue client tid).
Proof. unfold UpdateTicketHandler.findIssue. throws_with idtac. Qed.

Lemma applyUpdate_notNullish (tid : string) (i : Issue) (d : IssueUpdate) :
  (forall h id d t, updateIssue client h id d <> Throw (JsNullish t)) ->
  throwsOnly notNullish (UpdateTicketHandler.applyUpdate client tid i d).
Proof.
  intro Hu. unfold UpdateTicketHandler.applyUpdate.
  throws_with ltac:(intros h e He; destruct e; try exact I;
                    now destruct (Hu _ _ _ _ He)).
Qed.

(** The [catch] of the resolution of "done" turns [null] into a
    [TypeError], which is an [Error]. *)
Lemma resolveState_notNullish (mcpMessage : ErrorCode -> string -> string)
  (args : UpdateTicketHandler.UpdateTicketArgs) (i : Issue) :
  throwsOnly notNullish
    (UpdateTicketDoneHandler.resolveState mcpMessage client args i).
Proof.
  unfold UpdateTicketDoneHandler.resolveState.
  destruct (UpdateTicketDoneHandler.wantsDone args); [|apply throwsOnly_ret].
  apply throwsOnly_tryCatch. intros [c m|m|m|t]; cbn;
    apply throwsOnly_throw; exact I.
Qed.

Lemma updateTicket_notNullish (args : UpdateTicketHandler.UpdateTicketArgs) :
  (forall h id d t, updateIssue client h id d <> Throw (JsNullish t)) ->
  throwsOnly notNullish (UpdateTicketHandler.body client args).
Proof.
  intro Hu. unfold UpdateTicketHandler.body.
  apply throwsOnly_bind; [apply findIssue_notNullish|]. intro i.
  apply throwsOnly_bind; [now apply applyUpdate_notNullish|]. intro u.
  apply throwsOnly_bind; [apply fetchTeamById_quiet|]. intro t.
  apply throwsOnly_ret.
Qed.

Lemma updateTicketDone_notNullish
  (mcpMessage : ErrorCode -> string -> string)
  (args : UpdateTicketHandler.UpdateTicketArgs) :
  (forall h id d t, updateIssue client h id d <> Throw (JsNullish t)) ->
  throwsOnly notNullish (UpdateTicketDoneHandler.body mcpMessage client args).
Proof.
  intro Hu. unfold UpdateTicketDoneHandler.body.
  apply throwsOnly_bind; [apply findIssue_notNullish|]. intro i.
  apply throwsOnly_bind; [apply resolveState_notNullish|]. intro d.
  apply throwsOnly_bind; [now apply applyUpdate_notNullish|]. intro u.
  apply throwsOnly_bind; [apply fetchTeamById_quiet|]. intro t.
  apply throwsOnly_bind; [apply fetchStateById_quiet|]. intro st.
  apply throwsOnly_ret.
Qed.

Lemma updateProject_notNullish
  (args : UpdateProjectHandler.UpdateProjectArgs) :
  (forall h a t, projects client h a <> Throw (JsNullish t)) ->
  (forall h id d t, updateProject client h id d <> Throw (JsNullish t)) ->
  throwsOnly notNullish (UpdateProjectHandler.body client args).
Proof.
  intros Hp Hu. unfold UpdateProjectHandler.body.
  apply throwsOnly_bind.
  { apply throwsOnly_await. intros h e He. destruct e; try exact I.
    now destruct (Hp _ _ _ He). }
  intros [|found more]; [apply throwsOnly_throw; exact I|].
  apply throwsOnly_bind.
  { apply throwsOnly_await. intros h e He. destruct e; try exact I.
    now destruct (Hu _ _ _ _ He). }
  intro payload. destruct (negb _); [apply throwsOnly_throw; exact I|].
  apply throwsOnly_bind; [|intro; apply throwsOnly_ret].
  unfold UpdateProjectHandler.fetchTeams.
  destruct (project_teamIds (ppayload_project payload)) as [[|t ts]|];
    try apply throwsOnly_ret.
  apply throwsOnly_tryCatch. intro e. throws_with idtac.
Qed.

End NotNullish.

(** X7. What the handlers throw. A failure of get-ticket and of
    get-projects is an [McpError], whatever the tracker answers or rejects
    with. A failure of update-ticket (both revisions) is an [McpError]
    provided the tracker never rejects an issue update with [null] or
    [undefined], and a failure of update-project provided it never rejects
    a project query or a project update so. When the tracker does reject
    the issue update with [null] or [undefined], update-ticket fails with
    the [TypeError] of its last [catch], which is no [McpError]. *)
Theorem handlers_throw_McpError_only :
  forall (client : LinearClient),
    (forall args, throwsMcpOnly (GetTicketByIdHandler.handleRequest client args))
    /\ (forall args,
           throwsMcpOnly (GetProjectsRequestHandler.handleRequest client args))
    /\ ((forall h id d t, updateIssue client h id d <> Throw (JsNullish t)) ->
        (forall args,
            throwsMcpOnly (UpdateTicketHandler.handleRequest client args))
        /\ (forall mcpMessage args,
               throwsMcpOnly
                 (UpdateTicketDoneHandler.handleRequest mcpMessage client
                    args)))
    /\ ((forall h a t, projects client h a <> Throw (JsNullish t)) ->
        (forall h id d t, updateProject client h id d <> Throw (JsNullish t)) ->
        forall args,
          throwsMcpOnly (UpdateProjectHandler.handleRequest client args))
    /\ (forall args i nodes typeError,
           Js.truthy (UpdateTicketHandler.apiKey args) = true ->
           Js.truthy (UpdateTicketHandler.ticketId args) = true ->
           UpdateTicketHandler.hasUpdateField args = true ->
           UpdateTicketHandler.priorityOutOfRange args = false ->
           issues client []
             {| issues_filter :=
                  UpdateTicketHandler.issuesFilter
                    (UpdateTicketHandler.ticketId args);
                issues_expand := false |} = Return (i :: nodes) ->
           updateIssue client
             [CallIssues
                {| issues_filter :=
                     UpdateTicketHandler.issuesFilter
                       (UpdateTicketHandler.ticketId args);
                   issues_expand := false |}]
             (issue_id i) (UpdateTicketHandler.updateData args)
           = Throw (JsNullish typeError) ->
           fst (run (UpdateTicketHandler.handleRequest client args))
           = Throw (JsError typeError)
           /\ ~ isMcpError (JsError typeError)).
Proof.
  intro client. split; [|split; [|split; [|split]]].
  - intro args. unfold GetTicketByIdHandler.handleRequest.
    destruct (negb _); [apply throw_mcp|].
    destruct (negb _); [apply throw_mcp|].
    apply tryCatch_rethrow_mcp. apply throwsOnly_tryCatch. intros _.
    apply fallbackPath_notNullish.
  - intros args w e. unfold GetProjectsRequestHandler.handleRequest, tryCatch.
    destruct (GetProjectsRequestHandler.body client args w) as [[a|e0] w1];
      [discriminate|].
    destruct e0; simpl; intro H; injection H as <-; exact I.
  - intro Hu. split.
    + intro args. unfold UpdateTicketHandler.handleRequest.
      destruct (negb _); [apply throw_mcp|].
      destruct (negb _); [apply throw_mcp|].
      destruct (negb _); [apply throw_mcp|].
      destruct (UpdateTicketHandler.priorityOutOfRange args);
        [apply throw_mcp|].
      apply tryCatch_rethrow_mcp. now apply updateTicket_notNullish.
    + intros mcpMessage args. unfold UpdateTicketDoneHandler.handleRequest.
      destruct (negb _); [apply throw_mcp|].
      destruct (negb _); [apply throw_mcp|].
      destruct (negb _); [apply throw_mcp|].
      destruct (UpdateTicketHandler.priorityOutOfRange args);
        [apply throw_mcp|].
      apply tryCatch_rethrow_mcp. now apply updateTicketDone_notNullish.
  - intros Hp Hu args. unfold UpdateProjectHandler.handleRequest.
    destruct (negb _); [apply throw_mcp|].
    destruct (negb _); [apply throw_mcp|].
    destruct (negb _); [apply throw_mcp|].
    destruct (UpdateProjectHandler.progressOutOfRange args);
      [apply throw_mcp|].
    apply tryCatch_rethrow_mcp. now apply updateProject_notNullish.
  - intros args i nodes typeError H1 H2 H3 H4 Hi Hu.
    split; [|exact (fun f => f)].
    rewrite (updateTicket_accepted client args H1 H2 H3 H4).
    pose proof (findIssue_found_update client args world0 i nodes Hi) as F.
    unfold world0 in F. cbn [calls console app] in F.
    unfold run, tryCatch, UpdateTicketHandler.body.
    rewrite (bind_return _ _ _ _ _ F).
    unfold bind, UpdateTicketHandler.applyUpdate, bind, await.
    cbn [calls console]. rewrite Hu. reflexivity.
Qed.

Lemma handlers_throw_McpError_only_witness :
  (forall args,
      throwsMcpOnly
        (UpdateTicketHandler.handleRequest Fixture.rejectingUpdate args))
  /\ fst (run (UpdateTicketHandler.handleRequest Fixture.nullUpdate
                 (Sample.updateArgs "ABC-7" None (Some (1#1)))))
     = Throw (JsError "Cannot read properties of null (reading 'message')").
Proof.
  split.
  - apply (proj1 (proj2 (proj2 (handlers_throw_McpError_only
                                  Fixture.rejectingUpdate)))).
    intros; discriminate.
  - exact (proj1 (proj2 (proj2 (proj2 (proj2 (handlers_throw_McpError_only
                                               Fixture.nullUpdate))))
                    (Sample.updateArgs "ABC-7" None (Some (1#1)))
                    Sample.issue7 [] Fixture.nullMessage
                    eq_refl eq_refl eq_refl eq_refl eq_refl eq_refl)).
Defined.

(** ** The failures of get-ticket *)

Section GetTicketFailures.

Import GetTicketByIdHandler.

Variables (client : LinearClient) (args : GetTicketByIdArgs).

Lemma findIssue_throws (p : Parsed) (w w' : World) (e : exn) :
  findIssue client args p w = (Throw e, w') ->
  e = McpError InternalError ("Could not find ticket: " ++ ticketId args).
Proof.
  unfold findIssue, tryCatch, bind, await, firstIssue, log, throw.
  cbv beta iota zeta.
  destruct (issues client (calls w) _) as [[|i nodes]|e0];
    intro H; try discriminate H; now injection H as <-.
Qed.

Lemma fallbackPath_throws (p : Parsed) (w w' : World) (e : exn) :
  fallbackPath client args p w = (Throw e, w') ->
  e = McpError InternalError ("Could not find ticket: " ++ ticketId args).
Proof.
  unfold fallbackPath. unfold bind at 1.
  destruct (findIssue client args p w) as [[i|e0] w1] eqn:F.
  - unfold bind at 1.
    destruct (fetchAssignee_total client i w1) as (a & w2 & ->).
    unfold bind at 1.
    destruct (fetchTeam_total client p i w2) as (t & w3 & ->).
    unfold bind at 1.
    destruct (fetchStateById_total client (issue_stateId i) w3)
      as (s & w4 & ->).
    unfold bind at 1.
    destruct (fetchLabels_total client i w4) as (l & w5 & ->).
    discriminate.
  - intro H. injection H as <- _. exact (findIssue_throws p w w1 e0 F).
Qed.

End GetTicketFailures.

(** X8. The failures of get-ticket are three: the two checks of the
    arguments and "Could not find ticket: " with the identifier. A
    rejection of the tracker never reaches the caller with its own message,
    and the wrapper "Failed to retrieve ticket: " of the last [catch] is
    never produced. *)
Theorem getTicket_failures :
  forall (client : LinearClient)
         (args : GetTicketByIdHandler.GetTicketByIdArgs) (e : exn),
    fst (run (GetTicketByIdHandler.handleRequest client args)) = Throw e ->
    e = McpError InvalidParams "Linear API key is required"
    \/ e = McpError InvalidParams "Ticket ID or key is required"
    \/ e = McpError InternalError
             ("Could not find ticket: " ++ GetTicketByIdHandler.ticketId args).
Proof.
  intros client args e. unfold run, GetTicketByIdHandler.handleRequest.
  destruct (Js.truthy (GetTicketByIdHandler.apiKey args)); cbn [negb].
  2:{ intro H. injection H as <-. now left. }
  destruct (Js.truthy (GetTicketByIdHandler.ticketId args)); cbn [negb].
  2:{ intro H. injection H as <-. right. now left. }
  unfold tryCatch.
  destruct (GetTicketByIdHandler.graphqlPath client args _ world0)
    as [[r|e0] w1]; [discriminate|].
  destruct (GetTicketByIdHandler.fallbackPath client args _ w1)
    as [[r|e1] w2] eqn:F; [discriminate|].
  rewrite (fallbackPath_throws client args _ _ _ _ F).
  intro H. injection H as <-. right. now right.
Qed.

Lemma getTicket_failures_witness :
  McpError InternalError "Could not find ticket: ABC-7"
  = McpError InvalidParams "Linear API key is required"
  \/ McpError InternalError "Could not find ticket: ABC-7"
     = McpError InvalidParams "Ticket ID or key is required"
  \/ McpError InternalError "Could not find ticket: ABC-7"
     = McpError InternalError "Could not find ticket: ABC-7".
Proof.
  exact (getTicket_failures Sample.unreachable (Sample.getArgs "ABC-7") _
           eq_refl).
Defined.

(** ** The labels of a ticket *)

Section Labels.

Import GetTicketByIdHandler.

Variable client : LinearClient.

Lemma lookupLabel_id (allLabels : list IssueLabel) (labelId : string) :
  label_id (lookupLabel allLabels labelId) = labelId.
Proof.
  unfold lookupLabel.
  destruct (find _ allLabels) as [found|] eqn:F; [|reflexivity].
  apply find_some in F. destruct F as [_ F]. now apply String.eqb_eq in F.
Qed.

Lemma map_label_ids (f : string -> IssueLabel) (ids : list string) :
  (forall a, label_id (f a) = a) -> map label_id (map f ids) = ids.
Proof.
  intro H. rewrite map_map. rewrite <- (map_id ids) at 2.
  apply map_ext. exact H.
Qed.

Lemma fetchLabels_ids (i : Issue) (w w' : World) (l : list IssueLabel) :
  fetchLabels client i w = (Return l, w') ->
  map label_id l
  = match issue_labelIds i with Some ids => ids | None => [] end.
Proof.
  unfold fetchLabels, tryCatch, bind, await, log, ret.
  destruct (issue_labelIds i) as [[|x xs]|];
    try (intro H; injection H as <- _; reflexivity).
  cbv beta iota.
  destruct (issueLabels client (calls w)) as [allLabels|e];
    intro H; injection H as <- _.
  - exact (map_label_ids (lookupLabel allLabels) (x :: xs)
             (lookupLabel_id allLabels)).
  - exact (map_label_ids unknownLabel (x :: xs) (fun a => eq_refl)).
Qed.

Lemma fallbackPath_labels (args : GetTicketByIdArgs) (p : Parsed)
  (w w' : World) (r : TicketResponse) :
  fallbackPath client args p w = (Return r, w') ->
  exists (i : Issue) (w1 : World),
    findIssue client args p w = (Return i, w1)
    /\ id r = issue_id i
    /\ map label_id (labels r)
       = match issue_labelIds i with Some ids => ids | None => [] end.
Proof.
  unfold fallbackPath, bind. intro H.
  destruct (findIssue client args p w) as [[i|e] w1]; [|discriminate].
  destruct (fetchAssignee client i w1) as [[a|e] w2]; [|discriminate].
  destruct (fetchTeam client p i w2) as [[t|e] w3]; [|discriminate].
  destruct (fetchStateById client (issue_stateId i) w3) as [[s|e] w4];
    [|discriminate].
  destruct (fetchLabels client i w4) as [[l|e] w5] eqn:L; [|discriminate].
  unfold ret in H. injection H as <- _. exists i, w1.
  split; [reflexivity|]. split; [reflexivity|].
  exact (fetchLabels_ids i _ _ _ L).
Qed.

Lemma findIssue_returns (args : GetTicketByIdArgs) (p : Parsed) (w w' : World)
  (i : Issue) :
  findIssue client args p w = (Return i, w') ->
  exists nodes,
    issues client (calls w)
      {| issues_filter := issuesFilter args p; issues_expand := true |}
    = Return (i :: nodes).
Proof.
  unfold findIssue, tryCatch, bind, await, firstIssue, log, throw, ret.
  cbv beta iota zeta.
  destruct (issues client (calls w) _) as [[|j nodes]|e];
    intro H; try discriminate H. injection H as <- _. now exists nodes.
Qed.

End Labels.

(** X9. The labels of a ticket that the fallback path of get-ticket
    returns: one label for every label id of the issue, in the order of the
    ids and with these ids, whether the label catalog knows the id, does
    not know it, or could not be fetched. *)
Theorem getTicket_labels_follow_ids :
  forall (client : LinearClient)
         (args : GetTicketByIdHandler.GetTicketByIdArgs)
         (r : GetTicketByIdHandler.TicketResponse) (w : World),
    Js.truthy (GetTicketByIdHandler.apiKey args) = true ->
    Js.truthy (GetTicketByIdHandler.ticketId args) = true ->
    (forall resp,
        _request client []
          (GetTicketByIdHandler.query
             (GetTicketByIdHandler.parse (GetTicketByIdHandler.ticketId args)))
        = Return resp ->
        GetTicketByIdHandler.responseIssue resp = None) ->
    run (GetTicketByIdHandler.handleRequest client args) = (Return r, w) ->
    exists i nodes,
      issues client
        [CallRequest
           (GetTicketByIdHandler.query
              (GetTicketByIdHandler.parse (GetTicketByIdHandler.ticketId args)))]
        {| issues_filter :=
             GetTicketByIdHandler.issuesFilter args
               (GetTicketByIdHandler.parse (GetTicketByIdHandler.ticketId args));
           issues_expand := true |} = Return (i :: nodes)
      /\ GetTicketByIdHandler.id r = issue_id i
      /\ map label_id (GetTicketByIdHandler.labels r)
         = match issue_labelIds i with Some ids => ids | None => [] end.
Proof.
  intros client args r w H1 H2 Hraw.
  destruct (graphqlPath_throws client args Hraw) as [e G].
  rewrite (handleRequest_fallback client args H1 H2 e _ G).
  unfold tryCatch.
  destruct (GetTicketByIdHandler.fallbackPath client args _ _)
    as [[r0|e0] w0] eqn:F.
  - intro H. injection H as <- <-.
    destruct (fallbackPath_labels client args _ _ _ _ F)
      as (i & w1 & Hf & Hid & Hl).
    destruct (findIssue_returns client args _ _ _ _ Hf) as [nodes Hn].
    now exists i, nodes.
  - intro H. now apply rethrow_never_returns in H.
Qed.

Lemma getTicket_labels_follow_ids_witness :
  exists r w,
    run (GetTicketByIdHandler.handleRequest (Fixture.withProject "none")
           (Sample.getArgs "ABC-7")) = (Return r, w)
    /\ GetTicketByIdHandler.labels r
       = [mkLabel "label-1" "Unknown" "#cccccc";
          mkLabel "label-2" "bug" "#cccccc"]
    /\ map label_id (GetTicketByIdHandler.labels r) = ["label-1"; "label-2"].
Proof.
  eexists. eexists. split; [reflexivity|]. split; [reflexivity|].
  destruct (getTicket_labels_follow_ids (Fixture.withProject "none")
              (Sample.getArgs "ABC-7") _ _ eq_refl eq_refl
              (fun resp (E : Throw Sample.down = Return resp) =>
                 False_ind _ (eq_ind (Throw Sample.down)
                                (fun o => match o with
                                          | Throw _ => True
                                          | Return _ => False
                                          end) I _ E))
              eq_refl)
    as (i & nodes & Hi & _ & Hl).
  injection Hi as <- _. exact Hl.
Defined.

(** ** How many calls a request costs *)

Section AddsAtMost.

Context {A B : Type}.

Lemma atMost_ret (n : nat) (a : A) : addsAtMost n (ret a).
Proof. intro w. exists []. rewrite app_nil_r. split; [reflexivity | simpl; lia]. Qed.

Lemma atMost_throw (n : nat) (e : exn) : addsAtMost n (@throw A e).
Proof. intro w. exists []. rewrite app_nil_r. split; [reflexivity | simpl; lia]. Qed.

Lemma atMost_await (c : Call) (f : list Call -> Outcome A) :
  addsAtMost 1 (await c f).
Proof. intro w. exists [c]. split; [reflexivity | simpl; lia]. Qed.

Lemma atMost_bind (n1 n2 : nat) (m : M A) (k : A -> M B) :
  addsAtMost n1 m -> (forall a, addsAtMost n2 (k a)) ->
  addsAtMost (n1 + n2) (bind m k).
Proof.
  intros Hm Hk w. unfold bind. destruct (Hm w) as (l1 & E1 & L1).
  destruct (m w) as [[a|e] w1]; cbn [snd] in *.
  - destruct (Hk a w1) as (l2 & E2 & L2). exists (l1 ++ l2)%list.
    rewrite E2, E1, app_assoc, length_app. split; [reflexivity | lia].
  - exists l1. split; [exact E1 | lia].
Qed.

Lemma atMost_tryCatch (n1 n2 : nat) (m : M A) (h : exn -> M A) :
  addsAtMost n1 m -> (forall e, addsAtMost n2 (h e)) ->
  addsAtMost (n1 + n2) (tryCatch m h).
Proof.
  intros Hm Hh w. unfold tryCatch. destruct (Hm w) as (l1 & E1 & L1).
  destruct (m w) as [[a|e] w1]; cbn [snd] in *.
  - exists l1. split; [exact E1 | lia].
  - destruct (Hh e w1) as (l2 & E2 & L2). exists (l1 ++ l2)%list.
    rewrite E2, E1, app_assoc, length_app. split; [reflexivity | lia].
Qed.

End AddsAtMost.

Lemma atMost_log (n : nat) (l : LogEntry) : addsAtMost n (log l).
Proof. intro w. exists []. rewrite app_nil_r. split; [reflexivity | simpl; lia]. Qed.

Lemma atMost_rethrow {A : Type} (label prefix : string) (e : exn) :
  addsAtMost 0 (@rethrow A label prefix e).
Proof.
  destruct e; simpl; try apply atMost_throw;
    (apply (atMost_bind 0 0); [apply atMost_log | intros; apply atMost_throw]).
Qed.

(** A lookup guarded by one [try]: the call, then a reshaping that calls
    nothing, with a [catch] that only logs. *)
Ltac one_call :=
  repeat first
    [ apply atMost_ret | apply atMost_throw | apply atMost_log
    | apply atMost_await
    | match goal with
      | |- addsAtMost 1 (tryCatch _ _) => apply (atMost_tryCatch 1 0); [|intros]
      | |- addsAtMost 1 (bind _ _) => apply (atMost_bind 1 0); [|intros]
      | |- addsAtMost 0 (bind _ _) => apply (atMost_bind 0 0); [|intros]
      | |- addsAtMost _ (match ?x with _ => _ end) => destruct x
      | |- addsAtMost _ (if ?x then _ else _) => destruct x
      end ].

Section CallBudget.

Variable client : LinearClient.

Lemma atMost_fetchTeamById (t : option string) :
  addsAtMost 1 (fetchTeamById client t).
Proof. unfold fetchTeamById. one_call. Qed.

Lemma atMost_fetchStateById (s : option string) :
  addsAtMost 1 (fetchStateById client s).
Proof. unfold fetchStateById. one_call. Qed.

Lemma atMost_getTicket (args : GetTicketByIdHandler.GetTicketByIdArgs) :
  addsAtMost 6 (GetTicketByIdHandler.handleRequest client args).
Proof.
  unfold GetTicketByIdHandler.handleRequest.
  destruct (negb _); [apply atMost_throw|].
  destruct (negb _); [apply atMost_throw|].
  apply (atMost_tryCatch 6 0); [|intro; apply atMost_rethrow].
  apply (atMost_tryCatch 1 5).
  - unfold GetTicketByIdHandler.graphqlPath. one_call.
  - intros _. unfold GetTicketByIdHandler.fallbackPath.
    apply (atMost_bind 1 4).
    { unfold GetTicketByIdHandler.findIssue,
        GetTicketByIdHandler.firstIssue. one_call. }
    intro i. apply (atMost_bind 1 3).
    { unfold GetTicketByIdHandler.fetchAssignee. one_call. }
    intro a. apply (atMost_bind 1 2).
    { unfold GetTicketByIdHandler.fetchTeam.
      destruct (Js.truthyOpt _); [apply atMost_fetchTeamById | one_call]. }
    intro t. apply (atMost_bind 1 1); [apply atMost_fetchStateById|].
    intro s. apply (atMost_bind 1 0); [|intros; apply atMost_ret].
    unfold GetTicketByIdHandler.fetchLabels. one_call.
Qed.

Lemma atMost_findIssue (tid : string) :
  addsAtMost 1 (UpdateTicketHandler.findIssue client tid).
Proof.
  unfold UpdateTicketHandler.findIssue, UpdateTicketHandler.firstIssue.
  one_call.
Qed.

Lemma atMost_applyUpdate (tid : string) (i : Issue) (d : IssueUpdate) :
  addsAtMost 1 (UpdateTicketHandler.applyUpdate client tid i d).
Proof. unfold UpdateTicketHandler.applyUpdate. one_call. Qed.

Lemma atMost_updateTicket (args : UpdateTicketHandler.UpdateTicketArgs) :
  addsAtMost 3 (UpdateTicketHandler.handleRequest client args).
Proof.
  unfold UpdateTicketHandler.handleRequest.
  destruct (negb _); [apply atMost_throw|].
  destruct (negb _); [apply atMost_throw|].
  destruct (negb _); [apply atMost_throw|].
  destruct (UpdateTicketHandler.priorityOutOfRange args);
    [apply atMost_throw|].
  apply (atMost_tryCatch 3 0); [|intro; apply atMost_rethrow].
  unfold UpdateTicketHandler.body.
  apply (atMost_bind 1 2); [apply atMost_findIssue|]. intro i.
  apply (atMost_bind 1 1); [apply atMost_applyUpdate|]. intro u.
  apply (atMost_bind 1 0); [apply atMost_fetchTeamById|].
  intros; apply atMost_ret.
Qed.

Lemma atMost_resolveState (mcpMessage : ErrorCode -> string -> string)
  (args : UpdateTicketHandler.UpdateTicketArgs) (i : Issue) :
  addsAtMost 2 (UpdateTicketDoneHandler.resolveState mcpMessage client args i).
Proof.
  unfold UpdateTicketDoneHandler.resolveState.
  destruct (UpdateTicketDoneHandler.wantsDone args); [|apply atMost_ret].
  apply (atMost_tryCatch 2 0).
  2:{ intro e.
      destruct (UpdateTicketDoneHandler.errorMessage mcpMessage e);
        apply atMost_throw. }
  apply (atMost_bind 2 0); [|intros; apply atMost_ret].
  unfold UpdateTicketDoneHandler.findDoneState.
  apply (atMost_bind 1 1).
  - unfold UpdateTicketDoneHandler.effectiveTeamId. one_call.
  - intros [teamId|]; [|apply atMost_throw].
    destruct (Js.truthy teamId); [|apply atMost_throw]. one_call.
Qed.

Lemma atMost_updateTicketDone (mcpMessage : ErrorCode -> string -> string)
  (args : UpdateTicketHandler.UpdateTicketArgs) :
  addsAtMost 6 (UpdateTicketDoneHandler.handleRequest mcpMessage client args).
Proof.
  unfold UpdateTicketDoneHandler.handleRequest.
  destruct (negb _); [apply atMost_throw|].
  destruct (negb _); [apply atMost_throw|].
  destruct (negb _); [apply atMost_throw|].
  destruct (UpdateTicketHandler.priorityOutOfRange args);
    [apply atMost_throw|].
  apply (atMost_tryCatch 6 0); [|intro; apply atMost_rethrow].
  unfold UpdateTicketDoneHandler.body.
  apply (atMost_bind 1 5); [apply atMost_findIssue|]. intro i.
  apply (atMost_bind 2 3); [apply atMost_resolveState|]. intro d.
  apply (atMost_bind 1 2); [apply atMost_applyUpdate|]. intro u.
  apply (atMost_bind 1 1); [apply atMost_fetchTeamById|]. intro t.
  apply (atMost_bind 1 0); [apply atMost_fetchStateById|].
  intros; apply atMost_ret.
Qed.

Lemma atMost_getProjects (args : GetProjectsRequestHandler.GetProjectsArgs) :
  addsAtMost 1 (GetProjectsRequestHandler.handleRequest client args).
Proof.
  unfold GetProjectsRequestHandler.handleRequest.
  apply (atMost_tryCatch 1 0).
  - unfold GetProjectsRequestHandler.body.
    destruct (negb _); [apply atMost_throw|].
    apply (atMost_bind 1 0); [|intros; apply atMost_ret].
    unfold GetProjectsRequestHandler.fetchProjects.
    destruct (Js.truthyOpt _); one_call.
  - intros [c m|m|m|t]; [apply atMost_throw| | |];
      (apply (atMost_bind 0 0); [apply atMost_log | intros; apply atMost_throw]).
Qed.

End CallBudget.

(** X10. The cost of a request in remote calls, whatever the tracker
    answers: get-ticket makes at most 6 calls (the labels of an issue cost
    one call, not one for each label), update-ticket at most 3, its
    revision that resolves "done" at most 6, and get-projects at most 1. *)
Theorem handlers_call_budget :
  forall (client : LinearClient),
    (forall args,
        (length (calls (snd (run (GetTicketByIdHandler.handleRequest client
                                    args)))) <= 6)%nat)
    /\ (forall args,
           (length (calls (snd (run (UpdateTicketHandler.handleRequest client
                                       args)))) <= 3)%nat)
    /\ (forall mcpMessage args,
           (length (calls (snd (run (UpdateTicketDoneHandler.handleRequest
                                       mcpMessage client args)))) <= 6)%nat)
    /\ (forall args,
           (length (calls (snd (run (GetProjectsRequestHandler.handleRequest
                                       client args)))) <= 1)%nat).
Proof.
  intro client. repeat split; intros; unfold run.
  - destruct (atMost_getTicket client args world0) as (l & -> & L). exact L.
  - destruct (atMost_updateTicket client args world0) as (l & -> & L). exact L.
  - destruct (atMost_updateTicketDone client mcpMessage args world0)
      as (l & -> & L). exact L.
  - destruct (atMost_getProjects client args world0) as (l & -> & L). exact L.
Qed.

(** ** The runs of update-ticket *)

Section UpdateTicketRuns.

Import UpdateTicketHandler.

Variables (client : LinearClient) (args : UpdateTicketArgs).

Hypothesis HapiKey : Js.truthy (apiKey args) = true.
Hypothesis HticketId : Js.truthy (ticketId args) = true.
Hypothesis Hfield : hasUpdateField args = true.
Hypothesis Hpriority : priorityOutOfRange args = false.

(** The team lookup after the update: at most one call, no failure; the
    team is the first one that the tracker finds by the id, reshaped. *)
Lemma fetchTeamById_run (t : option string) (w : World) :
  exists lg,
    fetchTeamById client t w
    = (Return
         match t with
         | Some id =>
             if Js.truthy id then
               match teams client (calls w) (TeamById id) with
               | Return (found :: _) => Some (formatTeam "TEAM" found)
               | _ => None
               end
             else None
         | None => None
         end,
       {| calls :=
            (calls w
             ++ match t with
                | Some id => if Js.truthy id then [CallTeams (TeamById id)]
                             else []
                | None => []
                end)%list;
          console := (console w ++ lg)%list |}).
Proof.
  unfold fetchTeamById, tryCatch, bind, await, log, ret.
  destruct t as [id|].
  - destruct (Js.truthy id).
    + cbv beta iota.
      destruct (teams client (calls w) (TeamById id)) as [[|x nodes]|e].
      * exists []. now rewrite app_nil_r.
      * exists []. now rewrite app_nil_r.
      * eexists. reflexivity.
    + exists []. rewrite !app_nil_r. now destruct w.
  - exists []. rewrite !app_nil_r. now destruct w.
Qed.

Lemma updateTicket_lookup_rejected_run (e : exn) :
  issues client []
    {| issues_filter := issuesFilter (ticketId args);
       issues_expand := false |} = Throw e ->
  run (handleRequest client args)
  = (Throw (McpError InternalError ("Could not find ticket: " ++ ticketId args)),
     {| calls := [CallIssues {| issues_filter := issuesFilter (ticketId args);
                                issues_expand := false |}];
        console := [ConsoleError "Error finding ticket:" e] |}).
Proof.
  intro Hi.
  rewrite (updateTicket_accepted client args HapiKey HticketId Hfield
             Hpriority).
  unfold run, tryCatch, body, bind, findIssue, tryCatch, bind, await.
  cbn [calls console world0]. rewrite Hi. reflexivity.
Qed.

Lemma updateTicket_update_run (i : Issue) (nodes : list Issue) :
  issues client []
    {| issues_filter := issuesFilter (ticketId args);
       issues_expand := false |} = Return (i :: nodes) ->
  run (handleRequest client args)
  = tryCatch
      (updatedIssue <- applyUpdate client (ticketId args) i (updateData args) ;;
       team <- fetchTeamById client (issue_teamId updatedIssue) ;;
       ret {| success := true;
              message := "Ticket updated successfully";
              ticket :=
                {| t_id := issue_id updatedIssue;
                   t_title := issue_title updatedIssue;
                   t_description := issue_description updatedIssue;
                   t_number := issue_number updatedIssue;
                   t_key := ticketKey (issue_key updatedIssue) team
                              (issue_number updatedIssue);
                   t_updatedAt := issue_updatedAt updatedIssue;
                   t_url := issue_url updatedIssue |} |})
      (rethrow "Error updating ticket:" "Failed to update ticket: ")
      {| calls := [CallIssues {| issues_filter := issuesFilter (ticketId args);
                                 issues_expand := false |}];
         console := [] |}.
Proof.
  intro Hi.
  rewrite (updateTicket_accepted client args HapiKey HticketId Hfield
             Hpriority).
  pose proof (findIssue_found_update client args world0 i nodes Hi) as F.
  unfold world0 in F. cbn [calls console app] in F.
  unfold run, tryCatch, body. now rewrite (bind_return _ _ _ _ _ F).
Qed.

End UpdateTicketRuns.

(** X11. update-ticket when the tracker rejects the issue lookup: the
    request fails with "Could not find ticket: " and the identifier, the
    same message as for zero matches; the rejection itself only goes to
    the console, and the lookup is the only call. *)
Theorem updateTicket_lookup_rejected :
  forall (client : LinearClient) (args : UpdateTicketHandler.UpdateTicketArgs)
         (e : exn),
    Js.truthy (UpdateTicketHandler.apiKey args) = true ->
    Js.truthy (UpdateTicketHandler.ticketId args) = true ->
    UpdateTicketHandler.hasUpdateField args = true ->
    UpdateTicketHandler.priorityOutOfRange args = false ->
    issues client []
      {| issues_filter :=
           UpdateTicketHandler.issuesFilter (UpdateTicketHandler.ticketId args);
         issues_expand := false |} = Throw e ->
    run (UpdateTicketHandler.handleRequest client args)
    = (Throw (McpError InternalError
                ("Could not find ticket: " ++ UpdateTicketHandler.ticketId args)),
       {| calls :=
            [CallIssues
               {| issues_filter :=
                    UpdateTicketHandler.issuesFilter
                      (UpdateTicketHandler.ticketId args);
                  issues_expand := false |}];
          console := [ConsoleError "Error finding ticket:" e] |}).
Proof.
  intros client args e H1 H2 H3 H4 Hi.
  exact (updateTicket_lookup_rejected_run client args H1 H2 H3 H4 e Hi).
Qed.

Lemma updateTicket_lookup_rejected_witness :
  run (UpdateTicketHandler.handleRequest Sample.unreachable
         (Sample.updateArgs "ABC-7" None (Some (1#1))))
  = (Throw (McpError InternalError "Could not find ticket: ABC-7"),
     {| calls :=
          [CallIssues {| issues_filter := IssueByTeamKeyAndNumber "ABC" (Some 7);
                         issues_expand := false |}];
        console := [ConsoleError "Error finding ticket:" Sample.down] |}).
Proof.
  exact (updateTicket_lookup_rejected Sample.unreachable
           (Sample.updateArgs "ABC-7" None (Some (1#1))) Sample.down
           eq_refl eq_refl eq_refl eq_refl eq_refl).
Defined.



(** X13. update-ticket after a successful update: the request returns,
    whatever the team lookup answers; the ticket of the answer is the issue
    that the tracker returned from the update (its id, title, number). Its
    key is the native key of that issue when it carries one; otherwise it
    is derived from the team that the lookup by the issue's team id found
    (the first team of the answer, with "TEAM" for an empty key), and it is
    "ISSUE-" and the number when the issue has no team id or the lookup
    finds nothing or is rejected. The team is looked up only when the
    updated issue has a team id, and nothing else is called. *)
Theorem updateTicket_success :
  forall (client : LinearClient) (args : UpdateTicketHandler.UpdateTicketArgs)
         (i : Issue) (nodes : list Issue) (payload : IssuePayload),
    Js.truthy (UpdateTicketHandler.apiKey args) = true ->
    Js.truthy (UpdateTicketHandler.ticketId args) = true ->
    UpdateTicketHandler.hasUpdateField args = true ->
    UpdateTicketHandler.priorityOutOfRange args = false ->
    issues client []
      {| issues_filter :=
           UpdateTicketHandler.issuesFilter (UpdateTicketHandler.ticketId args);
         issues_expand := false |} = Return (i :: nodes) ->
    updateIssue client
      [CallIssues
         {| issues_filter :=
              UpdateTicketHandler.issuesFilter
                (UpdateTicketHandler.ticketId args);
            issues_expand := false |}]
      (issue_id i) (UpdateTicketHandler.updateData args) = Return payload ->
    ipayload_success payload = true ->
    exists w,
      run (UpdateTicketHandler.handleRequest client args)
      = (Return
           {| UpdateTicketHandler.success := true;
              UpdateTicketHandler.message := "Ticket updated successfully";
              UpdateTicketHandler.ticket :=
                {| UpdateTicketHandler.t_id := issue_id (ipayload_issue payload);
                   UpdateTicketHandler.t_title :=
                     issue_title (ipayload_issue payload);
                   UpdateTicketHandler.t_description :=
                     issue_description (ipayload_issue payload);
                   UpdateTicketHandler.t_number :=
                     issue_number (ipayload_issue payload);
                   UpdateTicketHandler.t_key :=
                     match issue_key (ipayload_issue payload) with
                     | Some (String c k) => String c k
                     | _ =>
                         match issue_teamId (ipayload_issue payload) with
                         | Some (String c id) =>
                             match
                               teams client
                                 [CallIssues
                                    {| issues_filter :=
                                         UpdateTicketHandler.issuesFilter
                                           (UpdateTicketHandler.ticketId args);
                                       issues_expand := false |};
                                  CallUpdateIssue (issue_id i)
                                    (UpdateTicketHandler.updateData args)]
                                 (TeamById (String c id))
                             with
                             | Return (found :: _) =>
                                 Js.orElse (team_key found) "TEAM" ++ "-"
                                 ++ Js.numberToString
                                      (issue_number (ipayload_issue payload))
                             | _ =>
                                 "ISSUE-"
                                 ++ Js.numberToString
                                      (issue_number (ipayload_issue payload))
                             end
                         | _ =>
                             "ISSUE-"
                             ++ Js.numberToString
                                  (issue_number (ipayload_issue payload))
                         end
                     end;
                   UpdateTicketHandler.t_updatedAt :=
                     issue_updatedAt (ipayload_issue payload);
                   UpdateTicketHandler.t_url :=
                     issue_url (ipayload_issue payload) |} |}, w)
      /\ calls w
         = (CallIssues
              {| issues_filter :=
                   UpdateTicketHandler.issuesFilter
                     (UpdateTicketHandler.ticketId args);
                 issues_expand := false |}
            :: CallUpdateIssue (issue_id i)
                 (UpdateTicketHandler.updateData args)
            :: match issue_teamId (ipayload_issue payload) with
               | Some id =>
                   if Js.truthy id then [CallTeams (TeamById id)] else []
               | None => []
               end)%list.
Proof.
  intros client args i nodes payload H1 H2 H3 H4 Hi Hu Hs.
  rewrite (updateTicket_update_run client args H1 H2 H3 H4 i nodes Hi).
  unfold tryCatch. unfold bind at 1.
  unfold UpdateTicketHandler.applyUpdate, bind at 1, await.
  cbn [calls console app]. rewrite Hu, Hs. cbn [negb]. unfold ret at 1.
  unfold bind.
  match goal with
  | |- context [fetchTeamById client ?t ?v] =>
      destruct (fetchTeamById_run client t v) as (lg & ->)
  end.
  cbn [calls console app]. unfold ret. eexists.
  split; [apply (f_equal2 pair); [|reflexivity] | reflexivity].
  do 3 f_equal. unfold ticketKey.
  destruct (issue_key (ipayload_issue payload)) as [[|c k]|];
    cbn [Js.truthyOpt Js.truthy]; try reflexivity;
    (destruct (issue_teamId (ipayload_issue payload)) as [[|c' id]|];
     cbn [Js.truthy]; try reflexivity;
     destruct (teams client _ (TeamById (String c' id))) as [[|found more]|e];
     reflexivity).
Qed.

Lemma updateTicket_success_witness :
  exists r w,
    run (UpdateTicketHandler.handleRequest Sample.withDoneState
           (Sample.updateArgs "ABC-7" None (Some (1#1)))) = (Return r, w)
    /\ UpdateTicketHandler.t_key (UpdateTicketHandler.ticket r) = "ABC-7"
    /\ calls w
       = [CallIssues {| issues_filter := IssueByTeamKeyAndNumber "ABC" (Some 7);
                        issues_expand := false |};
          CallUpdateIssue "9f2c"
            (UpdateTicketHandler.updateData
               (Sample.updateArgs "ABC-7" None (Some (1#1))));
          CallTeams (TeamById "team-42")].
Proof.
  destruct (updateTicket_success Sample.withDoneState
              (Sample.updateArgs "ABC-7" None (Some (1#1))) Sample.issue7 [] _
              eq_refl eq_refl eq_refl eq_refl eq_refl eq_refl eq_refl)
    as (w & R & C).
  eexists. exists w. split; [exact R|]. split; [reflexivity | exact C].
Defined.

(** ** What the revision that resolves "done" sends *)



Section DoneUpdates.

Import UpdateTicketHandler.

Variables (mcpMessage : ErrorCode -> string -> string)
          (client : LinearClient) (args : UpdateTicketArgs).







End DoneUpdates.







(** ** More on the list of projects *)

(** X16. get-projects with a search term: the run depends on the term
    only through its lower-cased form, and not at all on the status; the
    status filter is not sent with a search. *)
Theorem getProjects_search_ignores_case_and_status :
  forall (client : LinearClient) (key term term' : string)
         (status status' : option string) (limit : option Q),
    Js.truthy term = true ->
    Js.toLowerCase term = Js.toLowerCase term' ->
    run (GetProjectsRequestHandler.handleRequest client
           {| GetProjectsRequestHandler.apiKey := key;
              GetProjectsRequestHandler.search := Some term;
              GetProjectsRequestHandler.status := status;
              GetProjectsRequestHandler.limit := limit |})
    = run (GetProjectsRequestHandler.handleRequest client
             {| GetProjectsRequestHandler.apiKey := key;
                GetProjectsRequestHandler.search := Some term';
                GetProjectsRequestHandler.status := status';
                GetProjectsRequestHandler.limit := limit |}).
Proof.
  intros client key term term' status status' limit Ht Hl.
  assert (Ht' : Js.truthy term' = true).
  { destruct term' as [|c r]; [|reflexivity].
    destruct term; [discriminate Ht | discriminate Hl]. }
  unfold run, GetProjectsRequestHandler.handleRequest,
    GetProjectsRequestHandler.body, GetProjectsRequestHandler.fetchProjects,
    GetProjectsRequestHandler.effectiveLimit.
  cbn [GetProjectsRequestHandler.apiKey GetProjectsRequestHandler.search
       GetProjectsRequestHandler.status GetProjectsRequestHandler.limit
       Js.truthyOpt].
  now rewrite Ht, Ht', Hl.
Qed.

Lemma getProjects_search_ignores_case_and_status_witness :
  run (GetProjectsRequestHandler.handleRequest Sample.withProjects
         {| GetProjectsRequestHandler.apiKey := "lin_api_key";
            GetProjectsRequestHandler.search := Some "TEST";
            GetProjectsRequestHandler.status := Some "planned";
            GetProjectsRequestHandler.limit := None |})
  = run (GetProjectsRequestHandler.handleRequest Sample.withProjects
           {| GetProjectsRequestHandler.apiKey := "lin_api_key";
              GetProjectsRequestHandler.search := Some "test";
              GetProjectsRequestHandler.status := None;
              GetProjectsRequestHandler.limit := None |}).
Proof.
  exact (getProjects_search_ignores_case_and_status Sample.withProjects
           "lin_api_key" "TEST" "test" (Some "planned") None None
           eq_refl eq_refl).
Defined.

(** The state filter of a request: the status itself when it is one of the
    five keys of the table, a member of [Object.prototype] when the status
    is the name of one, and none otherwise. *)
Lemma stateFilter_spec (args : GetProjectsRequestHandler.GetProjectsArgs) :
  (forall t,
      GetProjectsRequestHandler.stateFilter args = Some (StateType t)
      <-> (GetProjectsRequestHandler.status args = Some t
           /\ In t ["planned"; "started"; "paused"; "completed"; "canceled"]))
  /\ (forall m,
         GetProjectsRequestHandler.stateFilter args = Some (InheritedMember m)
         <-> (GetProjectsRequestHandler.status args = Some m
              /\ In m Js.objectPrototypeNames)).
Proof.
  unfold GetProjectsRequestHandler.stateFilter.
  destruct (GetProjectsRequestHandler.status args) as [s|].
  2:{ split; intro x; (split; [discriminate | intros [H _]; discriminate H]). }
  assert (Own : forall t,
             In t ["planned"; "started"; "paused"; "completed"; "canceled"] ->
             Js.truthy t = true
             /\ GetProjectsRequestHandler.statusMap t = Some (StateType t)).
  { intros t Hin. cbn in Hin.
    repeat (destruct Hin as [<-|Hin]; [split; reflexivity|]). destruct Hin. }
  assert (Inh : forall m,
             In m Js.objectPrototypeNames ->
             Js.truthy m = true
             /\ GetProjectsRequestHandler.statusMap m
                = Some (InheritedMember m)).
  { intros m Hin. cbn in Hin.
    repeat (destruct Hin as [<-|Hin]; [split; reflexivity|]). destruct Hin. }
  assert (Map : forall v,
             GetProjectsRequestHandler.statusMap s = Some v ->
             (v = StateType s
              /\ In s ["planned"; "started"; "paused"; "completed"; "canceled"])
             \/ (v = InheritedMember s /\ In s Js.objectPrototypeNames)).
  { intro v. unfold GetProjectsRequestHandler.statusMap.
    destruct (String.eqb s "planned") eqn:E1.
    { apply String.eqb_eq in E1. subst s. intro H. injection H as <-.
      left. split; [reflexivity | cbn; tauto]. }
    destruct (String.eqb s "started") eqn:E2.
    { apply String.eqb_eq in E2. subst s. intro H. injection H as <-.
      left. split; [reflexivity | cbn; tauto]. }
    destruct (String.eqb s "paused") eqn:E3.
    { apply String.eqb_eq in E3. subst s. intro H. injection H as <-.
      left. split; [reflexivity | cbn; tauto]. }
    destruct (String.eqb s "completed") eqn:E4.
    { apply String.eqb_eq in E4. subst s. intro H. injection H as <-.
      left. split; [reflexivity | cbn; tauto]. }
    destruct (String.eqb s "canceled") eqn:E5.
    { apply String.eqb_eq in E5. subst s. intro H. injection H as <-.
      left. split; [reflexivity | cbn; tauto]. }
    destruct (existsb (String.eqb s) Js.objectPrototypeNames) eqn:E6;
      [|discriminate].
    intro H. injection H as <-. right. split; [reflexivity|].
    apply existsb_exists in E6. destruct E6 as (x & Hx & Ex).
    apply String.eqb_eq in Ex. now subst x. }
  split.
  - intro t. split.
    + destruct (Js.truthy s); [|discriminate].
      destruct (GetProjectsRequestHandler.statusMap s) as [v|] eqn:E;
        [|discriminate].
      destruct (Map v eq_refl) as [[-> Hin]|[-> Hin]]; [|discriminate].
      destruct (Js.truthy s); [|discriminate].
      intro H. injection H as <-. now split.
    + intros [H Hin]. injection H as ->.
      destruct (Own t Hin) as [-> ->]. now rewrite (proj1 (Own t Hin)).
  - intro m. split.
    + destruct (Js.truthy s); [|discriminate].
      destruct (GetProjectsRequestHandler.statusMap s) as [v|] eqn:E;
        [|discriminate].
      destruct (Map v eq_refl) as [[-> Hin]|[-> Hin]].
      * destruct (Js.truthy s); discriminate.
      * intro H. injection H as <-. now split.
    + intros [H Hin]. injection H as ->.
      now destruct (Inh m Hin) as [-> ->].
Qed.

(** X17. What get-projects asks of the tracker. Without an API key the
    request fails with "API key is required" and no call is made. With
    one, the handler makes exactly one call, for a first page: of the
    bound (positive and at most 50) with the status filter in the plain
    path; of twice the bound and without any filter when a search term is
    given. The filter is the status itself when the status is one of
    "planned", "started", "paused", "completed", "canceled"; it is a member
    of [Object.prototype], no state type, when the status is the name of
    such a member ("toString", "constructor", ...), because the table of
    the handler is an object literal; for any other status no filter is
    set. *)
Theorem getProjects_single_query :
  forall (client : LinearClient)
         (args : GetProjectsRequestHandler.GetProjectsArgs),
    (Js.truthy (GetProjectsRequestHandler.apiKey args) = false ->
     run (GetProjectsRequestHandler.handleRequest client args)
     = (Throw (McpError InvalidParams "API key is required"), world0))
    /\ (Js.truthy (GetProjectsRequestHandler.apiKey args) = true ->
        ((0 < GetProjectsRequestHandler.effectiveLimit args)%Q
         /\ (GetProjectsRequestHandler.effectiveLimit args <= 50)%Q)
        /\ calls (snd (run (GetProjectsRequestHandler.handleRequest client
                              args)))
           = [CallProjects
                (if Js.truthyOpt (GetProjectsRequestHandler.search args)
                 then {| projects_filter := None;
                         projects_first :=
                           Some (GetProjectsRequestHandler.effectiveLimit args
                                 * (2#1))%Q |}
                 else {| projects_filter :=
                           Some (ProjectByStateType
                                   (GetProjectsRequestHandler.stateFilter args));
                         projects_first :=
                           Some (GetProjectsRequestHandler.effectiveLimit
                                   args) |})]
        /\ (forall t,
               GetProjectsRequestHandler.stateFilter args = Some (StateType t)
               <-> (GetProjectsRequestHandler.status args = Some t
                    /\ In t ["planned"; "started"; "paused"; "completed";
                             "canceled"]))
        /\ (forall m,
               GetProjectsRequestHandler.stateFilter args
               = Some (InheritedMember m)
               <-> (GetProjectsRequestHandler.status args = Some m
                    /\ In m Js.objectPrototypeNames))).
Proof.
  intros client args. split.
  - intro H. unfold run, GetProjectsRequestHandler.handleRequest, tryCatch,
      GetProjectsRequestHandler.body. now rewrite H.
  - intro H. split; [apply effectiveLimit_range|]. split;
      [|apply stateFilter_spec].
    unfold run, GetProjectsRequestHandler.handleRequest, tryCatch,
      GetProjectsRequestHandler.body. rewrite H. cbn [negb].
    unfold bind, GetProjectsRequestHandler.fetchProjects.
    destruct (Js.truthyOpt (GetProjectsRequestHandler.search args)).
    + unfold bind, await. cbv beta iota zeta. cbn [calls console world0 app].
      destruct (projects client [] _) as [nodes|[c m|m|m|t]]; reflexivity.
    + unfold await. cbv beta iota zeta. cbn [calls console world0 app].
      destruct (projects client [] _) as [nodes|[c m|m|m|t]]; reflexivity.
Qed.

Lemma getProjects_single_query_witness :
  calls (snd (run (GetProjectsRequestHandler.handleRequest Sample.withProjects
                     {| GetProjectsRequestHandler.apiKey := "lin_api_key";
                        GetProjectsRequestHandler.search := None;
                        GetProjectsRequestHandler.status := Some "started";
                        GetProjectsRequestHandler.limit := Some (80#1) |})))
  = [CallProjects
       {| projects_filter := Some (ProjectByStateType
                                     (Some (StateType "started")));
          projects_first := Some (50#1) |}]
  /\ calls (snd (run (GetProjectsRequestHandler.handleRequest
                        Sample.withProjects
                        {| GetProjectsRequestHandler.apiKey := "lin_api_key";
                           GetProjectsRequestHandler.search := None;
                           GetProjectsRequestHandler.status := Some "toString";
                           GetProjectsRequestHandler.limit := Some (1#2) |})))
     = [CallProjects
          {| projects_filter := Some (ProjectByStateType
                                        (Some (InheritedMember "toString")));
             projects_first := Some (1#2) |}]
  /\ run (GetProjectsRequestHandler.handleRequest Sample.withProjects
            {| GetProjectsRequestHandler.apiKey := "";
               GetProjectsRequestHandler.search := None;
               GetProjectsRequestHandler.status := None;
               GetProjectsRequestHandler.limit := None |})
     = (Throw (McpError InvalidParams "API key is required"), world0).
Proof.
  split; [|split].
  - exact (proj1 (proj2 (proj2 (getProjects_single_query Sample.withProjects
                                  {| GetProjectsRequestHandler.apiKey :=
                                       "lin_api_key";
                                     GetProjectsRequestHandler.search := None;
                                     GetProjectsRequestHandler.status :=
                                       Some "started";
                                     GetProjectsRequestHandler.limit :=
                                       Some (80#1) |})
                           eq_refl))).
  - exact (proj1 (proj2 (proj2 (getProjects_single_query Sample.withProjects
                                  {| GetProjectsRequestHandler.apiKey :=
                                       "lin_api_key";
                                     GetProjectsRequestHandler.search := None;
                                     GetProjectsRequestHandler.status :=
                                       Some "toString";
                                     GetProjectsRequestHandler.limit :=
                                       Some (1#2) |})
                           eq_refl))).
  - exact (proj1 (getProjects_single_query Sample.withProjects
                    {| GetProjectsRequestHandler.apiKey := "";
                       GetProjectsRequestHandler.search := None;
                       GetProjectsRequestHandler.status := None;
                       GetProjectsRequestHandler.limit := None |}) eq_refl).
Defined.

(** X18. get-projects when the tracker rejects the query: an error is
    logged and reported as "Failed to fetch Linear projects: " followed by
    its message, a thrown value that is no error ([null] and [undefined]
    included) as "Failed to fetch Linear projects: Unknown error"; an
    [McpError] is passed on as it is, without a log. *)
Theorem getProjects_query_rejected :
  forall (client : LinearClient)
         (args : GetProjectsRequestHandler.GetProjectsArgs) (e : exn),
    Js.truthy (GetProjectsRequestHandler.apiKey args) = true ->
    projects client []
      (if Js.truthyOpt (GetProjectsRequestHandler.search args)
       then {| projects_filter := None;
               projects_first :=
                 Some (GetProjectsRequestHandler.effectiveLimit args
                       * (2#1))%Q |}
       else {| projects_filter :=
                 Some (ProjectByStateType
                         (GetProjectsRequestHandler.stateFilter args));
               projects_first :=
                 Some (GetProjectsRequestHandler.effectiveLimit args) |})
    = Throw e ->
    run (GetProjectsRequestHandler.handleRequest client args)
    = (Throw
         match e with
         | McpError _ _ => e
         | JsError m =>
             McpError InternalError ("Failed to fetch Linear projects: " ++ m)
         | JsValue _ | JsNullish _ =>
             McpError InternalError
               "Failed to fetch Linear projects: Unknown error"
         end,
       {| calls :=
            [CallProjects
               (if Js.truthyOpt (GetProjectsRequestHandler.search args)
                then {| projects_filter := None;
                        projects_first :=
                          Some (GetProjectsRequestHandler.effectiveLimit args
                                * (2#1))%Q |}
                else {| projects_filter :=
                          Some (ProjectByStateType
                                  (GetProjectsRequestHandler.stateFilter args));
                        projects_first :=
                          Some (GetProjectsRequestHandler.effectiveLimit
                                  args) |})];
          console :=
            match e with
            | McpError _ _ => []
            | _ => [ConsoleError "Error fetching projects:" e]
            end |}).
Proof.
  intros client args e H Hp.
  unfold run, GetProjectsRequestHandler.handleRequest, tryCatch,
    GetProjectsRequestHandler.body. rewrite H. cbn [negb].
  unfold bind at 1, GetProjectsRequestHandler.fetchProjects.
  destruct (Js.truthyOpt (GetProjectsRequestHandler.search args)).
  - unfold bind at 1, await. cbv beta iota zeta. cbn [calls console world0].
    rewrite Hp. destruct e; reflexivity.
  - unfold await. cbv beta iota zeta. cbn [calls console world0].
    rewrite Hp. destruct e; reflexivity.
Qed.

Lemma getProjects_query_rejected_witness :
  fst (run (GetProjectsRequestHandler.handleRequest Sample.unreachable
              (Sample.projectsArgs None None)))
  = Throw (McpError InternalError
             "Failed to fetch Linear projects: connect ECONNREFUSED").
Proof.
  rewrite (getProjects_query_rejected Sample.unreachable
             (Sample.projectsArgs None None) Sample.down eq_refl eq_refl).
  reflexivity.
Defined.

(** ** The failures of the update handlers *)

Section UpdateFailures.

Variable client : LinearClient.

Lemma findIssue_throws_update (tid : string) (w w' : World) (e : exn) :
  UpdateTicketHandler.findIssue client tid w = (Throw e, w') ->
  e = McpError InternalError ("Could not find ticket: " ++ tid).
Proof.
  unfold UpdateTicketHandler.findIssue, tryCatch, bind, await,
    UpdateTicketHandler.firstIssue, log, throw.
  cbv beta iota zeta.
  destruct (issues client (calls w) _) as [[|i nodes]|e0];
    intro H; try discriminate H; now injection H as <-.
Qed.

(** The failures of update-ticket past the checks of the API key and the
    identifier, for a tracker whose rejections are no [McpError]s. The last
    one is the [TypeError] of reading the message of [null] or [undefined],
    when the update was rejected with such a value. *)
Lemma updateTicket_failures (args : UpdateTicketHandler.UpdateTicketArgs)
  (e : exn) :
  Js.truthy (UpdateTicketHandler.apiKey args) = true ->
  Js.truthy (UpdateTicketHandler.ticketId args) = true ->
  (forall h id d c m, updateIssue client h id d <> Throw (McpError c m)) ->
  fst (run (UpdateTicketHandler.handleRequest client args)) = Throw e ->
  e = McpError InvalidParams "At least one field to update is required"
  \/ e = McpError InvalidParams "Priority must be between 0 and 4"
  \/ e = McpError InternalError
           ("Could not find ticket: " ++ UpdateTicketHandler.ticketId args)
  \/ (exists m, e = McpError InternalError ("Failed to update ticket: " ++ m))
  \/ exists typeError h id d,
      e = JsError typeError
      /\ updateIssue client h id d = Throw (JsNullish typeError).
Proof.
  intros H1 H2 Hclient. unfold run, UpdateTicketHandler.handleRequest.
  rewrite H1, H2. cbn [negb].
  destruct (UpdateTicketHandler.hasUpdateField args); cbn [negb].
  2:{ intro H. injection H as <-. tauto. }
  destruct (UpdateTicketHandler.priorityOutOfRange args).
  { intro H. injection H as <-. tauto. }
  unfold tryCatch, UpdateTicketHandler.body. unfold bind at 1.
  destruct (UpdateTicketHandler.findIssue client _ world0)
    as [[i|e0] w1] eqn:F.
  2:{ rewrite (findIssue_throws_update _ _ _ _ F). cbn [rethrow].
      intro H. injection H as <-. tauto. }
  unfold bind at 1, UpdateTicketHandler.applyUpdate. unfold bind at 1, await.
  destruct (updateIssue client (calls w1) (issue_id i) _)
    as [payload|[c m|m|m|t]] eqn:U.
  - destruct (ipayload_success payload); cbn [negb].
    + unfold ret at 1. unfold bind.
      match goal with
      | |- context [fetchTeamById client ?t ?v] =>
          destruct (fetchTeamById_total client t v) as (team & w2 & ->)
      end.
      discriminate.
    + cbn [rethrow throw fst]. intro H. injection H as <-.
      do 3 right. left. now eexists.
  - now destruct (Hclient _ _ _ _ _ U).
  - cbn. intro H. injection H as <-. do 3 right. left. now exists m.
  - cbn. intro H. injection H as <-. do 3 right. left. now exists m.
  - cbn. intro H. injection H as <-. do 4 right.
    exists t, (calls w1), (issue_id i). eexists. split; [reflexivity|exact U].
Qed.

(** The failures of update-project, likewise: the [TypeError] comes from a
    rejection of the lookup of the project or of the update. *)
Lemma updateProject_failures (args : UpdateProjectHandler.UpdateProjectArgs)
  (e : exn) :
  Js.truthy (UpdateProjectHandler.apiKey args) = true ->
  Js.truthy (UpdateProjectHandler.projectId args) = true ->
  (forall h a c m, projects client h a <> Throw (McpError c m)) ->
  (forall h id d c m, updateProject client h id d <> Throw (McpError c m)) ->
  fst (run (UpdateProjectHandler.handleRequest client args)) = Throw e ->
  e = McpError InvalidParams "At least one field to update is required"
  \/ e = McpError InvalidParams "Progress must be between 0 and 1"
  \/ e = McpError InternalError
           ("Project not found: " ++ UpdateProjectHandler.projectId args)
  \/ (exists m, e = McpError InternalError ("Failed to update project: " ++ m))
  \/ exists typeError,
      e = JsError typeError
      /\ ((exists h q, projects client h q = Throw (JsNullish typeError))
          \/ exists h id d,
             updateProject client h id d = Throw (JsNullish typeError)).
Proof.
  intros H1 H2 Hp Hu. unfold run, UpdateProjectHandler.handleRequest.
  rewrite H1, H2. cbn [negb].
  destruct (UpdateProjectHandler.hasUpdateField args); cbn [negb].
  2:{ intro H. injection H as <-. tauto. }
  destruct (UpdateProjectHandler.progressOutOfRange args).
  { intro H. injection H as <-. tauto. }
  unfold tryCatch, UpdateProjectHandler.body. unfold bind at 1, await at 1.
  cbn [calls console world0 app].
  destruct (projects client [] _) as [[|found more]|[c m|m|m|t]] eqn:P.
  - cbn. intro H. injection H as <-. tauto.
  - unfold bind at 1, await at 1. cbn [calls console app].
    destruct (updateProject client _ (project_id found) _)
      as [payload|[c m|m|m|t]] eqn:U.
    + destruct (ppayload_success payload); cbn [negb].
      * unfold bind.
        match goal with
        | |- context [UpdateProjectHandler.fetchTeams client ?p ?v] =>
            destruct (fetchTeams_run client p v) as (ts & lg & -> & _)
        end.
        discriminate.
      * cbn. intro H. injection H as <-. do 3 right. left. now eexists.
    + now destruct (Hu _ _ _ _ _ U).
    + cbn. intro H. injection H as <-. do 3 right. left. now exists m.
    + cbn. intro H. injection H as <-. do 3 right. left. now exists m.
    + cbn. intro H. injection H as <-. do 4 right. exists t.
      split; [reflexivity|]. right. do 3 eexists. exact U.
  - now destruct (Hp _ _ _ _ P).
  - cbn. intro H. injection H as <-. do 3 right. left. now exists m.
  - cbn. intro H. injection H as <-. do 3 right. left. now exists m.
  - cbn. intro H. injection H as <-. do 4 right. exists t.
    split; [reflexivity|]. left. do 2 eexists. exact P.
Qed.

End UpdateFailures.

(** ** The tools as the server calls them *)

(** With its API key and identifier, get-ticket has one failure. *)
Lemma getTicket_failure_valid (client : LinearClient)
  (args : GetTicketByIdHandler.GetTicketByIdArgs) (e : exn) :
  Js.truthy (GetTicketByIdHandler.apiKey args) = true ->
  Js.truthy (GetTicketByIdHandler.ticketId args) = true ->
  fst (run (GetTicketByIdHandler.handleRequest client args)) = Throw e ->
  e = McpError InternalError
        ("Could not find ticket: " ++ GetTicketByIdHandler.ticketId args).
Proof.
  intros H1 H2. unfold run, GetTicketByIdHandler.handleRequest.
  rewrite H1, H2. cbn [negb]. unfold tryCatch.
  destruct (GetTicketByIdHandler.graphqlPath client args _ world0)
    as [[r|e0] w1]; [discriminate|].
  destruct (GetTicketByIdHandler.fallbackPath client args _ w1)
    as [[r|e1] w2] eqn:F; [discriminate|].
  rewrite (fallbackPath_throws client args _ _ _ _ F).
  intro H. now injection H as <-.
Qed.

(** X19. The tool get-linear-ticket, with the server's API key: without a
    ticket id the call fails with "ticketId is required" before any remote
    call; with one, the only failure is "Could not find ticket: " with
    that id. The handler's own checks of the API key and the ticket id
    never fire. *)
Theorem server_getLinearTicket_failures :
  forall (client : LinearClient) (apiKey : string) (ticketId : option string),
    Js.truthy apiKey = true ->
    (Js.truthyOpt ticketId = false ->
     run (Server.getLinearTicket client apiKey ticketId)
     = (Throw (McpError InvalidParams "ticketId is required"), world0))
    /\ (forall e,
           fst (run (Server.getLinearTicket client apiKey ticketId)) = Throw e ->
           e = McpError InvalidParams "ticketId is required"
           \/ exists t,
               ticketId = Some t
               /\ e = McpError InternalError ("Could not find ticket: " ++ t)).
Proof.
  intros client apiKey ticketId Hk. unfold Server.getLinearTicket. split.
  - destruct ticketId as [t|]; [|reflexivity]. cbn [Js.truthyOpt].
    now intros ->.
  - intro e. destruct ticketId as [t|].
    2:{ intro H. injection H as <-. now left. }
    destruct (Js.truthy t) eqn:T; cbn [negb].
    2:{ intro H. injection H as <-. now left. }
    intro H. right. exists t. split; [reflexivity|].
    exact (getTicket_failure_valid client
             (GetTicketByIdHandler.mkArgs apiKey t) e Hk T H).
Qed.

Lemma server_getLinearTicket_failures_witness :
  run (Server.getLinearTicket Sample.unreachable "lin_api_key" (Some ""))
  = (Throw (McpError InvalidParams "ticketId is required"), world0)
  /\ (McpError InternalError "Could not find ticket: ABC-7"
      = McpError InvalidParams "ticketId is required"
      \/ exists t,
          Some "ABC-7" = Some t
          /\ McpError InternalError "Could not find ticket: ABC-7"
             = McpError InternalError ("Could not find ticket: " ++ t)).
Proof.
  split.
  - exact (proj1 (server_getLinearTicket_failures Sample.unreachable
                    "lin_api_key" (Some "") eq_refl) eq_refl).
  - exact (proj2 (server_getLinearTicket_failures Sample.unreachable
                    "lin_api_key" (Some "ABC-7") eq_refl) _ eq_refl).
Defined.

(** X20. The tool update-linear-ticket, with the server's API key and a
    tracker whose rejections are no [McpError]s: without a ticket id the
    call fails with "ticketId is required" before any remote call;
    otherwise its failures are the check for a field to update, the check
    of the priority, "Could not find ticket: " with the id, "Failed to
    update ticket: " with the id or an upstream message, and, when the
    tracker rejected the update with [null] or [undefined], the [TypeError]
    that the handler raises by reading the message of that value: this one
    is no [McpError]. The handler's own checks of the API key and the
    ticket id never fire. *)
Theorem server_updateLinearTicket_failures :
  forall (client : LinearClient) (apiKey : string)
         (a : Server.UpdateTicketArguments),
    Js.truthy apiKey = true ->
    (forall h id d c m, updateIssue client h id d <> Throw (McpError c m)) ->
    (Js.truthyOpt (Server.ticketId a) = false ->
     run (Server.updateLinearTicket client apiKey a)
     = (Throw (McpError InvalidParams "ticketId is required"), world0))
    /\ (forall e,
           fst (run (Server.updateLinearTicket client apiKey a)) = Throw e ->
           e = McpError InvalidParams "ticketId is required"
           \/ e = McpError InvalidParams
                    "At least one field to update is required"
           \/ e = McpError InvalidParams "Priority must be between 0 and 4"
           \/ (exists t,
                  Server.ticketId a = Some t
                  /\ e = McpError InternalError ("Could not find ticket: " ++ t))
           \/ (exists m,
                  e = McpError InternalError ("Failed to update ticket: " ++ m))
           \/ exists typeError h id d,
               e = JsError typeError
               /\ updateIssue client h id d = Throw (JsNullish typeError)).
Proof.
  intros client apiKey a Hk Hclient. unfold Server.updateLinearTicket. split.
  - destruct (Server.ticketId a) as [t|]; [|reflexivity]. cbn [Js.truthyOpt].
    now intros ->.
  - intro e. destruct (Server.ticketId a) as [t|].
    2:{ intro H. injection H as <-. now left. }
    destruct (Js.truthy t) eqn:T; cbn [negb].
    2:{ intro H. injection H as <-. now left. }
    intro H.
    apply (updateTicket_failures client (Server.updateTicketArgs apiKey t a) e
             Hk T Hclient) in H.
    destruct H as [H|[H|[H|[H|H]]]]; [tauto | tauto | | tauto | tauto].
    do 3 right. left. now exists t.
Qed.

Lemma server_updateLinearTicket_failures_witness :
  run (Server.updateLinearTicket Fixture.rejectingUpdate "lin_api_key"
         (Fixture.titleArguments None))
  = (Throw (McpError InvalidParams "ticketId is required"), world0)
  /\ fst (run (Server.updateLinearTicket Fixture.rejectingUpdate "lin_api_key"
                 (Fixture.titleArguments (Some "ABC-7"))))
     = Throw (McpError InternalError
                "Failed to update ticket: connect ECONNREFUSED")
  /\ fst (run (Server.updateLinearTicket Fixture.nullUpdate "lin_api_key"
                 (Fixture.titleArguments (Some "ABC-7"))))
     = Throw (JsError Fixture.nullMessage).
Proof.
  assert (Hc : forall h id d c m,
             updateIssue Fixture.rejectingUpdate h id d
             <> Throw (McpError c m)) by (intros; discriminate).
  assert (Hn : forall h id d c m,
             updateIssue Fixture.nullUpdate h id d
             <> Throw (McpError c m)) by (intros; discriminate).
  split; [|split].
  - exact (proj1 (server_updateLinearTicket_failures Fixture.rejectingUpdate
                    "lin_api_key" (Fixture.titleArguments None) eq_refl Hc)
             eq_refl).
  - destruct (proj2 (server_updateLinearTicket_failures Fixture.rejectingUpdate
                       "lin_api_key" (Fixture.titleArguments (Some "ABC-7"))
                       eq_refl Hc) _ eq_refl) as [H|[H|[H|[H|[H|H]]]]];
      reflexivity.
  - destruct (proj2 (server_updateLinearTicket_failures Fixture.nullUpdate
                       "lin_api_key" (Fixture.titleArguments (Some "ABC-7"))
                       eq_refl Hn) _ eq_refl) as [H|[H|[H|[H|[H|H]]]]];
      reflexivity.
Defined.

(** X21. The tool update-linear-project, with the server's API key and a
    tracker whose rejections are no [McpError]s: without a project id the
    call fails with "projectId is required" before any remote call;
    otherwise its failures are the check for a field to update, the check
    of the progress, "Project not found: " with the id, "Failed to update
    project: " with the id or an upstream message, and, when the tracker
    rejected the lookup of the project or the update with [null] or
    [undefined], the [TypeError] that the handler raises by reading the
    message of that value: this one is no [McpError]. A failure to look up
    the teams of the project is none of them. *)
Theorem server_updateLinearProject_failures :
  forall (client : LinearClient) (apiKey : string)
         (a : Server.UpdateProjectArguments),
    Js.truthy apiKey = true ->
    (forall h q c m, projects client h q <> Throw (McpError c m)) ->
    (forall h id d c m, updateProject client h id d <> Throw (McpError c m)) ->
    (Js.truthyOpt (Server.projectId a) = false ->
     run (Server.updateLinearProject client apiKey a)
     = (Throw (McpError InvalidParams "projectId is required"), world0))
    /\ (forall e,
           fst (run (Server.updateLinearProject client apiKey a)) = Throw e ->
           e = McpError InvalidParams "projectId is required"
           \/ e = McpError InvalidParams
                    "At least one field to update is required"
           \/ e = McpError InvalidParams "Progress must be between 0 and 1"
           \/ (exists p,
                  Server.projectId a = Some p
                  /\ e = McpError InternalError ("Project not found: " ++ p))
           \/ (exists m,
                  e = McpError InternalError
                        ("Failed to update project: " ++ m))
           \/ exists typeError,
               e = JsError typeError
               /\ ((exists h q,
                       projects client h q = Throw (JsNullish typeError))
                   \/ exists h id d,
                      updateProject client h id d
                      = Throw (JsNullish typeError))).
Proof.
  intros client apiKey a Hk Hp Hu. unfold Server.updateLinearProject. split.
  - destruct (Server.projectId a) as [p|]; [|reflexivity]. cbn [Js.truthyOpt].
    now intros ->.
  - intro e. destruct (Server.projectId a) as [p|].
    2:{ intro H. injection H as <-. now left. }
    destruct (Js.truthy p) eqn:T; cbn [negb].
    2:{ intro H. injection H as <-. now left. }
    intro H.
    apply (updateProject_failures client (Server.updateProjectArgs apiKey p a)
             e Hk T Hp Hu) in H.
    destruct H as [H|[H|[H|[H|H]]]]; [tauto | tauto | | tauto | tauto].
    do 3 right. left. now exists p.
Qed.

Lemma server_updateLinearProject_failures_witness :
  run (Server.updateLinearProject Sample.vacant "lin_api_key"
         {| Server.projectId := None; Server.name := Some "Launch";
            Server.pdescription := None; Server.pstateId := None;
            Server.teamIds := None; Server.startDate := None;
            Server.targetDate := None; Server.progress := None;
            Server.icon := None; Server.color := None |})
  = (Throw (McpError InvalidParams "projectId is required"), world0)
  /\ fst (run (Server.updateLinearProject Fixture.nullUpdate "lin_api_key"
                 {| Server.projectId := Some "proj-1";
                    Server.name := Some "Launch";
                    Server.pdescription := None; Server.pstateId := None;
                    Server.teamIds := None; Server.startDate := None;
                    Server.targetDate := None; Server.progress := None;
                    Server.icon := None; Server.color := None |}))
     = Throw (JsError Fixture.nullMessage).
Proof.
  split.
  - refine (proj1 (server_updateLinearProject_failures Sample.vacant
                     "lin_api_key"
                     {| Server.projectId := None; Server.name := Some "Launch";
                        Server.pdescription := None; Server.pstateId := None;
                        Server.teamIds := None; Server.startDate := None;
                        Server.targetDate := None; Server.progress := None;
                        Server.icon := None; Server.color := None |}
                     eq_refl _ _) eq_refl);
      intros; discriminate.
  - assert (Hp : forall h q c m,
               projects Fixture.nullUpdate h q <> Throw (McpError c m))
      by (intros; discriminate).
    assert (Hu : forall h id d c m,
               updateProject Fixture.nullUpdate h id d
               <> Throw (McpError c m)) by (intros; discriminate).
    destruct (proj2 (server_updateLinearProject_failures Fixture.nullUpdate
                       "lin_api_key"
                       {| Server.projectId := Some "proj-1";
                          Server.name := Some "Launch";
                          Server.pdescription := None;
                          Server.pstateId := None;
                          Server.teamIds := None; Server.startDate := None;
                          Server.targetDate := None; Server.progress := None;
                          Server.icon := None; Server.color := None |}
                       eq_refl Hp Hu) _ eq_refl) as [H|[H|[H|[H|[H|H]]]]];
      reflexivity.
Defined.

(** ** get-workflow-states *)

(** X22. get-workflow-states with a team id: the handler makes one
    request, the list of the states of that team; a team key given along
    is not looked up. The states come back in the order of the tracker,
    each with its id, name and type, and with its color when it has one. *)
Theorem getWorkflowStates_by_team_id :
  forall (mcpMessage : ErrorCode -> string -> string)
         (client : GetWorkflowStatesHandler.Client)
         (args : GetWorkflowStatesHandler.GetWorkflowStatesArgs) (t : string),
    Js.truthy (GetWorkflowStatesHandler.apiKey args) = true ->
    GetWorkflowStatesHandler.teamId args = Some t ->
    Js.truthy t = true ->
    snd (GetWorkflowStatesHandler.handleRequest mcpMessage client args)
    = [GetWorkflowStatesHandler.RequestWorkflowStates (Some t)]
    /\ (forall nodes,
           GetWorkflowStatesHandler.workflowStates client [] (Some t)
           = Return nodes ->
           fst (GetWorkflowStatesHandler.handleRequest mcpMessage client args)
           = Return (map GetWorkflowStatesHandler.stateInfo nodes)
           /\ map GetWorkflowStatesHandler.id
                (map GetWorkflowStatesHandler.stateInfo nodes)
              = map GetWorkflowStatesHandler.node_id nodes).
Proof.
  intros mcpMessage client args t Hk Ht Htr.
  assert (E : GetWorkflowStatesHandler.handleRequest mcpMessage client args
              = GetWorkflowStatesHandler.listStates client [] (Some t)).
  { unfold GetWorkflowStatesHandler.handleRequest. rewrite Hk, Ht.
    cbn [Js.truthyOpt negb andb]. rewrite Htr. cbn [negb andb].
    destruct (GetWorkflowStatesHandler.teamKey args) as [key|]; [|reflexivity].
    now rewrite andb_false_r. }
  rewrite E. unfold GetWorkflowStatesHandler.listStates.
  cbn [Js.truthyOpt]. rewrite Htr. cbn [fst snd app]. split; [reflexivity|].
  intros nodes ->. split; [reflexivity|]. now rewrite map_map.
Qed.

Lemma getWorkflowStates_by_team_id_witness :
  GetWorkflowStatesHandler.handleRequest UpdateTicketDoneHandler.sdkMessage
    StatesFixture.client (StatesFixture.args (Some "team-42") (Some "XYZ"))
  = (Return [GetWorkflowStatesHandler.mkStateInfo "state-1" "Todo" "unstarted"
               (Some "#e2e2e2");
             GetWorkflowStatesHandler.mkStateInfo "state-2" "Done" "completed"
               None],
     [GetWorkflowStatesHandler.RequestWorkflowStates (Some "team-42")]).
Proof.
  destruct (getWorkflowStates_by_team_id UpdateTicketDoneHandler.sdkMessage
              StatesFixture.client
              (StatesFixture.args (Some "team-42") (Some "XYZ")) "team-42"
              eq_refl eq_refl eq_refl) as [Hs Hf].
  destruct (Hf _ eq_refl) as [Hr _].
  rewrite (surjective_pairing
             (GetWorkflowStatesHandler.handleRequest _ _ _)), Hs, Hr.
  reflexivity.
Defined.

(** X23. get-workflow-states with a team key and no team id: the team is
    looked up by the key first. When no team has the key, the request
    fails after that one lookup, without listing any state, and its
    message wraps the message of the inner error: "Failed to find team with
    key K: " followed by the message of an error built from "Team not found
    with key: K". When teams have the key, the states are listed for the
    id of the first one (without a filter when that id is empty). When the
    lookup is rejected, the request fails after that one lookup: with
    "Failed to find team with key K: " and the message of the rejection,
    and, when the rejection is [null] or [undefined], with "Failed to get
    workflow states: " and the message of the [TypeError] that reading the
    message of that value raises in the inner handler. *)
Theorem getWorkflowStates_by_team_key :
  forall (mcpMessage : ErrorCode -> string -> string)
         (client : GetWorkflowStatesHandler.Client)
         (args : GetWorkflowStatesHandler.GetWorkflowStatesArgs) (key : string),
    Js.truthy (GetWorkflowStatesHandler.apiKey args) = true ->
    Js.truthyOpt (GetWorkflowStatesHandler.teamId args) = false ->
    GetWorkflowStatesHandler.teamKey args = Some key ->
    Js.truthy key = true ->
    match GetWorkflowStatesHandler.teams client [] key with
    | Return [] =>
        GetWorkflowStatesHandler.handleRequest mcpMessage client args
        = (Throw (McpError InternalError
                    ("Failed to find team with key " ++ key ++ ": "
                     ++ mcpMessage InternalError
                          ("Team not found with key: " ++ key))),
           [GetWorkflowStatesHandler.RequestTeams key])
    | Return (t :: _) =>
        let filter := if Js.truthy (team_id t) then Some (team_id t)
                      else None in
        snd (GetWorkflowStatesHandler.handleRequest mcpMessage client args)
        = [GetWorkflowStatesHandler.RequestTeams key;
           GetWorkflowStatesHandler.RequestWorkflowStates filter]
        /\ forall nodes,
            GetWorkflowStatesHandler.workflowStates client
              [GetWorkflowStatesHandler.RequestTeams key] filter
            = Return nodes ->
            fst (GetWorkflowStatesHandler.handleRequest mcpMessage client args)
            = Return (map GetWorkflowStatesHandler.stateInfo nodes)
    | Throw e =>
        GetWorkflowStatesHandler.handleRequest mcpMessage client args
        = (Throw (McpError InternalError
                    match e with
                    | McpError c m =>
                        "Failed to find team with key " ++ key ++ ": "
                        ++ mcpMessage c m
                    | JsError m | JsValue m =>
                        "Failed to find team with key " ++ key ++ ": " ++ m
                    | JsNullish typeError =>
                        "Failed to get workflow states: " ++ typeError
                    end),
           [GetWorkflowStatesHandler.RequestTeams key])
    end.
Proof.
  intros mcpMessage client args key Hk Hid Hkey Htr.
  unfold GetWorkflowStatesHandler.handleRequest. rewrite Hk, Hid, Hkey.
  cbn [Js.truthyOpt negb andb]. rewrite Htr. cbn [negb andb].
  unfold GetWorkflowStatesHandler.findTeamId.
  destruct (GetWorkflowStatesHandler.teams client [] key)
    as [[|t more]|[c m|m|m|typeError]];
    try reflexivity.
  cbv zeta. unfold GetWorkflowStatesHandler.listStates.
  cbn [Js.truthyOpt fst snd app]. split; [reflexivity|].
  now intros nodes ->.
Qed.

Lemma getWorkflowStates_by_team_key_witness :
  GetWorkflowStatesHandler.handleRequest UpdateTicketDoneHandler.sdkMessage
    StatesFixture.client (StatesFixture.args None (Some "XYZ"))
  = (Throw (McpError InternalError
              "Failed to find team with key XYZ: MCP error -32603: Team not found with key: XYZ"),
     [GetWorkflowStatesHandler.RequestTeams "XYZ"])
  /\ snd (GetWorkflowStatesHandler.handleRequest
            UpdateTicketDoneHandler.sdkMessage StatesFixture.client
            (StatesFixture.args (Some "") (Some "ABC")))
     = [GetWorkflowStatesHandler.RequestTeams "ABC";
        GetWorkflowStatesHandler.RequestWorkflowStates (Some "team-42")]
  /\ GetWorkflowStatesHandler.handleRequest UpdateTicketDoneHandler.sdkMessage
       StatesFixture.rejectingWithNull (StatesFixture.args None (Some "ABC"))
     = (Throw (McpError InternalError
                 "Failed to get workflow states: Cannot read properties of null (reading 'message')"),
        [GetWorkflowStatesHandler.RequestTeams "ABC"]).
Proof.
  split; [|split].
  - exact (getWorkflowStates_by_team_key UpdateTicketDoneHandler.sdkMessage
             StatesFixture.client (StatesFixture.args None (Some "XYZ")) "XYZ"
             eq_refl eq_refl eq_refl eq_refl).
  - exact (proj1 (getWorkflowStates_by_team_key
                    UpdateTicketDoneHandler.sdkMessage StatesFixture.client
                    (StatesFixture.args (Some "") (Some "ABC")) "ABC"
                    eq_refl eq_refl eq_refl eq_refl)).
  - exact (getWorkflowStates_by_team_key UpdateTicketDoneHandler.sdkMessage
             StatesFixture.rejectingWithNull
             (StatesFixture.args None (Some "ABC")) "ABC"
             eq_refl eq_refl eq_refl eq_refl).
Defined.

(** X24. The failures of get-workflow-states. Without an API key, or with
    neither a team id nor a team key, the request fails with an
    invalid-parameter error and makes no request. A rejected list of states
    is reported as it is when the rejection is an [McpError], and as "Failed
    to get workflow states: " with its message when it is another error or
    value; when it is [null] or [undefined], reading its message raises a
    [TypeError] in the last handler, and that [TypeError] is the failure of
    the request. It is the only failure that is no [McpError]. *)
Theorem getWorkflowStates_failures :
  forall (mcpMessage : ErrorCode -> string -> string)
         (client : GetWorkflowStatesHandler.Client)
         (args : GetWorkflowStatesHandler.GetWorkflowStatesArgs),
    (Js.truthy (GetWorkflowStatesHandler.apiKey args) = false ->
     GetWorkflowStatesHandler.handleRequest mcpMessage client args
     = (Throw (McpError InvalidParams "Linear API key is required"), []))
    /\ (Js.truthy (GetWorkflowStatesHandler.apiKey args) = true ->
        Js.truthyOpt (GetWorkflowStatesHandler.teamId args) = false ->
        Js.truthyOpt (GetWorkflowStatesHandler.teamKey args) = false ->
        GetWorkflowStatesHandler.handleRequest mcpMessage client args
        = (Throw (McpError InvalidParams "Either teamId or teamKey is required"),
           []))
    /\ (forall e,
           fst (GetWorkflowStatesHandler.handleRequest mcpMessage client args)
           = Throw e ->
           isMcpError e
           \/ exists typeError h filter,
               e = JsError typeError
               /\ GetWorkflowStatesHandler.workflowStates client h filter
                  = Throw (JsNullish typeError))
    /\ (forall h t e,
           GetWorkflowStatesHandler.workflowStates client h
             (if Js.truthyOpt t then t else None) = Throw e ->
           fst (GetWorkflowStatesHandler.listStates client h t)
           = Throw match e with
                   | McpError c m => McpError c m
                   | JsError m | JsValue m =>
                       McpError InternalError
                         ("Failed to get workflow states: " ++ m)
                   | JsNullish typeError => JsError typeError
                   end)
    /\ (forall t typeError,
           Js.truthy (GetWorkflowStatesHandler.apiKey args) = true ->
           GetWorkflowStatesHandler.teamId args = Some t ->
           Js.truthy t = true ->
           GetWorkflowStatesHandler.workflowStates client [] (Some t)
           = Throw (JsNullish typeError) ->
           fst (GetWorkflowStatesHandler.handleRequest mcpMessage client args)
           = Throw (JsError typeError)
           /\ ~ isMcpError (JsError typeError)).
Proof.
  intros mcpMessage client args. split; [|split; [|split; [|split]]].
  - intro H. unfold GetWorkflowStatesHandler.handleRequest. now rewrite H.
  - intros H1 H2 H3. unfold GetWorkflowStatesHandler.handleRequest.
    now rewrite H1, H2, H3.
  - assert (L : forall h t e,
               fst (GetWorkflowStatesHandler.listStates client h t) = Throw e ->
               isMcpError e
               \/ exists typeError h filter,
                   e = JsError typeError
                   /\ GetWorkflowStatesHandler.workflowStates client h filter
                      = Throw (JsNullish typeError)).
    { intros h t e. unfold GetWorkflowStatesHandler.listStates. cbn [fst].
      destruct (GetWorkflowStatesHandler.workflowStates client h _)
        as [nodes|[c m|m|m|typeError]] eqn:W; intro H; try discriminate H;
        injection H as <-; try (left; exact I).
      right. exists typeError, h. eexists. split; [reflexivity|exact W]. }
    intro e. unfold GetWorkflowStatesHandler.handleRequest.
    destruct (negb _); [intro H; injection H as <-; left; exact I|].
    destruct (andb _ _); [intro H; injection H as <-; left; exact I|].
    destruct (GetWorkflowStatesHandler.teamKey args) as [key|]; [|apply L].
    destruct (andb _ _); [|apply L].
    unfold GetWorkflowStatesHandler.findTeamId.
    destruct (GetWorkflowStatesHandler.teams client [] key)
      as [[|t more]|[c m|m|m|typeError]];
      try apply L; intro H; injection H as <-; left; exact I.
  - intros h t e H. unfold GetWorkflowStatesHandler.listStates. cbn [fst].
    rewrite H. now destruct e.
  - intros t typeError Hk Ht Htr W. split; [|intros []].
    unfold GetWorkflowStatesHandler.handleRequest. rewrite Hk, Ht.
    cbn [Js.truthyOpt negb andb]. rewrite Htr. cbn [negb andb].
    assert (E : fst (GetWorkflowStatesHandler.listStates client [] (Some t))
                = Throw (JsError typeError)).
    { unfold GetWorkflowStatesHandler.listStates. cbn [Js.truthyOpt fst].
      rewrite Htr. now rewrite W. }
    destruct (GetWorkflowStatesHandler.teamKey args) as [key|]; [|exact E].
    rewrite andb_false_r. exact E.
Qed.

Lemma getWorkflowStates_failures_witness :
  GetWorkflowStatesHandler.handleRequest UpdateTicketDoneHandler.sdkMessage
    StatesFixture.client (StatesFixture.args None (Some ""))
  = (Throw (McpError InvalidParams "Either teamId or teamKey is required"), [])
  /\ fst (GetWorkflowStatesHandler.listStates StatesFixture.client []
            (Some "team-7"))
     = Throw (McpError InternalError
                "Failed to get workflow states: connect ECONNREFUSED")
  /\ fst (GetWorkflowStatesHandler.handleRequest
            UpdateTicketDoneHandler.sdkMessage StatesFixture.rejectingWithNull
            (StatesFixture.args (Some "team-7") None))
     = Throw (JsError Fixture.nullMessage).
Proof.
  destruct (getWorkflowStates_failures UpdateTicketDoneHandler.sdkMessage
              StatesFixture.client (StatesFixture.args None (Some "")))
    as (_ & H & _ & Hl & _).
  destruct (getWorkflowStates_failures UpdateTicketDoneHandler.sdkMessage
              StatesFixture.rejectingWithNull
              (StatesFixture.args (Some "team-7") None))
    as (_ & _ & _ & _ & Hn).
  split; [|split].
  - exact (H eq_refl eq_refl eq_refl).
  - exact (Hl [] (Some "team-7") _ eq_refl).
  - exact (proj1 (Hn "team-7" Fixture.nullMessage eq_refl eq_refl eq_refl
                    eq_refl)).
Defined.
